(** * Dragonfly2 peer task pull engine

    A shallow embedding of [client/daemon/peer/peertask_base.go],
    [peertask_file.go] and [peertask_dummy.go], and the properties of the
    peer task state machine checked against it.

    Conventions of the embedding:
    - Go integers are [Z]; [int64] arithmetic that can wrap is written with
      [wrap64].
    - A method [pt.f(a)] that mutates the task is a function
      [f a : peerTask -> peerTask] (with the returned [error] in front when the
      callers look at it).
    - A [select] whose outcome depends on other goroutines takes the chosen
      branch as an argument.
    - Calls into external collaborators (scheduler stream, task callback, piece
      manager) are recorded in the [trace] field of the task, newest first. *)

From stdpp Require Import base numbers strings pretty list gmap.

Open Scope Z_scope.

(** ** Go basics *)

Definition wrap64 (z : Z) : Z := (z + 2 ^ 63) mod 2 ^ 64 - 2 ^ 63.

Inductive error :=
| errors_New (msg : string)
| dferrors_DfError (code : Z) (msg : string)
| io_EOF
| context_Canceled.

Definition Error (e : error) : string :=
  match e with
  | errors_New msg => msg
  | dferrors_DfError _ msg => msg
  | io_EOF => "EOF"
  | context_Canceled => "context canceled"
  end.

(** A channel: the buffered values (oldest first) and whether it was closed. *)
Record chan (A : Type) := Build_chan { buf : list A; closed : bool }.
Arguments Build_chan {A} _ _.
Arguments buf {A} _.
Arguments closed {A} _.

Definition make {A : Type} : chan A := Build_chan [] false.
Definition chan_push {A : Type} (x : A) (c : chan A) : chan A :=
  Build_chan (buf c ++ [x]) (closed c).
Definition chan_pop {A : Type} (c : chan A) : chan A :=
  Build_chan (tail (buf c)) (closed c).
Definition close {A : Type} (c : chan A) : chan A := Build_chan (buf c) true.

(** ** Package dfcodes

    The numeric values of the response codes are declared in
    [internal/dfcodes], which is outside the sources at hand; the peer task
    only names them, so they are a parameter of the development. *)
Module dfcodes.
Class Table := {
  Success : Z;
  ResourceLacked : Z;
  BadRequest : Z;
  PeerTaskNotFound : Z;
  UnknownError : Z;
  RequestTimeOut : Z;
  ClientError : Z;
  ClientPieceRequestFail : Z;
  ClientScheduleTimeout : Z;
  ClientContextCanceled : Z;
  ClientWaitPieceReady : Z;
  ClientRequestLimitFail : Z;
  SchedError : Z;
  SchedNeedBackSource : Z;
  SchedPeerGone : Z;
  CdnError : Z;
  CdnTaskRegistryFail : Z;
  CdnTaskDownloadFail : Z;
  CdnTaskNotFound : Z
}.
End dfcodes.

(** ** Messages of packages base and scheduler (the fields the task touches) *)

Module UrlMeta.
Record t := Build { Digest : string; Tag : string; Range : string; Filter : string }.
End UrlMeta.

(** ** Package idgen

    [idgen.TaskID(url, meta)] hashes the url and its meta data into a task
    id; the function is declared outside the sources at hand and is a
    parameter of the development. *)
Module idgen.
Class Hasher := { TaskID : string -> UrlMeta.t -> string }.
End idgen.

Module PieceInfo.
(** [PieceNum] is an [int32], [RangeStart] a [uint64], [RangeSize] a [uint32]. *)
Record t := Build { PieceNum : Z; RangeStart : Z; RangeSize : Z }.
End PieceInfo.

Module PiecePacket.
Record t := Build {
  TaskId : string;
  DstPid : string;
  DstAddr : string;
  PieceInfos : list PieceInfo.t;
  TotalPiece : Z;
  ContentLength : Z
}.
End PiecePacket.

Module DestPeer.
Record t := Build { Ip : string; RpcPort : Z; PeerId : string }.
End DestPeer.

Module PeerPacket.
(** [MainPeer] is a pointer and [StealPeers] a slice: both can be nil. *)
Record t := Build {
  TaskId : string;
  SrcPid : string;
  ParallelCount : Z;
  MainPeer : option DestPeer.t;
  StealPeers : option (list DestPeer.t);
  Code : Z
}.
End PeerPacket.

Module PieceResult.
Record t := Build {
  TaskId : string;
  SrcPid : string;
  DstPid : string;
  PieceNum : Z;
  Success : bool;
  Code : Z;
  FinishedCount : Z
}.
Definition with_FinishedCount (n : Z) (r : t) : t :=
  Build (TaskId r) (SrcPid r) (DstPid r) (PieceNum r) (Success r) (Code r) n.
End PieceResult.

Module SinglePiece.
Record t := Build { DstPid : string; DstAddr : string; PieceInfo : PieceInfo.t }.
End SinglePiece.

Inductive SizeScope := SizeScope_NORMAL | SizeScope_SMALL | SizeScope_TINY.

Inductive isRegisterResult_DirectPiece :=
| RegisterResult_none
| RegisterResult_SinglePiece (p : SinglePiece.t)
| RegisterResult_PieceContent (content : string).

Module RegisterResult.
Record t := Build {
  TaskId : string;
  SizeScope : SizeScope;
  DirectPiece : isRegisterResult_DirectPiece
}.
End RegisterResult.

Module PeerTaskRequest.
Record t := Build { Url : string; UrlMeta : UrlMeta.t; PeerId : string }.
End PeerTaskRequest.

Definition EndOfPiece : Z := -1.

(** Modelled from the spec: [scheduler.NewEndPieceResult] is declared outside
    the sources at hand; the end-of-stream sentinel is "a final PieceResult
    with piece_num = EndOfPiece", the other fields are left at their zero
    values. *)
Definition NewEndPieceResult (taskID peerID : string) (finishedCount : Z)
  : PieceResult.t :=
  PieceResult.Build taskID peerID "" EndOfPiece false 0 finishedCount.

(** ** Bitmap

    Modelled from the spec: the [Bitmap] type ([NewBitmap], [Set], [IsSet],
    [Settled]) is declared outside the sources at hand. The spec describes a
    dense bit set over piece indices whose [set] is idempotent and whose
    [count] is the number of set bits. *)
Module Bitmap.
Definition NewBitmap : gset Z := ∅.
Definition IsSet (b : gset Z) (i : Z) : bool := bool_decide (i ∈ b).
Definition SetBit (b : gset Z) (i : Z) : gset Z := {[i]} ∪ b.
Definition Settled (b : gset Z) : Z := Z.of_nat (size b).
End Bitmap.

(** ** The scheduler stream

    [realStream inbox] is a stream opened by the scheduler client; [inbox] is
    what the scheduler will deliver, in order. [dummyPeerPacketStream] is the
    stub of [peertask_dummy.go]. *)
Inductive RecvResult :=
| RecvPacket (pp : PeerPacket.t)
| RecvError (err : error).

Inductive PeerPacketStream :=
| realStream (inbox : list RecvResult)
| dummyPeerPacketStream.

(** ** Progress events of the file peer task *)
Module ProgressState.
Record t := Build { Success : bool; Code : Z; Msg : string }.
End ProgressState.

Module FilePeerTaskProgress.
Record t := Build {
  State : ProgressState.t;
  TaskID : string;
  PeerID : string;
  ContentLength : Z;
  CompletedLength : Z;
  PeerTaskDone : bool
}.
End FilePeerTaskProgress.

(** ** Observable effects *)
Inductive Event :=
| EvSend (settled : Z) (pr : PieceResult.t)
  (** [peerPacketStream.Send(pr)] on a real stream; [settled] is
      [readyPieces.Settled()] at the moment [Send] ran. *)
| EvProgress (p : FilePeerTaskProgress.t)  (** delivered on [progressCh] *)
| EvCallbackInit
| EvCallbackUpdate
| EvCallbackDone
| EvCallbackFail (code : Z) (reason : string)
| EvDownloadSource                          (** [pieceManager.DownloadSource] *)
| EvFinishBody                              (** body of [finish] entered *)
| EvCleanUnfinishedBody                     (** body of [cleanUnfinished] entered *)
| EvCloseDone                               (** [close(pt.done)] *)
| EvSpawnWorker (id : Z)
| EvPanic (msg : string).

(** ** The task

    [filePeerTask] embeds [peerTask]; the record below holds the fields of
    both that the code reads or writes. Channels that only ever get closed
    ([done], [progressStopCh]) are a flag: [true] once closed. [ctxDone] is
    [true] once [pt.cancel] (or the parent context) cancelled [pt.ctx];
    [Start] replaces [pt.ctx]. [once] is the state of the [sync.Once]. *)
Record peerTask := Build_peerTask {
  ctxDone : bool;
  needBackSource : bool;
  DisableAutoBackSource : bool;
  peerID : string;
  taskID : string;
  totalPiece : Z;
  contentLength : Z;
  completedLength : Z;
  usedTraffic : Z;
  singlePiece : option SinglePiece.t;
  peerPacketStream : PeerPacketStream;
  peerPacket : option PeerPacket.t;
  peerPacketReady : chan bool;
  pieceParallelCount : Z;
  done : bool;
  peerTaskDone : bool;
  once : bool;
  failedPieceCh : chan Z;
  failedReason : string;
  failedCode : Z;
  readyPieces : gset Z;
  requestedPieces : gset Z;
  progressStopCh : bool;
  trace : list Event
}.

(** Field updates: [set_f v pt] is [pt] with field [f] set to [v]. *)
Definition set_ctxDone (v : bool) (pt : peerTask) : peerTask :=
  Build_peerTask v (needBackSource pt) (DisableAutoBackSource pt) (peerID pt)
    (taskID pt) (totalPiece pt) (contentLength pt) (completedLength pt)
    (usedTraffic pt) (singlePiece pt) (peerPacketStream pt) (peerPacket pt)
    (peerPacketReady pt) (pieceParallelCount pt) (done pt) (peerTaskDone pt)
    (once pt) (failedPieceCh pt) (failedReason pt) (failedCode pt)
    (readyPieces pt) (requestedPieces pt) (progressStopCh pt) (trace pt).
Definition set_needBackSource (v : bool) (pt : peerTask) : peerTask :=
  Build_peerTask (ctxDone pt) v (DisableAutoBackSource pt) (peerID pt)
    (taskID pt) (totalPiece pt) (contentLength pt) (completedLength pt)
    (usedTraffic pt) (singlePiece pt) (peerPacketStream pt) (peerPacket pt)
    (peerPacketReady pt) (pieceParallelCount pt) (done pt) (peerTaskDone pt)
    (once pt) (failedPieceCh pt) (failedReason pt) (failedCode pt)
    (readyPieces pt) (requestedPieces pt) (progressStopCh pt) (trace pt).
Definition set_totalPiece (v : Z) (pt : peerTask) : peerTask :=
  Build_peerTask (ctxDone pt) (needBackSource pt) (DisableAutoBackSource pt)
    (peerID pt) (taskID pt) v (contentLength pt) (completedLength pt)
    (usedTraffic pt) (singlePiece pt) (peerPacketStream pt) (peerPacket pt)
    (peerPacketReady pt) (pieceParallelCount pt) (done pt) (peerTaskDone pt)
    (once pt) (failedPieceCh pt) (failedReason pt) (failedCode pt)
    (readyPieces pt) (requestedPieces pt) (progressStopCh pt) (trace pt).
Definition set_contentLength (v : Z) (pt : peerTask) : peerTask :=
  Build_peerTask (ctxDone pt) (needBackSource pt) (DisableAutoBackSource pt)
    (peerID pt) (taskID pt) (totalPiece pt) v (completedLength pt)
    (usedTraffic pt) (singlePiece pt) (peerPacketStream pt) (peerPacket pt)
    (peerPacketReady pt) (pieceParallelCount pt) (done pt) (peerTaskDone pt)
    (once pt) (failedPieceCh pt) (failedReason pt) (failedCode pt)
    (readyPieces pt) (requestedPieces pt) (progressStopCh pt) (trace pt).
Definition set_completedLength (v : Z) (pt : peerTask) : peerTask :=
  Build_peerTask (ctxDone pt) (needBackSource pt) (DisableAutoBackSource pt)
    (peerID pt) (taskID pt) (totalPiece pt) (contentLength pt) v
    (usedTraffic pt) (singlePiece pt) (peerPacketStream pt) (peerPacket pt)
    (peerPacketReady pt) (pieceParallelCount pt) (done pt) (peerTaskDone pt)
    (once pt) (failedPieceCh pt) (failedReason pt) (failedCode pt)
    (readyPieces pt) (requestedPieces pt) (progressStopCh pt) (trace pt).
Definition set_usedTraffic (v : Z) (pt : peerTask) : peerTask :=
  Build_peerTask (ctxDone pt) (needBackSource pt) (DisableAutoBackSource pt)
    (peerID pt) (taskID pt) (totalPiece pt) (contentLength pt)
    (completedLength pt) v (singlePiece pt) (peerPacketStream pt)
    (peerPacket pt) (peerPacketReady pt) (pieceParallelCount pt) (done pt)
    (peerTaskDone pt) (once pt) (failedPieceCh pt) (failedReason pt)
    (failedCode pt) (readyPieces pt) (requestedPieces pt) (progressStopCh pt)
    (trace pt).
Definition set_peerPacketStream (v : PeerPacketStream) (pt : peerTask) : peerTask :=
  Build_peerTask (ctxDone pt) (needBackSource pt) (DisableAutoBackSource pt)
    (peerID pt) (taskID pt) (totalPiece pt) (contentLength pt)
    (completedLength pt) (usedTraffic pt) (singlePiece pt) v (peerPacket pt)
    (peerPacketReady pt) (pieceParallelCount pt) (done pt) (peerTaskDone pt)
    (once pt) (failedPieceCh pt) (failedReason pt) (failedCode pt)
    (readyPieces pt) (requestedPieces pt) (progressStopCh pt) (trace pt).
Definition set_peerPacket (v : option PeerPacket.t) (pt : peerTask) : peerTask :=
  Build_peerTask (ctxDone pt) (needBackSource pt) (DisableAutoBackSource pt)
    (peerID pt) (taskID pt) (totalPiece pt) (contentLength pt)
    (completedLength pt) (usedTraffic pt) (singlePiece pt)
    (peerPacketStream pt) v (peerPacketReady pt) (pieceParallelCount pt)
    (done pt) (peerTaskDone pt) (once pt) (failedPieceCh pt) (failedReason pt)
    (failedCode pt) (readyPieces pt) (requestedPieces pt) (progressStopCh pt)
    (trace pt).
Definition set_peerPacketReady (v : chan bool) (pt : peerTask) : peerTask :=
  Build_peerTask (ctxDone pt) (needBackSource pt) (DisableAutoBackSource pt)
    (peerID pt) (taskID pt) (totalPiece pt) (contentLength pt)
    (completedLength pt) (usedTraffic pt) (singlePiece pt)
    (peerPacketStream pt) (peerPacket pt) v (pieceParallelCount pt) (done pt)
    (peerTaskDone pt) (once pt) (failedPieceCh pt) (failedReason pt)
    (failedCode pt) (readyPieces pt) (requestedPieces pt) (progressStopCh pt)
    (trace pt).
Definition set_pieceParallelCount (v : Z) (pt : peerTask) : peerTask :=
  Build_peerTask (ctxDone pt) (needBackSource pt) (DisableAutoBackSource pt)
    (peerID pt) (taskID pt) (totalPiece pt) (contentLength pt)
    (completedLength pt) (usedTraffic pt) (singlePiece pt)
    (peerPacketStream pt) (peerPacket pt) (peerPacketReady pt) v (done pt)
    (peerTaskDone pt) (once pt) (failedPieceCh pt) (failedReason pt)
    (failedCode pt) (readyPieces pt) (requestedPieces pt) (progressStopCh pt)
    (trace pt).
Definition set_done (v : bool) (pt : peerTask) : peerTask :=
  Build_peerTask (ctxDone pt) (needBackSource pt) (DisableAutoBackSource pt)
    (peerID pt) (taskID pt) (totalPiece pt) (contentLength pt)
    (completedLength pt) (usedTraffic pt) (singlePiece pt)
    (peerPacketStream pt) (peerPacket pt) (peerPacketReady pt)
    (pieceParallelCount pt) v (peerTaskDone pt) (once pt) (failedPieceCh pt)
    (failedReason pt) (failedCode pt) (readyPieces pt) (requestedPieces pt)
    (progressStopCh pt) (trace pt).
Definition set_peerTaskDone (v : bool) (pt : peerTask) : peerTask :=
  Build_peerTask (ctxDone pt) (needBackSource pt) (DisableAutoBackSource pt)
    (peerID pt) (taskID pt) (totalPiece pt) (contentLength pt)
    (completedLength pt) (usedTraffic pt) (singlePiece pt)
    (peerPacketStream pt) (peerPacket pt) (peerPacketReady pt)
    (pieceParallelCount pt) (done pt) v (once pt) (failedPieceCh pt)
    (failedReason pt) (failedCode pt) (readyPieces pt) (requestedPieces pt)
    (progressStopCh pt) (trace pt).
Definition set_once (v : bool) (pt : peerTask) : peerTask :=
  Build_peerTask (ctxDone pt) (needBackSource pt) (DisableAutoBackSource pt)
    (peerID pt) (taskID pt) (totalPiece pt) (contentLength pt)
    (completedLength pt) (usedTraffic pt) (singlePiece pt)
    (peerPacketStream pt) (peerPacket pt) (peerPacketReady pt)
    (pieceParallelCount pt) (done pt) (peerTaskDone pt) v (failedPieceCh pt)
    (failedReason pt) (failedCode pt) (readyPieces pt) (requestedPieces pt)
    (progressStopCh pt) (trace pt).
Definition set_failedPieceCh (v : chan Z) (pt : peerTask) : peerTask :=
  Build_peerTask (ctxDone pt) (needBackSource pt) (DisableAutoBackSource pt)
    (peerID pt) (taskID pt) (totalPiece pt) (contentLength pt)
    (completedLength pt) (usedTraffic pt) (singlePiece pt)
    (peerPacketStream pt) (peerPacket pt) (peerPacketReady pt)
    (pieceParallelCount pt) (done pt) (peerTaskDone pt) (once pt) v
    (failedReason pt) (failedCode pt) (readyPieces pt) (requestedPieces pt)
    (progressStopCh pt) (trace pt).
Definition set_failedReason (v : string) (pt : peerTask) : peerTask :=
  Build_peerTask (ctxDone pt) (needBackSource pt) (DisableAutoBackSource pt)
    (peerID pt) (taskID pt) (totalPiece pt) (contentLength pt)
    (completedLength pt) (usedTraffic pt) (singlePiece pt)
    (peerPacketStream pt) (peerPacket pt) (peerPacketReady pt)
    (pieceParallelCount pt) (done pt) (peerTaskDone pt) (once pt)
    (failedPieceCh pt) v (failedCode pt) (readyPieces pt) (requestedPieces pt)
    (progressStopCh pt) (trace pt).
Definition set_failedCode (v : Z) (pt : peerTask) : peerTask :=
  Build_peerTask (ctxDone pt) (needBackSource pt) (DisableAutoBackSource pt)
    (peerID pt) (taskID pt) (totalPiece pt) (contentLength pt)
    (completedLength pt) (usedTraffic pt) (singlePiece pt)
    (peerPacketStream pt) (peerPacket pt) (peerPacketReady pt)
    (pieceParallelCount pt) (done pt) (peerTaskDone pt) (once pt)
    (failedPieceCh pt) (failedReason pt) v (readyPieces pt)
    (requestedPieces pt) (progressStopCh pt) (trace pt).
Definition set_readyPieces (v : gset Z) (pt : peerTask) : peerTask :=
  Build_peerTask (ctxDone pt) (needBackSource pt) (DisableAutoBackSource pt)
    (peerID pt) (taskID pt) (totalPiece pt) (contentLength pt)
    (completedLength pt) (usedTraffic pt) (singlePiece pt)
    (peerPacketStream pt) (peerPacket pt) (peerPacketReady pt)
    (pieceParallelCount pt) (done pt) (peerTaskDone pt) (once pt)
    (failedPieceCh pt) (failedReason pt) (failedCode pt) v
    (requestedPieces pt) (progressStopCh pt) (trace pt).
Definition set_requestedPieces (v : gset Z) (pt : peerTask) : peerTask :=
  Build_peerTask (ctxDone pt) (needBackSource pt) (DisableAutoBackSource pt)
    (peerID pt) (taskID pt) (totalPiece pt) (contentLength pt)
    (completedLength pt) (usedTraffic pt) (singlePiece pt)
    (peerPacketStream pt) (peerPacket pt) (peerPacketReady pt)
    (pieceParallelCount pt) (done pt) (peerTaskDone pt) (once pt)
    (failedPieceCh pt) (failedReason pt) (failedCode pt) (readyPieces pt) v
    (progressStopCh pt) (trace pt).
Definition set_progressStopCh (v : bool) (pt : peerTask) : peerTask :=
  Build_peerTask (ctxDone pt) (needBackSource pt) (DisableAutoBackSource pt)
    (peerID pt) (taskID pt) (totalPiece pt) (contentLength pt)
    (completedLength pt) (usedTraffic pt) (singlePiece pt)
    (peerPacketStream pt) (peerPacket pt) (peerPacketReady pt)
    (pieceParallelCount pt) (done pt) (peerTaskDone pt) (once pt)
    (failedPieceCh pt) (failedReason pt) (failedCode pt) (readyPieces pt)
    (requestedPieces pt) v (trace pt).
Definition set_trace (v : list Event) (pt : peerTask) : peerTask :=
  Build_peerTask (ctxDone pt) (needBackSource pt) (DisableAutoBackSource pt)
    (peerID pt) (taskID pt) (totalPiece pt) (contentLength pt)
    (completedLength pt) (usedTraffic pt) (singlePiece pt)
    (peerPacketStream pt) (peerPacket pt) (peerPacketReady pt)
    (pieceParallelCount pt) (done pt) (peerTaskDone pt) (once pt)
    (failedPieceCh pt) (failedReason pt) (failedCode pt) (readyPieces pt)
    (requestedPieces pt) (progressStopCh pt) v.

Definition log (e : Event) (pt : peerTask) : peerTask :=
  set_trace (e :: trace pt) pt.

(** [pt.cancel()] *)
Definition cancel (pt : peerTask) : peerTask := set_ctxDone true pt.

(** ** Constants of peertask_base.go *)
Definition reasonScheduleTimeout : string :=
  "wait first peer packet from scheduler timeout".
Definition reasonReScheduleTimeout : string :=
  "wait more available peers from scheduler timeout".
Definition reasonContextCanceled : string := "context canceled".
Definition reasonPeerGoneFromScheduler : string :=
  "scheduler says client should disconnect".
Definition failedReasonNotSet : string := "unknown".
Definition failedCodeNotSet : Z := 0.

(** The message of the runtime panic on a nil pointer. *)
Definition nilDereference : string :=
  "invalid memory address or nil pointer dereference".

Record pieceTaskResult := Build_pieceTaskResult {
  piece : PieceInfo.t;
  pieceResult : PieceResult.t;
  err : option error
}.

(** What the other side of a blocking [select] on [progressCh] did. *)
Inductive progressSelect :=
| progressStopped    (** [<-pt.progressStopCh] *)
| progressSent       (** [pt.progressCh <- p] *)
| progressCtxDone.   (** [<-pt.ctx.Done()] *)

(** The environment of one call into the task: which case the [select] on
    a non-final progress takes, whether the final progress is received
    before the context is done, whether its receiver then calls the
    [DoneCallback] while [finish] or [cleanUnfinished] waits for it, and what
    [callback.Done] returns. The model takes the case as given; it does not
    check that the case is ready. *)
Record Env := Build_Env {
  progress : progressSelect;
  finalProgressSent : bool;
  finalProgressAcked : bool;
  callbackDone : option error
}.

Section Peer.
Context `{codes : !dfcodes.Table} `{hasher : !idgen.Hasher}.

(** *** peertask_dummy.go

    [Recv] returns [(nil, err)]: a [RecvError]. *)
Definition dummyPeerPacketStream_Recv : RecvResult :=
  RecvError (dferrors_DfError dfcodes.SchedNeedBackSource "").

Definition dummyPeerPacketStream_Send (pr : PieceResult.t) : option error :=
  None.

(** [Recv] on the stream interface: [None] when a real stream has nothing to
    deliver yet (the call blocks). *)
Definition Recv (s : PeerPacketStream) : option (RecvResult * PeerPacketStream) :=
  match s with
  | dummyPeerPacketStream => Some (dummyPeerPacketStream_Recv, s)
  | realStream [] => None
  | realStream (r :: inbox) => Some (r, realStream inbox)
  end.

(** [_ = pt.peerPacketStream.Send(pr)]: the stub discards the message; on a real
    stream the message goes out to the scheduler. Every caller drops or only
    logs the returned error. *)
Definition Send (pr : PieceResult.t) (pt : peerTask) : peerTask :=
  match peerPacketStream pt with
  | dummyPeerPacketStream =>
      match dummyPeerPacketStream_Send pr with _ => pt end
  | realStream _ => log (EvSend (Bitmap.Settled (readyPieces pt)) pr) pt
  end.

(** *** peertask_base.go: isCompleted *)
Definition isCompleted (pt : peerTask) : bool :=
  bool_decide (completedLength pt = contentLength pt).

(** [close(pt.done)]; closing a closed channel panics, and the panic is
    recovered by the deferred [recoverFromPanic] of the enclosing body. *)
Definition close_done (pt : peerTask) : peerTask :=
  if done pt then log (EvPanic "close of closed channel") pt
  else log EvCloseDone (set_done true pt).

(** The [DoneCallback] of the final progress. *)
Definition DoneCallback (pt : peerTask) : peerTask :=
  let pt := set_peerTaskDone true pt in
  if progressStopCh pt then log (EvPanic "close of closed channel") pt
  else set_progressStopCh true pt.

(** The two [select]s at the end of [finish] and [cleanUnfinished]: hand the
    final progress [pg] to the receiver, then wait until the progress is
    stopped or the context is done. *)
Definition sendFinalProgress (env : Env) (pg : FilePeerTaskProgress.t)
    (pt : peerTask) : peerTask :=
  if finalProgressSent env then
    let pt := log (EvProgress pg) pt in
    if finalProgressAcked env then DoneCallback pt else pt
  else pt.

(** *** peertask_file.go: finish *)
Definition finish (env : Env) (pt : peerTask) : option error * peerTask :=
  if once pt then (None, pt) else
  let pt := log EvFinishBody (set_once true pt) in
  let pt := Send (NewEndPieceResult (taskID pt) (peerID pt)
                    (Bitmap.Settled (readyPieces pt))) pt in
  let pt := log EvCallbackDone pt in
  let err := callbackDone env in
  let st :=
    match err with
    | Some e => ProgressState.Build false dfcodes.ClientError (Error e)
    | None => ProgressState.Build true dfcodes.Success "Success"
    end in
  let pg := FilePeerTaskProgress.Build st (taskID pt) (peerID pt)
              (contentLength pt) (completedLength pt) true in
  let pt := sendFinalProgress env pg pt in
  (err, close_done pt).

(** *** peertask_file.go: cleanUnfinished *)
Definition cleanUnfinished (env : Env) (pt : peerTask) : peerTask :=
  let pt :=
    if once pt then pt else
    let pt := log EvCleanUnfinishedBody (set_once true pt) in
    let pt := Send (NewEndPieceResult (taskID pt) (peerID pt)
                      (Bitmap.Settled (readyPieces pt))) pt in
    let pg := FilePeerTaskProgress.Build
                (ProgressState.Build false (failedCode pt) (failedReason pt))
                (taskID pt) (peerID pt)
                (contentLength pt) (completedLength pt) true in
    let pt := sendFinalProgress env pg pt in
    let pt := log (EvCallbackFail (failedCode pt) (failedReason pt)) pt in
    close_done pt in
  cancel pt.

(** [pt.failedPieceCh <- num]; a send on a closed channel panics. *)
Definition failedPieceCh_send (num : Z) (pt : peerTask) : peerTask :=
  if closed (failedPieceCh pt) then log (EvPanic "send on closed channel") pt
  else set_failedPieceCh (chan_push num (failedPieceCh pt)) pt.

(** *** peertask_file.go: ReportPieceResult *)
Definition ReportPieceResult (env : Env) (result : pieceTaskResult)
    (pt : peerTask) : option error * peerTask :=
  let pr := pieceResult result in
  if negb (PieceResult.Success pr) then
    let pr := PieceResult.with_FinishedCount (Bitmap.Settled (readyPieces pt)) pr in
    let pt := Send pr pt in
    (None, failedPieceCh_send (PieceResult.PieceNum pr) pt)
  else if Bitmap.IsSet (readyPieces pt) (PieceResult.PieceNum pr) then
    (None, pt)
  else
    let pt := set_readyPieces
                (Bitmap.SetBit (readyPieces pt) (PieceResult.PieceNum pr)) pt in
    let pt := set_completedLength
                (wrap64 (completedLength pt + PieceInfo.RangeSize (piece result)))
                pt in
    let pr := PieceResult.with_FinishedCount (Bitmap.Settled (readyPieces pt)) pr in
    let pt := Send pr pt in
    let p := FilePeerTaskProgress.Build
               (ProgressState.Build (PieceResult.Success pr)
                  (PieceResult.Code pr) "downloading")
               (taskID pt) (peerID pt)
               (contentLength pt) (completedLength pt) false in
    match progress env with
    | progressCtxDone => (Some context_Canceled, pt)
    | sel =>
        let pt := match sel with progressSent => log (EvProgress p) pt | _ => pt end in
        if negb (isCompleted pt) then (None, pt) else finish env pt
    end.

(** *** peertask_file.go: SetContentLength *)
Definition SetContentLength (env : Env) (i : Z) (pt : peerTask)
  : option error * peerTask :=
  let pt := set_contentLength i pt in
  if negb (isCompleted pt) then
    (Some (errors_New "SetContentLength should call after task completed"), pt)
  else finish env pt.

(** *** peertask_base.go: AddTraffic *)
Definition AddTraffic (n : Z) (pt : peerTask) : peerTask :=
  set_usedTraffic (wrap64 (usedTraffic pt + n)) pt.

(** The calls an external collaborator makes on the [Task] interface while it
    runs ([DownloadPiece] and [DownloadSource] report through it). *)
Inductive TaskCall :=
| Call_ReportPieceResult (env : Env) (result : pieceTaskResult)
| Call_SetContentLength (env : Env) (i : Z)
| Call_AddTraffic (n : Z).

Definition call (c : TaskCall) (pt : peerTask) : peerTask :=
  match c with
  | Call_ReportPieceResult env result => snd (ReportPieceResult env result pt)
  | Call_SetContentLength env i => snd (SetContentLength env i pt)
  | Call_AddTraffic n => AddTraffic n pt
  end.

Definition calls (cs : list TaskCall) (pt : peerTask) : peerTask :=
  fold_left (fun pt c => call c pt) cs pt.

(** One run of [pieceManager.DownloadSource]: the calls it makes on the task
    and the error it returns. *)
Record DownloadSourceRun := Build_DownloadSourceRun {
  sourceCalls : list TaskCall;
  sourceErr : option error
}.

(** *** peertask_file.go: backSource *)
Definition backSource (env : Env) (ds : DownloadSourceRun) (pt : peerTask)
  : peerTask :=
  let pt := calls (sourceCalls ds) (log EvDownloadSource pt) in
  match sourceErr ds with
  | Some e => cleanUnfinished env (set_failedReason (Error e) pt)
  | None => cleanUnfinished env (snd (finish env pt))
  end.


(** *** peertask_base.go: isExitPeerPacketCode *)
Definition isExitPeerPacketCode (pp : PeerPacket.t) (pt : peerTask)
  : bool * peerTask :=
  let code := PeerPacket.Code pp in
  let reason := "receive exit peer packet with code " +:+ pretty code in
  if bool_decide (code ∈ [dfcodes.ResourceLacked; dfcodes.BadRequest;
                          dfcodes.PeerTaskNotFound; dfcodes.UnknownError;
                          dfcodes.RequestTimeOut]) then
    (true, set_failedReason reason (set_failedCode code pt))
  else if bool_decide (code = dfcodes.SchedError) then
    (true, set_failedReason reason (set_failedCode code pt))
  else if bool_decide (code = dfcodes.SchedPeerGone) then
    (true, set_failedCode dfcodes.SchedPeerGone
             (set_failedReason reasonPeerGoneFromScheduler pt))
  else if bool_decide (code ∈ [dfcodes.CdnError; dfcodes.CdnTaskRegistryFail;
                               dfcodes.CdnTaskDownloadFail]) then
    (true, set_failedReason reason (set_failedCode code pt))
  else (false, pt).

(** How one pass through the body of a [for] loop ends. [Blocked]: the
    goroutine waits and nothing happened. [Panic]: the goroutine panicked
    (nothing recovers it in [receivePeerPacket]). *)
Inductive loopStep :=
| Continue (pt : peerTask)
| Break (pt : peerTask)
| Return (pt : peerTask)
| Panic (msg : string) (pt : peerTask)
| Blocked.

(** *** peertask_base.go: receivePeerPacket, one pass through the loop

    [preferExit] settles the last [select] when both the send on
    [peerPacketReady] and one of [ctx.Done()], [done] are ready. *)
Definition receivePeerPacket_body (preferExit : bool) (pt : peerTask)
  : loopStep :=
  if ctxDone pt || done pt then Break pt else
  match Recv (peerPacketStream pt) with
  | None => Blocked
  | Some (RecvError io_EOF, s) => Break (set_peerPacketStream s pt)
  | Some (RecvError e, s) =>
      let pt := set_failedCode dfcodes.UnknownError (set_peerPacketStream s pt) in
      match e with
      | dferrors_DfError code msg =>
          if bool_decide (code = dfcodes.SchedNeedBackSource) then
            let pt := set_needBackSource true pt in
            if closed (peerPacketReady pt)
            then Panic "close of closed channel" pt
            else Return (set_peerPacketReady (close (peerPacketReady pt)) pt)
          else
            Break (cancel (set_failedReason msg (set_failedCode code pt)))
      | _ => Break (cancel pt)
      end
  | Some (RecvPacket peerPacket, s) =>
      let pt := set_peerPacketStream s pt in
      if negb (bool_decide (PeerPacket.Code peerPacket = dfcodes.Success)) then
        match isExitPeerPacketCode peerPacket pt with
        | (true, pt) => Break (cancel pt)
        | (false, pt) => Continue pt
        end
      else
        match PeerPacket.MainPeer peerPacket, PeerPacket.StealPeers peerPacket with
        | None, None => Continue pt
        | None, Some _ =>
            (* peerPacket.MainPeer.PeerId *)
            Panic nilDereference pt
        | Some _, _ =>
            let pt := set_peerPacket (Some peerPacket) pt in
            let pt := set_pieceParallelCount (PeerPacket.ParallelCount peerPacket) pt in
            let ready := peerPacketReady pt in
            let canSend := negb (closed ready) && bool_decide (length (buf ready) < 1)%nat in
            let canExit := ctxDone pt || done pt in
            if canExit && (preferExit || negb canSend) then Break pt
            else if closed ready then Panic "send on closed channel" pt
            else if canSend
                 then Continue (set_peerPacketReady (chan_push true ready) pt)
                 else Continue pt
        end
  end.

(** The block
    [if !pt.peerTaskDone { if pt.failedCode == failedCodeNotSet { ... } }]
    that [waitAvailablePeerPacket], [dispatchPieceRequest] and
    [waitFailedPiece] run on [<-pt.ctx.Done()]. *)
Definition onContextDone (pt : peerTask) : peerTask :=
  if negb (peerTaskDone pt) then
    if bool_decide (failedCode pt = failedCodeNotSet) then
      set_failedCode dfcodes.ClientContextCanceled
        (set_failedReason reasonContextCanceled pt)
    else pt
  else pt.

(** What [pieceManager.DownloadPiece] did: the calls on the task and its
    result. *)
Record DownloadPieceRun := Build_DownloadPieceRun {
  pieceCalls : list TaskCall;
  pieceSuccess : bool
}.

(** Which case fired in the [select] of [waitFirstPeerPacket]. *)
Inductive firstPacketSelect :=
| firstCtxDone (ctxErr : error)     (** [<-pt.ctx.Done()], with [pt.ctx.Err()] *)
| firstPeerPacketReady              (** [<-pt.peerPacketReady] *)
| firstTimeout.                     (** [<-time.After(ScheduleTimeout)] *)

(** Which case fired in the [select] of [waitAvailablePeerPacket]. *)
Inductive availableSelect :=
| availableDone                     (** [<-pt.done] *)
| availableCtxDone                  (** [<-pt.ctx.Done()] *)
| availablePeerPacketReady          (** [_, ok := <-pt.peerPacketReady] *)
| availableTimeout.                 (** [<-time.After(ScheduleTimeout)] *)

(** Which case fired in the [select] of [waitFailedPiece]. *)
Inductive failedPieceSelect :=
| failedDone                        (** [<-pt.done] *)
| failedCtxDone                     (** [<-pt.ctx.Done()] *)
| failedPiece.                      (** [failed := <-pt.failedPieceCh] *)

(** Which case fired in the [select] at the head of the pull loop. *)
Inductive pullSelect :=
| pullDone                          (** [<-pt.done] *)
| pullCtxDone (ctxErr : error)      (** [<-pt.ctx.Done()], with [pt.ctx.Err()] *)
| pullFailedPiece                   (** [failed := <-pt.failedPieceCh] *)
| pullDefault.                      (** [default] *)

(** A receive from [c] can proceed: a value is buffered or [c] is closed. *)
Definition canReceive {A : Type} (c : chan A) : bool :=
  negb (bool_decide (buf c = [])) || closed c.

(** *** peertask_base.go: waitFirstPeerPacket

    [env] and [ds] describe the back-source run started on the timeout
    branch. The result is [None] when the case [sel] is not ready. *)
Definition waitFirstPeerPacket (sel : firstPacketSelect) (env : Env)
    (ds : DownloadSourceRun) (pt : peerTask) : option (bool * peerTask) :=
  match sel with
  | firstCtxDone ctxErr =>
      if negb (ctxDone pt) then None else
      let pt :=
        if bool_decide (failedReason pt = failedReasonNotSet)
        then set_failedReason (Error ctxErr) pt else pt in
      Some (false, pt)
  | firstPeerPacketReady =>
      if negb (canReceive (peerPacketReady pt)) then None else
      let pt := set_peerPacketReady (chan_pop (peerPacketReady pt)) pt in
      match peerPacket pt with
      | None =>
          (* pt.peerPacket.Load().( *scheduler.PeerPacket) on an empty Value *)
          Some (false, log (EvPanic "interface conversion: interface is nil") pt)
      | Some _ => Some (true, pt)
      end
  | firstTimeout =>
      let pt :=
        if DisableAutoBackSource pt then
          set_failedCode dfcodes.ClientScheduleTimeout
            (set_failedReason reasonScheduleTimeout pt)
        else pt in
      let pt := set_needBackSource true pt in
      Some (false, backSource env ds pt)
  end.

(** The loop [for ; pt.requestedPieces.IsSet(i); i++ {}]: at most
    [size requested] bits are set, so [S (size requested)] steps reach a clear
    bit. *)
Fixpoint nextClear (fuel : nat) (requested : gset Z) (i : Z) : Z :=
  match fuel with
  | O => i
  | S fuel =>
      if Bitmap.IsSet requested i then nextClear fuel requested (i + 1) else i
  end.

(** *** peertask_base.go: getNextPieceNum *)
Definition getNextPieceNum (cur : Z) (pt : peerTask) : Z :=
  if isCompleted pt then -1 else
  let fuel := S (size (requestedPieces pt)) in
  let i := nextClear fuel (requestedPieces pt) cur in
  if bool_decide (totalPiece pt > 0) && bool_decide (i >= totalPiece pt) then
    let i := nextClear fuel (requestedPieces pt) 0 in
    if bool_decide (totalPiece pt > 0) && bool_decide (i >= totalPiece pt)
    then -1 else i
  else i.

(** *** peertask_base.go: waitAvailablePeerPacket

    The result is [None] when the case [sel] is not ready. *)
Definition waitAvailablePeerPacket (sel : availableSelect) (env : Env)
    (ds : DownloadSourceRun) (pt : peerTask)
  : option ((Z * bool) * peerTask) :=
  match sel with
  | availableDone =>
      if negb (done pt) then None else Some ((-1, false), pt)
  | availableCtxDone =>
      if negb (ctxDone pt) then None else Some ((-1, false), onContextDone pt)
  | availablePeerPacketReady =>
      match buf (peerPacketReady pt) with
      | _ :: _ =>
          let pt := set_peerPacketReady (chan_pop (peerPacketReady pt)) pt in
          match peerPacket pt with
          | None =>
              Some ((-1, false),
                    log (EvPanic "interface conversion: interface is nil") pt)
          | Some _ => Some ((getNextPieceNum 0 pt, true), pt)
          end
      | [] =>
          if negb (closed (peerPacketReady pt)) then None else
          (* the channel was closed by receivePeerPacket *)
          if DisableAutoBackSource pt then
            Some ((-1, false),
                  set_failedCode dfcodes.ClientScheduleTimeout
                    (set_failedReason reasonReScheduleTimeout pt))
          else
            Some ((-1, false), backSource env ds (set_needBackSource true pt))
      end
  | availableTimeout =>
      let pt :=
        if DisableAutoBackSource pt then
          set_failedCode dfcodes.ClientScheduleTimeout
            (set_failedReason reasonReScheduleTimeout pt)
        else pt in
      Some ((-1, false), backSource env ds (set_needBackSource true pt))
  end.

(** *** peertask_base.go: init *)
Definition init (piecePacket : option PiecePacket.t) (initErr : option error)
    (pt : peerTask) : bool * peerTask :=
  match piecePacket with
  | None => (false, log (EvPanic nilDereference) pt)
  | Some piecePacket =>
      let pt := set_contentLength (PiecePacket.ContentLength piecePacket) pt in
      let pt := log EvCallbackInit pt in
      match initErr with
      | Some e =>
          (false, set_failedCode dfcodes.ClientError
                    (set_failedReason (Error e) pt))
      | None =>
          match peerPacket pt with
          | None => (false, log (EvPanic "interface conversion: interface is nil") pt)
          | Some pp =>
              (true, set_trace
                       (reverse (EvSpawnWorker <$> seqZ 0 (PeerPacket.ParallelCount pp))
                          ++ trace pt) pt)
          end
      end
  end.

(** The [select] of [dispatchPieceRequest] for one piece. *)
Inductive dispatchSelect := dispatchSent | dispatchDone | dispatchCtxDone.

(** *** peertask_base.go: dispatchPieceRequest

    [sels] gives the branch taken for each piece, in order (a piece without an
    entry is handed to a worker). *)
Fixpoint dispatchPieceRequest (pieceInfos : list PieceInfo.t)
    (sels : list dispatchSelect) (pt : peerTask) : peerTask :=
  match pieceInfos with
  | [] => pt
  | piece :: rest =>
      let pt :=
        if negb (Bitmap.IsSet (requestedPieces pt) (PieceInfo.PieceNum piece))
        then set_requestedPieces
               (Bitmap.SetBit (requestedPieces pt) (PieceInfo.PieceNum piece)) pt
        else pt in
      let pt :=
        match head sels with
        | Some dispatchCtxDone => onContextDone pt
        | _ => pt
        end in
      dispatchPieceRequest rest (tail sels) pt
  end.

(** *** peertask_base.go: waitFailedPiece

    The result is [None] when the case [sel] is not ready. *)
Definition waitFailedPiece (sel : failedPieceSelect) (pt : peerTask)
  : option ((Z * bool) * peerTask) :=
  if isCompleted pt then Some ((-1, false), pt) else
  match sel with
  | failedDone =>
      if negb (done pt) then None else Some ((-1, false), pt)
  | failedCtxDone =>
      if negb (ctxDone pt) then None else Some ((-1, false), onContextDone pt)
  | failedPiece =>
      if negb (canReceive (failedPieceCh pt)) then None else
      Some ((-1, true), set_failedPieceCh (chan_pop (failedPieceCh pt)) pt)
  end.

(** *** peertask_base.go: pullPiecesFromPeers, the [select] at the head of
    the loop. The result is the loop outcome and the new [(num, limit)];
    [Blocked] stands for a case [sel] that is not ready. *)
Definition pullPiecesFromPeers_select (sel : pullSelect) (num limit : Z)
    (pt : peerTask) : loopStep * (Z * Z) :=
  match sel with
  | pullDone =>
      if negb (done pt) then (Blocked, (num, limit)) else
      (Break pt, (num, limit))
  | pullCtxDone ctxErr =>
      if negb (ctxDone pt) then (Blocked, (num, limit)) else
      let pt :=
        if negb (peerTaskDone pt) then
          if bool_decide (failedCode pt = failedCodeNotSet) then
            let pt := set_failedCode dfcodes.ClientContextCanceled
                        (set_failedReason reasonContextCanceled pt) in
            log (EvCallbackFail (failedCode pt) (Error ctxErr)) pt
          else
            log (EvCallbackFail (failedCode pt) (failedReason pt)) pt
        else pt in
      (Break pt, (num, limit))
  | pullFailedPiece =>
      match buf (failedPieceCh pt) with
      | failed :: _ =>
          (Continue (set_failedPieceCh (chan_pop (failedPieceCh pt)) pt),
           (failed, 1))
      | [] =>
          if negb (closed (failedPieceCh pt)) then (Blocked, (num, limit)) else
          (Continue pt, (0, 1))
      end
  | pullDefault =>
      if done pt || ctxDone pt || canReceive (failedPieceCh pt)
      then (Blocked, (num, limit)) else
      (Continue pt, (num, limit))
  end.

(** *** peertask_base.go: pullPiecesFromPeers, "update total piece" *)
Definition updateTotalPiece (piecePacket : PiecePacket.t) (pt : peerTask)
  : peerTask :=
  if bool_decide (PiecePacket.TotalPiece piecePacket > totalPiece pt) then
    log EvCallbackUpdate (set_totalPiece (PiecePacket.TotalPiece piecePacket) pt)
  else pt.

(** *** peertask_base.go: pullPiecesFromPeers, the deferred function *)
Definition pullPiecesFromPeers_deferred (env : Env) (pt : peerTask) : peerTask :=
  if closed (failedPieceCh pt) then log (EvPanic "close of closed channel") pt
  else cleanUnfinished env (set_failedPieceCh (close (failedPieceCh pt)) pt).

(** *** peertask_base.go: pullPiecesFromPeers, one pass through the loop from
    the result [(piecePacket, err)] of [preparePieceTasks] up to
    [num = pt.getNextPieceNum(num)]

    [pieceBufferSize] is [config.DefaultPieceChanSize]. The result is how the
    pass ends and the new [(num, limit, initialized)]; when the new [num] is
    [-1] the loop goes on with [waitFailedPiece]. [piecePacket.TotalPiece] on
    a nil [piecePacket] panics; [init] logs its own panic. *)
Definition pullPiecesFromPeers_process (pieceBufferSize : Z)
    (piecePacket : option PiecePacket.t) (err : option error)
    (avail : availableSelect) (env : Env) (ds : DownloadSourceRun)
    (initErr : option error) (sels : list dispatchSelect)
    (num limit : Z) (initialized : bool) (pt : peerTask)
  : loopStep * (Z * Z * bool) :=
  let waited :=
    match err with
    | Some _ => waitAvailablePeerPacket avail env ds pt
    | None => Some ((num, true), pt)
    end in
  match waited with
  | None => (Blocked, (num, limit, initialized))
  | Some ((num, false), pt) => (Break pt, (num, limit, initialized))
  | Some ((num, true), pt) =>
      let '(ok, pt) :=
        if initialized then (true, pt) else init piecePacket initErr pt in
      if negb ok then (Break pt, (num, limit, true)) else
      match piecePacket with
      | None => (Panic nilDereference pt, (num, limit, true))
      | Some piecePacket =>
          let pt := updateTotalPiece piecePacket pt in
          let pt := dispatchPieceRequest (PiecePacket.PieceInfos piecePacket)
                      sels pt in
          let num := getNextPieceNum num pt in
          if bool_decide (num <> -1)
          then (Continue pt, (num, pieceBufferSize, true))
          else (Continue pt, (num, 1, true))
      end
  end.

(** *** peertask_base.go: preparePieceTasks, the head of the function *)
Definition preparePieceTasks_head (pt : peerTask) : peerTask :=
  match peerPacket pt with
  | None => log (EvPanic "interface conversion: interface is nil") pt
  | Some pp => set_pieceParallelCount (PeerPacket.ParallelCount pp) pt
  end.

(** *** peertask_base.go: getPieceTasks, the report sent when the peer
    answers with no pieces *)
Definition getPieceTasks_empty (peer : DestPeer.t) (pt : peerTask) : peerTask :=
  Send (PieceResult.Build (taskID pt) (peerID pt) (DestPeer.PeerId peer)
          0 false dfcodes.ClientWaitPieceReady
          (Bitmap.Settled (readyPieces pt))) pt.

(** [uint32(c)] for an [int32] [c]. *)
Definition uint32 (c : Z) : Z := c mod 2 ^ 32.

(** [codes.Unauthenticated] of package grpc/codes. *)
Definition codes_Unauthenticated : Z := 16.

(** *** peertask_base.go: preparePieceTasksByPeer, the local [code] *)
Definition failureCode (err : error) : Z :=
  match err with
  | dferrors_DfError c _ =>
      if bool_decide (uint32 c > uint32 codes_Unauthenticated) then c
      else dfcodes.ClientPieceRequestFail
  | _ => dfcodes.ClientPieceRequestFail
  end.

(** *** peertask_base.go: preparePieceTasksByPeer, after [getPieceTasks]
    failed with [err] (neither [errPeerPacketChanged] nor a cancelled grpc
    call, on which the function returns at once): the report to the
    scheduler. *)
Definition preparePieceTasksByPeer_fail (peer : DestPeer.t) (err : error)
    (pt : peerTask) : peerTask :=
  Send (PieceResult.Build (taskID pt) (peerID pt) (DestPeer.PeerId peer)
          0 false (failureCode err) (-1)) pt.

(** *** The reports to the scheduler, as they are built

    Each of the six calls of [peerPacketStream.Send] is handed a message that
    is built before the call; all but the one of [preparePieceTasksByPeer]
    read [pt.readyPieces.Settled()] for it. None of them holds [pt.lock]
    while it builds or sends. [Report] names the call; [message r pt] is the
    message that [r] builds when it reads a task in state [pt]. *)
Inductive Report :=
| Report_failed (pr : PieceResult.t)
  (** [ReportPieceResult], a failed piece (peertask_file.go:226-227) *)
| Report_success (pr : PieceResult.t)
  (** [ReportPieceResult], after [pt.lock.Unlock()] (peertask_file.go:244-245) *)
| Report_finish                (** [finish] (peertask_file.go:282-283) *)
| Report_cleanUnfinished       (** [cleanUnfinished] (peertask_file.go:352-353) *)
| Report_getPieceTasks (peer : DestPeer.t)
  (** [getPieceTasks], no pieces yet (peertask_base.go:782-790) *)
| Report_preparePieceTasksByPeer (peer : DestPeer.t) (err : error)
  (** [preparePieceTasksByPeer] (peertask_base.go:738-746) *).

Definition message (r : Report) (pt : peerTask) : PieceResult.t :=
  match r with
  | Report_failed pr | Report_success pr =>
      PieceResult.with_FinishedCount (Bitmap.Settled (readyPieces pt)) pr
  | Report_finish | Report_cleanUnfinished =>
      NewEndPieceResult (taskID pt) (peerID pt)
        (Bitmap.Settled (readyPieces pt))
  | Report_getPieceTasks peer =>
      PieceResult.Build (taskID pt) (peerID pt) (DestPeer.PeerId peer)
        0 false dfcodes.ClientWaitPieceReady
        (Bitmap.Settled (readyPieces pt))
  | Report_preparePieceTasksByPeer peer err =>
      PieceResult.Build (taskID pt) (peerID pt) (DestPeer.PeerId peer)
        0 false (failureCode err) (-1)
  end.

Record DownloadPieceRequest := Build_DownloadPieceRequest {
  req_TaskID : string;
  req_DstPid : string;
  req_DstAddr : string;
  req_piece : PieceInfo.t
}.

(** *** peertask_base.go: downloadPieceWorker, one request

    [limiterErr] is what [pt.limiter.WaitN] returns ([None] also when there is
    no limiter). The worker returns when the limiter fails. *)
Definition downloadPieceWorker_body (request : DownloadPieceRequest)
    (limiterErr : option error) (env : Env) (dp : DownloadPieceRun)
    (pt : peerTask) : loopStep :=
  if Bitmap.IsSet (readyPieces pt) (PieceInfo.PieceNum (req_piece request))
  then Continue pt
  else
    match limiterErr with
    | Some e =>
        let result :=
          Build_pieceTaskResult (req_piece request)
            (PieceResult.Build (taskID pt) (peerID pt) (req_DstPid request)
               (PieceInfo.PieceNum (req_piece request)) false
               dfcodes.ClientRequestLimitFail 0)
            (Some e) in
        let pt := snd (ReportPieceResult env result pt) in
        Return (cancel (set_failedCode dfcodes.ClientRequestLimitFail
                          (set_failedReason (Error e) pt)))
    | None => Continue (calls (pieceCalls dp) pt)
    end.

(** *** peertask_base.go: pullSinglePiece

    The result is [true] when the download failed and the function goes on
    with [receivePeerPacket] and [pullPiecesFromPeers]. *)
Definition pullSinglePiece (initErr : option error) (env : Env)
    (dp : DownloadPieceRun) (pt : peerTask) : bool * peerTask :=
  match singlePiece pt with
  | None => (false, log (EvPanic nilDereference) pt)
  | Some sp =>
      let pt := set_contentLength
                  (PieceInfo.RangeSize (SinglePiece.PieceInfo sp)) pt in
      let pt := log EvCallbackInit pt in
      match initErr with
      | Some e =>
          (false, cleanUnfinished env
                    (set_failedCode dfcodes.ClientError
                       (set_failedReason (Error e) pt)))
      | None =>
          let pt := calls (pieceCalls dp) pt in
          (negb (pieceSuccess dp), pt)
      end
  end.

(** [pt.ctx, pt.cancel = context.WithCancel(ctx)]: the task gets a fresh
    context, which is not done. That the parent [ctx] is or gets cancelled
    shows as a [cancel] of the new context. *)
Definition context_WithCancel (pt : peerTask) : peerTask :=
  set_ctxDone false pt.

(** *** peertask_file.go: Start

    The goroutines it starts ([backSource], or [receivePeerPacket] and the
    pull loop) run as later operations. *)
Definition Start (pt : peerTask) : peerTask :=
  let pt := context_WithCancel pt in
  if needBackSource pt then log EvCallbackInit (set_contentLength (-1) pt)
  else pt.


(** *** The scheduler client

    [schedulerClient] stands for the client handed to [newFilePeerTask]: the
    record holds what its [RegisterPeerTask] and [ReportPieceResult] calls
    return. [dummySchedulerClient] is the stub of [peertask_dummy.go]. *)
Record schedulerClient := Build_schedulerClient {
  register_result : option RegisterResult.t;
  register_err : option error;
  report_inbox : list RecvResult;
  report_err : option error
}.

Inductive SchedulerClient :=
| realSchedulerClient (c : schedulerClient)
| dummySchedulerClient.

Definition SchedulerClient_ReportPieceResult (c : SchedulerClient)
  : PeerPacketStream + error :=
  match c with
  | dummySchedulerClient => inl dummyPeerPacketStream
  | realSchedulerClient c =>
      match report_err c with
      | Some e => inr e
      | None => inl (realStream (report_inbox c))
      end
  end.

Record TinyData := Build_TinyData {
  tiny_TaskID : string;
  tiny_PeerID : string;
  tiny_Content : string
}.

(** *** peertask_file.go: newFilePeerTask, from "if result == nil" on

    [needBackSource], [schedulerClient] and [result] are the local variables
    as the registration step left them. *)
Definition newFilePeerTask_create (request : PeerTaskRequest.t)
    (disableAutoBackSource needBackSource : bool)
    (schedulerClient : SchedulerClient) (result : option RegisterResult.t)
  : option peerTask * option TinyData * option error :=
  match result with
  | None => (None, None, Some (errors_New "step 1: peer register result is nil"))
  | Some result =>
      let create (singlePiece : option SinglePiece.t) :=
        match SchedulerClient_ReportPieceResult schedulerClient with
        | inr e => (None, None, Some e)
        | inl peerPacketStream =>
            (Some {|
               ctxDone := false;
               needBackSource := needBackSource;
               DisableAutoBackSource := disableAutoBackSource;
               peerID := PeerTaskRequest.PeerId request;
               taskID := RegisterResult.TaskId result;
               totalPiece := -1;
               contentLength := -1;
               completedLength := 0;
               usedTraffic := 0;
               singlePiece := singlePiece;
               peerPacketStream := peerPacketStream;
               peerPacket := None;
               peerPacketReady := make;
               pieceParallelCount := 0;
               done := false;
               peerTaskDone := false;
               once := false;
               failedPieceCh := make;
               failedReason := failedReasonNotSet;
               failedCode := dfcodes.UnknownError;
               readyPieces := Bitmap.NewBitmap;
               requestedPieces := Bitmap.NewBitmap;
               progressStopCh := false;
               trace := []
             |}, None, None)
        end in
      if needBackSource then create None else
      match RegisterResult.SizeScope result with
      | SizeScope_SMALL =>
          create (match RegisterResult.DirectPiece result with
                  | RegisterResult_SinglePiece p => Some p
                  | _ => None
                  end)
      | SizeScope_TINY =>
          match RegisterResult.DirectPiece result with
          | RegisterResult_PieceContent content =>
              (None,
               Some (Build_TinyData (RegisterResult.TaskId result)
                       (PeerTaskRequest.PeerId request) content),
               None)
          | _ =>
              (None, None,
               Some (errors_New
                 "scheduler return tiny piece but can not parse piece content"))
          end
      | SizeScope_NORMAL => create None
      end
  end.

(** *** peertask_file.go: newFilePeerTask

    The result is [(pt, tiny, err)] (the returned context is left out). *)
Definition newFilePeerTask (request : PeerTaskRequest.t)
    (client : schedulerClient) (disableAutoBackSource : bool)
  : option peerTask * option TinyData * option error :=
  match register_err client with
  | Some e =>
      if disableAutoBackSource then (None, None, Some e)
      else
        newFilePeerTask_create request disableAutoBackSource true
          dummySchedulerClient
          (Some (RegisterResult.Build
                   (idgen.TaskID (PeerTaskRequest.Url request)
                      (PeerTaskRequest.UrlMeta request))
                   SizeScope_NORMAL RegisterResult_none))
  | None =>
      newFilePeerTask_create request disableAutoBackSource false
        (realSchedulerClient client) (register_result client)
  end.

(** ** Runs of a task

    An [Op] is one of the functions above, run as one step, together with
    what the environment did during it; a run is a list of steps from a task
    made by [newFilePeerTask]. ([steps] and [interleaved] below let the
    goroutines interleave between any two updates of the task.) *)
Inductive Op :=
| Op_Start
| Op_cancel
| Op_DoneCallback
| Op_call (c : TaskCall)
| Op_finish (env : Env)
| Op_cleanUnfinished (env : Env)
| Op_backSource (env : Env) (ds : DownloadSourceRun)
| Op_receivePeerPacket (preferExit : bool)
| Op_pullSinglePiece (initErr : option error) (env : Env) (dp : DownloadPieceRun)
| Op_waitFirstPeerPacket (sel : firstPacketSelect) (env : Env)
    (ds : DownloadSourceRun)
| Op_pullPiecesFromPeers_select (sel : pullSelect) (num limit : Z)
| Op_preparePieceTasks_head
| Op_getPieceTasks_empty (peer : DestPeer.t)
| Op_preparePieceTasksByPeer_fail (peer : DestPeer.t) (err : error)
| Op_waitAvailablePeerPacket (sel : availableSelect) (env : Env)
    (ds : DownloadSourceRun)
| Op_init (piecePacket : option PiecePacket.t) (initErr : option error)
| Op_updateTotalPiece (piecePacket : PiecePacket.t)
| Op_dispatchPieceRequest (pieceInfos : list PieceInfo.t) (sels : list dispatchSelect)
| Op_waitFailedPiece (sel : failedPieceSelect)
| Op_pullPiecesFromPeers_deferred (env : Env)
| Op_downloadPieceWorker (request : DownloadPieceRequest)
    (limiterErr : option error) (env : Env) (dp : DownloadPieceRun).

(** The task after a pass through a loop body that started from [pt]. *)
Definition after (pt : peerTask) (s : loopStep) : peerTask :=
  match s with
  | Continue pt' | Break pt' | Return pt' => pt'
  | Panic msg pt' => log (EvPanic msg) pt'
  | Blocked => pt
  end.

Definition exec (op : Op) (pt : peerTask) : peerTask :=
  match op with
  | Op_Start => Start pt
  | Op_cancel => cancel pt
  | Op_DoneCallback => DoneCallback pt
  | Op_call c => call c pt
  | Op_finish env => snd (finish env pt)
  | Op_cleanUnfinished env => cleanUnfinished env pt
  | Op_backSource env ds => backSource env ds pt
  | Op_receivePeerPacket preferExit => after pt (receivePeerPacket_body preferExit pt)
  | Op_pullSinglePiece initErr env dp => snd (pullSinglePiece initErr env dp pt)
  | Op_waitFirstPeerPacket sel env ds =>
      from_option snd pt (waitFirstPeerPacket sel env ds pt)
  | Op_pullPiecesFromPeers_select sel num limit =>
      after pt (fst (pullPiecesFromPeers_select sel num limit pt))
  | Op_preparePieceTasks_head => preparePieceTasks_head pt
  | Op_getPieceTasks_empty peer => getPieceTasks_empty peer pt
  | Op_preparePieceTasksByPeer_fail peer err =>
      preparePieceTasksByPeer_fail peer err pt
  | Op_waitAvailablePeerPacket sel env ds =>
      from_option snd pt (waitAvailablePeerPacket sel env ds pt)
  | Op_init piecePacket initErr => snd (init piecePacket initErr pt)
  | Op_updateTotalPiece piecePacket => updateTotalPiece piecePacket pt
  | Op_dispatchPieceRequest pieceInfos sels =>
      dispatchPieceRequest pieceInfos sels pt
  | Op_waitFailedPiece sel => from_option snd pt (waitFailedPiece sel pt)
  | Op_pullPiecesFromPeers_deferred env => pullPiecesFromPeers_deferred env pt
  | Op_downloadPieceWorker request limiterErr env dp =>
      after pt (downloadPieceWorker_body request limiterErr env dp pt)
  end.

Definition run (ops : list Op) (pt : peerTask) : peerTask :=
  fold_left (fun pt op => exec op pt) ops pt.

(** [created pt]: [pt] is a task as [newFilePeerTask] returns it. *)
Definition created (pt : peerTask) : Prop :=
  exists request client disableAutoBackSource,
    newFilePeerTask request client disableAutoBackSource = (Some pt, None, None).


(** The codes the spec lists as exit-triggering. *)
Definition exitCodes : list Z :=
  [dfcodes.ResourceLacked; dfcodes.BadRequest; dfcodes.PeerTaskNotFound;
   dfcodes.UnknownError; dfcodes.RequestTimeOut; dfcodes.SchedError;
   dfcodes.SchedPeerGone; dfcodes.CdnError; dfcodes.CdnTaskRegistryFail;
   dfcodes.CdnTaskDownloadFail].

End Peer.

(** ** Reading a trace *)

Fixpoint count (f : Event -> bool) (tr : list Event) : nat :=
  match tr with
  | [] => 0%nat
  | e :: tr => if f e then S (count f tr) else count f tr
  end.

(** The body of [finish] or of [cleanUnfinished] was entered. *)
Definition isBody (e : Event) : bool :=
  match e with
  | EvFinishBody | EvCleanUnfinishedBody => true
  | _ => false
  end.

Definition isCloseDone (e : Event) : bool :=
  match e with
  | EvCloseDone => true
  | _ => false
  end.

Definition isSend (e : Event) : bool :=
  match e with
  | EvSend _ _ => true
  | _ => false
  end.

Definition isDownloadSource (e : Event) : bool :=
  match e with
  | EvDownloadSource => true
  | _ => false
  end.

(** The final progress, with [State.Success] equal to [success] and
    [State.Code] equal to [code], was delivered. *)
Definition isFinalProgress (success : bool) (code : Z) (e : Event) : bool :=
  match e with
  | EvProgress p =>
      FilePeerTaskProgress.PeerTaskDone p
      && eqb (ProgressState.Success (FilePeerTaskProgress.State p)) success
      && bool_decide (ProgressState.Code (FilePeerTaskProgress.State p) = code)
  | _ => false
  end.

(** A [PieceResult] with [Success = true] for piece [n] went out. *)
Definition isSuccessSend (n : Z) (e : Event) : bool :=
  match e with
  | EvSend _ pr =>
      PieceResult.Success pr && bool_decide (PieceResult.PieceNum pr = n)
  | _ => false
  end.

(** ** Vocabulary of the properties *)

(** The sum of the sizes of the ready pieces, for a task whose piece [p] has
    size [range_size p]. *)
Definition sumRangeSize (range_size : Z -> Z) (ready : gset Z) : Z :=
  set_fold (fun p acc => range_size p + acc) 0 ready.

(** A property [I] of [readyPieces] and [completedLength], as a property of
    the task. *)
Definition lengths (I : gset Z -> Z -> Prop) (pt : peerTask) : Prop :=
  I (readyPieces pt) (completedLength pt).

(** The successful reports among the calls satisfy [wf]. *)
Definition wfCall (wf : pieceTaskResult -> Prop) (c : TaskCall) : Prop :=
  match c with
  | Call_ReportPieceResult _ r =>
      PieceResult.Success (pieceResult r) = true -> wf r
  | _ => True
  end.

(** The calls on the [Task] interface that happen inside a step. *)
Definition opCalls (op : Op) : list TaskCall :=
  match op with
  | Op_call c => [c]
  | Op_backSource _ ds
  | Op_waitFirstPeerPacket _ _ ds
  | Op_waitAvailablePeerPacket _ _ ds => sourceCalls ds
  | Op_pullSinglePiece _ _ dp
  | Op_downloadPieceWorker _ _ _ dp => pieceCalls dp
  | _ => []
  end.

(** A report agrees with the piece layout: the piece number is a
    non-negative [int32] and the size is the size of that piece. *)
Definition wellFormed (range_size : Z -> Z) (r : pieceTaskResult) : Prop :=
  0 <= PieceResult.PieceNum (pieceResult r) < 2 ^ 31
  /\ PieceInfo.RangeSize (piece r)
     = range_size (PieceResult.PieceNum (pieceResult r)).

Definition reportsWellFormed (range_size : Z -> Z) (op : Op) : Prop :=
  Forall (wfCall (wellFormed range_size)) (opCalls op).

Definition noSuccessfulReport (op : Op) : Prop :=
  Forall (wfCall (fun _ => False)) (opCalls op).

Definition lengthInv (range_size : Z -> Z) (ready : gset Z) (len : Z) : Prop :=
  len = sumRangeSize range_size ready
  /\ forall p, p ∈ ready -> 0 <= p < 2 ^ 31.

(** [latch b pt]: the trace holds one body and one [close(done)] when the
    [sync.Once] fired and none before; with [b = true], it fired. *)
Definition latch (b : bool) (pt : peerTask) : Prop :=
  count isBody (trace pt) = (if once pt then 1 else 0)%nat
  /\ count isCloseDone (trace pt) = (if once pt then 1 else 0)%nat
  /\ done pt = once pt
  /\ (b = true -> once pt = true).

(** The task went to the source: [needBackSource] is set, [failedCode] is
    [code] and [pieceManager.DownloadSource] was called. *)
Definition wentToSource (code : Z) (pt : peerTask) : Prop :=
  needBackSource pt = true
  /\ failedCode pt = code
  /\ EvDownloadSource ∈ trace pt.



(** [uniq pt]: a successful [PieceResult] for piece [n] went out at most
    once, and only if the ready bit of [n] is set. *)
Definition uniq (pt : peerTask) : Prop :=
  forall n,
    (count (isSuccessSend n) (trace pt)
     <= if Bitmap.IsSet (readyPieces pt) n then 1 else 0)%nat.


(** The final progress ([PeerTaskDone = true]) was delivered. *)
Definition isTerminalProgress (e : Event) : bool :=
  match e with
  | EvProgress p => FilePeerTaskProgress.PeerTaskDone p
  | _ => false
  end.

(** [terminal pt]: a final progress was delivered at most once, and only
    after the [sync.Once] fired; one that reports success was delivered by
    [finish]. *)
Definition terminal (pt : peerTask) : Prop :=
  (count isTerminalProgress (trace pt) <= if once pt then 1 else 0)%nat
  /\ forall p, EvProgress p ∈ trace pt ->
       FilePeerTaskProgress.PeerTaskDone p = true ->
       ProgressState.Success (FilePeerTaskProgress.State p) = true ->
       EvFinishBody ∈ trace pt.

(** [inBody pt]: the body of [finish] or [cleanUnfinished] runs and has not
    delivered its progress yet. *)
Definition inBody (pt : peerTask) : Prop :=
  once pt = true
  /\ count isTerminalProgress (trace pt) = 0%nat
  /\ forall p, EvProgress p ∈ trace pt ->
       FilePeerTaskProgress.PeerTaskDone p = true ->
       ProgressState.Success (FilePeerTaskProgress.State p) = true ->
       EvFinishBody ∈ trace pt.

(** [callback.Fail] was called. *)
Definition isCallbackFail (e : Event) : bool :=
  match e with
  | EvCallbackFail _ _ => true
  | _ => false
  end.

(** What the task reports when it fails. *)
Definition verdict (pt : peerTask) : Z * string := (failedCode pt, failedReason pt).

(** The fields that the bodies of [finish] and [cleanUnfinished] read and
    leave as they are. *)
Definition payload (pt : peerTask) : Z * Z * Z * string * string * string :=
  (contentLength pt, completedLength pt, failedCode pt, failedReason pt,
   taskID pt, peerID pt).

(** ** Primitive updates

    [prim pt pt']: [pt'] is [pt] after one of the assignments, channel
    operations or calls into a collaborator that the functions of the task
    are made of, with the guard under which the code performs it. *)
Inductive prim `{codes : !dfcodes.Table} : peerTask -> peerTask -> Prop :=
| prim_log e pt : isSend e = false -> prim pt (log e pt)
| prim_spawn ids pt :
    prim pt (set_trace (reverse (EvSpawnWorker <$> ids) ++ trace pt) pt)
| prim_send r inbox pt :
    peerPacketStream pt = realStream inbox ->
    prim pt (log (EvSend (Bitmap.Settled (readyPieces pt)) (message r pt)) pt)
| prim_recv inbox r pt :
    peerPacketStream pt = realStream (r :: inbox) ->
    prim pt (set_peerPacketStream (realStream inbox) pt)
| prim_recv_dummy pt :
    peerPacketStream pt = dummyPeerPacketStream ->
    prim pt (set_peerPacketStream dummyPeerPacketStream pt)
| prim_WithCancel pt : prim pt (set_ctxDone false pt)
| prim_cancel pt : prim pt (set_ctxDone true pt)
| prim_needBackSource pt : prim pt (set_needBackSource true pt)
| prim_totalPiece n pt : n > totalPiece pt -> prim pt (set_totalPiece n pt)
| prim_contentLength v pt : prim pt (set_contentLength v pt)
| prim_completedLength v pt : prim pt (set_completedLength v pt)
| prim_usedTraffic v pt : prim pt (set_usedTraffic v pt)
| prim_peerPacket pp pt : prim pt (set_peerPacket (Some pp) pt)
| prim_pieceParallelCount v pt : prim pt (set_pieceParallelCount v pt)
| prim_ready_push pt :
    closed (peerPacketReady pt) = false ->
    (length (buf (peerPacketReady pt)) < 1)%nat ->
    prim pt (set_peerPacketReady (chan_push true (peerPacketReady pt)) pt)
| prim_ready_pop pt :
    prim pt (set_peerPacketReady (chan_pop (peerPacketReady pt)) pt)
| prim_ready_close pt :
    prim pt (set_peerPacketReady (close (peerPacketReady pt)) pt)
| prim_failed_push num pt :
    closed (failedPieceCh pt) = false ->
    prim pt (set_failedPieceCh (chan_push num (failedPieceCh pt)) pt)
| prim_failed_pop pt :
    prim pt (set_failedPieceCh (chan_pop (failedPieceCh pt)) pt)
| prim_failed_close pt :
    prim pt (set_failedPieceCh (close (failedPieceCh pt)) pt)
| prim_failedReason s pt : prim pt (set_failedReason s pt)
| prim_failedCode c pt : prim pt (set_failedCode c pt)
| prim_readyPieces n pt :
    prim pt (set_readyPieces (Bitmap.SetBit (readyPieces pt) n) pt)
| prim_requestedPieces n pt :
    prim pt (set_requestedPieces (Bitmap.SetBit (requestedPieces pt) n) pt)
| prim_once pt : once pt = false -> prim pt (set_once true pt)
| prim_done pt : prim pt (set_done true pt)
| prim_peerTaskDone pt : prim pt (set_peerTaskDone true pt)
| prim_progressStopCh pt : prim pt (set_progressStopCh true pt).

(** [steps pt pt']: a sequence of primitive updates leads from [pt] to
    [pt']. *)
Definition steps `{codes : !dfcodes.Table} : peerTask -> peerTask -> Prop :=
  rtc prim.

(** ** Goroutines between a read and a send

    In [prim_send] a report is built and sent in one step. The code does not
    hold [pt.lock] from the read of [readyPieces.Settled()] to the [Send]
    ([ReportPieceResult] unlocks before both), so the other goroutines of the
    task can run in between. [interleaved (pt, built) (pt', built')]: one
    goroutine performs one primitive update, or builds the message of a
    report, or sends a message that was built; [built] holds the messages
    that are built and not sent yet. *)
Inductive interleaved `{codes : !dfcodes.Table}
  : peerTask * list PieceResult.t -> peerTask * list PieceResult.t -> Prop :=
| interleaved_prim pt pt' built :
    prim pt pt' -> interleaved (pt, built) (pt', built)
| interleaved_build r pt built :
    interleaved (pt, built) (pt, message r pt :: built)
| interleaved_Send pr pt built built' :
    interleaved (pt, built ++ pr :: built') (Send pr pt, built ++ built').

(** ** A code table

    The values of [internal/dfcodes] as the ranges named in
    [isExitPeerPacketCode] ("1xxx", "5xxx", "6xxx") lay them out; used to run
    the model on concrete inputs. *)
Definition dfcodes_table : dfcodes.Table := {|
  dfcodes.Success := 200;
  dfcodes.ResourceLacked := 1000;
  dfcodes.BadRequest := 1400;
  dfcodes.PeerTaskNotFound := 1404;
  dfcodes.UnknownError := 1500;
  dfcodes.RequestTimeOut := 1504;
  dfcodes.ClientError := 4000;
  dfcodes.ClientPieceRequestFail := 4001;
  dfcodes.ClientScheduleTimeout := 4002;
  dfcodes.ClientContextCanceled := 4003;
  dfcodes.ClientWaitPieceReady := 4004;
  dfcodes.ClientRequestLimitFail := 4006;
  dfcodes.SchedError := 5000;
  dfcodes.SchedNeedBackSource := 5001;
  dfcodes.SchedPeerGone := 5002;
  dfcodes.CdnError := 6000;
  dfcodes.CdnTaskRegistryFail := 6001;
  dfcodes.CdnTaskDownloadFail := 6002;
  dfcodes.CdnTaskNotFound := 6404
|}.

(** A stand-in for the task id hash, used to run the model. *)
Definition sample_hasher : idgen.Hasher :=
  {| idgen.TaskID := fun url meta => url +:+ "#" +:+ UrlMeta.Tag meta |}.


(** ** Sample inputs *)

Definition sample_request : PeerTaskRequest.t :=
  PeerTaskRequest.Build "http://origin/file" (UrlMeta.Build "" "demo" "" "") "peer-1".

Definition sample_peer : DestPeer.t := DestPeer.Build "10.0.0.2" 65000 "peer-2".

Definition sample_packet : PeerPacket.t :=
  PeerPacket.Build "task-1" "peer-1" 2 (Some sample_peer) None 200.

(** A [Success] packet without a main peer but with a steal peer. *)
Definition sample_packet_no_main : PeerPacket.t :=
  PeerPacket.Build "task-1" "peer-1" 2 None (Some [sample_peer]) 200.

(** A scheduler that registers the task as [Normal] and then sends [inbox]. *)
Definition sample_client (inbox : list RecvResult) : schedulerClient :=
  Build_schedulerClient
    (Some (RegisterResult.Build "task-1" SizeScope_NORMAL RegisterResult_none))
    None inbox None.

(** A scheduler that cannot be reached. *)
Definition failing_client : schedulerClient :=
  Build_schedulerClient None (Some (errors_New "connection refused")) [] None.

(** The task [newFilePeerTask] makes for [sample_request]: [stream] and
    [taskID] as registration left them. *)
Definition sample_task (taskID : string) (stream : PeerPacketStream)
    (disableAutoBackSource needBackSource : bool) : peerTask := {|
  ctxDone := false;
  needBackSource := needBackSource;
  DisableAutoBackSource := disableAutoBackSource;
  peerID := "peer-1";
  taskID := taskID;
  totalPiece := -1;
  contentLength := -1;
  completedLength := 0;
  usedTraffic := 0;
  singlePiece := None;
  peerPacketStream := stream;
  peerPacket := None;
  peerPacketReady := make;
  pieceParallelCount := 0;
  done := false;
  peerTaskDone := false;
  once := false;
  failedPieceCh := make;
  failedReason := failedReasonNotSet;
  failedCode := 1500;
  readyPieces := ∅;
  requestedPieces := ∅;
  progressStopCh := false;
  trace := []
|}.

(** A task on a real stream that delivers [inbox]. *)
Definition normal_task (inbox : list RecvResult) (disableAutoBackSource : bool)
  : peerTask :=
  sample_task "task-1" (realStream inbox) disableAutoBackSource false.

(** The task after a failed registration with back-source enabled. *)
Definition back_source_task : peerTask :=
  sample_task "http://origin/file#demo" dummyPeerPacketStream false true.

Definition sample_env : Env := Build_Env progressSent true true None.

(** A successful download of piece [n], [size] bytes long. *)
Definition sample_result (n size : Z) : pieceTaskResult :=
  Build_pieceTaskResult (PieceInfo.Build n (n * size) size)
    (PieceResult.Build "task-1" "peer-1" "peer-2" n true 200 0) None.

Definition sample_report (n size : Z) : TaskCall :=
  Call_ReportPieceResult sample_env (sample_result n size).

(** [DownloadSource] fetches one piece of 5 bytes and then announces the
    content length. *)
Definition sample_source : DownloadSourceRun :=
  Build_DownloadSourceRun
    [sample_report 0 5; Call_SetContentLength sample_env 5] None.

(** The pull loop up to its first pass: the first packet arrives and the
    loop finds nothing to do at its [select]. *)
Definition first_packet_ops : list Op :=
  [Op_Start; Op_receivePeerPacket false;
   Op_waitFirstPeerPacket firstPeerPacketReady sample_env sample_source;
   Op_pullPiecesFromPeers_select pullDefault 0 4; Op_preparePieceTasks_head].

(** Two pieces of 1024 bytes, the first reported twice, then [finish]. *)
Definition sample_ops : list Op :=
  [Op_Start; Op_call (sample_report 0 1024); Op_call (sample_report 1 1024);
   Op_call (sample_report 0 1024); Op_finish sample_env;
   Op_cleanUnfinished sample_env].

(** A peer that announces one piece and no content. *)
Definition empty_packet : PiecePacket.t :=
  PiecePacket.Build "task-1" "peer-2" "10.0.0.2:65000" [] 1 0.

(** A task that knows of three pieces and has asked for the first. *)
Definition requested_task : peerTask :=
  set_totalPiece 3
    (set_requestedPieces (Bitmap.SetBit Bitmap.NewBitmap 0)
       (normal_task [] false)).



(** The download of piece [n] from [sample_peer] failed. *)
Definition sample_failure (n : Z) : TaskCall :=
  Call_ReportPieceResult sample_env
    (Build_pieceTaskResult (PieceInfo.Build n (n * 1024) 1024)
       (PieceResult.Build "task-1" "peer-1" "peer-2" n false 4001 0)
       (Some (errors_New "connection reset by peer"))).

Definition sample_download : DownloadPieceRequest :=
  Build_DownloadPieceRequest "task-1" "peer-2" "10.0.0.2:65000"
    (PieceInfo.Build 0 0 1024).

Definition sample_single_piece : SinglePiece.t :=
  SinglePiece.Build "peer-2" "10.0.0.2:65000" (PieceInfo.Build 0 0 1024).

(** A scheduler that registers the task as [Small] with its only piece. *)
Definition small_client : schedulerClient :=
  Build_schedulerClient
    (Some (RegisterResult.Build "task-1" SizeScope_SMALL
             (RegisterResult_SinglePiece sample_single_piece)))
    None [] None.

(** The task [newFilePeerTask] makes with [small_client]. *)
Definition small_task : peerTask := {|
  ctxDone := false;
  needBackSource := false;
  DisableAutoBackSource := false;
  peerID := "peer-1";
  taskID := "task-1";
  totalPiece := -1;
  contentLength := -1;
  completedLength := 0;
  usedTraffic := 0;
  singlePiece := Some sample_single_piece;
  peerPacketStream := realStream [];
  peerPacket := None;
  peerPacketReady := make;
  pieceParallelCount := 0;
  done := false;
  peerTaskDone := false;
  once := false;
  failedPieceCh := make;
  failedReason := failedReasonNotSet;
  failedCode := 1500;
  readyPieces := ∅;
  requestedPieces := ∅;
  progressStopCh := false;
  trace := []
|}.

(** The task after the first packet arrived. *)
Definition scheduled_task : peerTask :=
  run (codes := dfcodes_table) [Op_Start; Op_receivePeerPacket false]
    (normal_task [RecvPacket sample_packet] false).

(** [DownloadSource] fails before it fetched anything. *)
Definition failing_source : DownloadSourceRun :=
  Build_DownloadSourceRun [] (Some (errors_New "404 Not Found")).


(** * Properties *)

(** A field of an updated task is the field of the task: proved with the
    task (and the new value) abstracted, so that the check does not depend on
    their size. *)
Ltac frame_eq :=
  lazymatch goal with
  | |- _ (?f ?v ?pt) = _ => generalize v; generalize pt; intros; reflexivity
  | |- _ (?f ?pt) = _ => generalize pt; intros; reflexivity
  end.

(** Strip one field update that the property at hand does not read. *)
Ltac frame_with lem :=
  lazymatch goal with
  | |- _ (?f ?v ?pt) => apply (lem pt); [frame_eq .. | ]
  | |- _ (?f ?pt) => apply (lem pt); [frame_eq .. | ]
  end.

(** ** Sums over a bitmap *)

Lemma sumRangeSize_empty range_size : sumRangeSize range_size ∅ = 0.
Proof. apply set_fold_empty. Qed.

Lemma sumRangeSize_SetBit range_size (ready : gset Z) (n : Z) :
  n ∉ ready ->
  sumRangeSize range_size (Bitmap.SetBit ready n)
  = sumRangeSize range_size ready + range_size n.
Proof.
  intros Hn. unfold sumRangeSize, Bitmap.SetBit.
  rewrite (set_fold_disj_union_strong (=) _ 0 {[n]} ready).
  - rewrite set_fold_singleton.
    rewrite (set_fold_comm_acc _ (fun b => range_size n + b) 0); [lia|].
    intros; lia.
  - solve_proper.
  - intros; lia.
  - set_solver.
Qed.

Lemma size_below (N : Z) (X : gset Z) :
  0 <= N -> (forall p, p ∈ X -> 0 <= p < N) -> Z.of_nat (size X) <= N.
Proof.
  intros HN HX.
  assert (Hsub : X ⊆ list_to_set (seqZ 0 N)).
  { intros p Hp. apply elem_of_list_to_set, elem_of_seqZ. specialize (HX p Hp). lia. }
  apply subseteq_size in Hsub.
  rewrite size_list_to_set in Hsub by apply NoDup_seqZ.
  rewrite length_seqZ in Hsub. lia.
Qed.

Lemma sumRangeSize_bounds range_size (M : Z) (X : gset Z) :
  (forall p, 0 <= range_size p <= M) ->
  0 <= sumRangeSize range_size X <= M * Z.of_nat (size X).
Proof.
  intros Hrs. unfold sumRangeSize.
  apply (set_fold_ind_L (fun r (X : gset Z) => 0 <= r <= M * Z.of_nat (size X))).
  - rewrite size_empty. lia.
  - intros x Y r Hx IH.
    rewrite size_union by (by apply disjoint_singleton_l).
    rewrite size_singleton.
    pose proof (Hrs x). nia.
Qed.

Lemma wrap64_small z : - 2 ^ 63 <= z < 2 ^ 63 -> wrap64 z = z.
Proof. intros Hz. unfold wrap64. rewrite Z.mod_small; lia. Qed.

(** ** The scan of [getNextPieceNum] ends on a clear bit *)

Lemma nextClear_clear_from (fuel : nat) (requested : gset Z) (i : Z) :
  (size (filter (fun x : Z => (i <= x)%Z) requested) < fuel)%nat ->
  Bitmap.IsSet requested (nextClear fuel requested i) = false.
Proof.
  revert i. induction fuel as [|fuel IH]; intros i Hsize; [lia|].
  simpl. destruct (Bitmap.IsSet requested i) eqn:Hset; [|done].
  apply IH. apply bool_decide_eq_true in Hset.
  assert (Hsub : filter (fun x : Z => (i + 1 <= x)%Z) requested
                 ⊂ filter (fun x : Z => (i <= x)%Z) requested).
  { split.
    - intros x [Hx Hin]%elem_of_filter. apply elem_of_filter. split; [lia|done].
    - intros Hback. specialize (Hback i).
      rewrite !elem_of_filter in Hback.
      destruct Hback as [Hlt _]; [split; [lia|done] | lia]. }
  apply subset_size in Hsub. lia.
Qed.

Lemma nextClear_clear (requested : gset Z) (i : Z) :
  Bitmap.IsSet requested (nextClear (S (size requested)) requested i) = false.
Proof.
  apply nextClear_clear_from.
  assert (Hsub : filter (fun x : Z => (i <= x)%Z) requested ⊆ requested).
  { intros x [_ Hin]%elem_of_filter. done. }
  apply subseteq_size in Hsub. lia.
Qed.

Section Properties.
Context `{codes : !dfcodes.Table} `{hasher : !idgen.Hasher}.

(** ** Tasks as created *)

Lemma created_fields pt :
  created pt ->
  readyPieces pt = ∅ /\ completedLength pt = 0 /\ once pt = false
  /\ done pt = false /\ trace pt = [] /\ failedCode pt = dfcodes.UnknownError
  /\ contentLength pt = -1 /\ totalPiece pt = -1.
Proof.
  intros (request & client & dis & Hnew).
  unfold newFilePeerTask, newFilePeerTask_create in Hnew.
  repeat case_match; simplify_eq; done.
Qed.

(** ** What touches [readyPieces] and [completedLength]

    [I] is a property of the two fields that a successful report of a result
    satisfying [wf] keeps; every step whose reports satisfy [wf] keeps it. *)
Section Lengths.
Variable I : gset Z -> Z -> Prop.
Variable wf : pieceTaskResult -> Prop.
Hypothesis I_mark : forall r ready len,
  wf r -> PieceResult.Success (pieceResult r) = true ->
  Bitmap.IsSet ready (PieceResult.PieceNum (pieceResult r)) = false ->
  I ready len ->
  I (Bitmap.SetBit ready (PieceResult.PieceNum (pieceResult r)))
    (wrap64 (len + PieceInfo.RangeSize (piece r))).

Lemma lengths_frame pt pt' :
  readyPieces pt' = readyPieces pt -> completedLength pt' = completedLength pt ->
  lengths I pt -> lengths I pt'.
Proof. unfold lengths. intros -> ->. auto. Qed.

Lemma lengths_log e pt : lengths I pt -> lengths I (log e pt).
Proof. intros. by (frame_with lengths_frame). Qed.

Lemma lengths_Send pr pt : lengths I pt -> lengths I (Send pr pt).
Proof. unfold Send. intros. repeat case_match; repeat (frame_with lengths_frame); done. Qed.

Lemma lengths_finish env pt : lengths I pt -> lengths I (snd (finish env pt)).
Proof.
  unfold finish, sendFinalProgress, DoneCallback, close_done. intros.
  repeat case_match; simpl; repeat first [apply lengths_Send | frame_with lengths_frame]; done.
Qed.

Lemma lengths_cleanUnfinished env pt :
  lengths I pt -> lengths I (cleanUnfinished env pt).
Proof.
  unfold cleanUnfinished, sendFinalProgress, DoneCallback, close_done. intros.
  repeat case_match; simpl; repeat first [apply lengths_Send | frame_with lengths_frame]; done.
Qed.

Lemma lengths_failedPieceCh_send num pt :
  lengths I pt -> lengths I (failedPieceCh_send num pt).
Proof. unfold failedPieceCh_send. intros. repeat case_match; repeat (frame_with lengths_frame); done. Qed.

Lemma lengths_isExitPeerPacketCode pp pt :
  lengths I pt -> lengths I (snd (isExitPeerPacketCode pp pt)).
Proof.
  unfold isExitPeerPacketCode. intros.
  repeat case_match; simpl; repeat (frame_with lengths_frame); done.
Qed.

Lemma lengths_ReportPieceResult env r pt :
  (PieceResult.Success (pieceResult r) = true -> wf r) ->
  lengths I pt -> lengths I (snd (ReportPieceResult env r pt)).
Proof.
  intros Hwf H. unfold ReportPieceResult.
  destruct (PieceResult.Success (pieceResult r)) eqn:Hs; simpl.
  - destruct (Bitmap.IsSet _ _) eqn:Hset; [done|].
    assert (Hmark : lengths I
      (set_completedLength
         (wrap64 (completedLength pt + PieceInfo.RangeSize (piece r)))
         (set_readyPieces
            (Bitmap.SetBit (readyPieces pt) (PieceResult.PieceNum (pieceResult r)))
            pt))).
    { unfold lengths. simpl. apply I_mark; auto. }
    repeat case_match; simpl;
      repeat first [apply lengths_finish | apply lengths_Send | frame_with lengths_frame]; done.
  - by apply lengths_failedPieceCh_send, lengths_Send.
Qed.

Lemma lengths_SetContentLength env i pt :
  lengths I pt -> lengths I (snd (SetContentLength env i pt)).
Proof.
  unfold SetContentLength. intros.
  repeat case_match; simpl; repeat first [apply lengths_finish | frame_with lengths_frame]; done.
Qed.

Lemma lengths_call c pt : wfCall wf c -> lengths I pt -> lengths I (call c pt).
Proof.
  destruct c; simpl; intros.
  - by apply lengths_ReportPieceResult.
  - by apply lengths_SetContentLength.
  - unfold AddTraffic. by (frame_with lengths_frame).
Qed.

Lemma lengths_calls cs pt :
  Forall (wfCall wf) cs -> lengths I pt -> lengths I (calls cs pt).
Proof.
  intros Hcs. revert pt. induction Hcs; simpl; intros; [done|].
  apply IHHcs. by apply lengths_call.
Qed.

Lemma lengths_backSource env ds pt :
  Forall (wfCall wf) (sourceCalls ds) -> lengths I pt -> lengths I (backSource env ds pt).
Proof.
  unfold backSource. intros.
  repeat case_match;
    repeat first [apply lengths_cleanUnfinished | apply lengths_finish
                 | apply lengths_calls; [done|] | frame_with lengths_frame]; done.
Qed.

Lemma lengths_onContextDone pt : lengths I pt -> lengths I (onContextDone pt).
Proof. unfold onContextDone. intros. repeat case_match; repeat (frame_with lengths_frame); done. Qed.

Lemma lengths_dispatchPieceRequest pieceInfos sels pt :
  lengths I pt -> lengths I (dispatchPieceRequest pieceInfos sels pt).
Proof.
  revert sels pt. induction pieceInfos; simpl; intros; [done|].
  apply IHpieceInfos.
  repeat case_match; repeat first [apply lengths_onContextDone | frame_with lengths_frame]; done.
Qed.

Lemma lengths_exec op pt :
  Forall (wfCall wf) (opCalls op) -> lengths I pt -> lengths I (exec op pt).
Proof.
  intros Hcs H.
  destruct op; simpl in *;
    try (apply Forall_cons in Hcs as [Hc _]);
    unfold Start, cancel, DoneCallback, after, from_option,
      receivePeerPacket_body,
      pullSinglePiece, waitFirstPeerPacket,
      pullPiecesFromPeers_select, preparePieceTasks_head, getPieceTasks_empty,
      preparePieceTasksByPeer_fail, waitAvailablePeerPacket, init,
      updateTotalPiece, waitFailedPiece, pullPiecesFromPeers_deferred,
      downloadPieceWorker_body;
    repeat first [case_match | progress simplify_eq | progress simpl in *];
    repeat first
      [ assumption
      | apply lengths_call; [assumption|]
      | apply lengths_finish
      | apply lengths_cleanUnfinished
      | apply lengths_backSource; [assumption|]
      | apply lengths_calls; [assumption|]
      | apply lengths_failedPieceCh_send
      | match goal with
        | H : isExitPeerPacketCode ?pp ?p = (_, ?p0) |- lengths _ ?p0 =>
            replace p0 with (snd (isExitPeerPacketCode pp p))
              by (rewrite H; reflexivity);
            apply lengths_isExitPeerPacketCode
        end
      | apply lengths_dispatchPieceRequest
      | apply lengths_onContextDone
      | apply lengths_Send
      | frame_with lengths_frame ].
Qed.

Lemma lengths_run ops pt :
  Forall (fun op => Forall (wfCall wf) (opCalls op)) ops ->
  lengths I pt -> lengths I (run ops pt).
Proof.
  intros Hops. revert pt. induction Hops; simpl; intros; [done|].
  apply IHHops. by apply lengths_exec.
Qed.

End Lengths.

(** ** The one-shot latch of [finish] and [cleanUnfinished] *)
Lemma latch_frame pt pt' b :
  once pt' = once pt -> done pt' = done pt -> trace pt' = trace pt ->
  latch b pt -> latch b pt'.
Proof. unfold latch. intros -> -> ->. auto. Qed.

Lemma latch_log b e pt :
  isBody e = false -> isCloseDone e = false -> latch b pt -> latch b (log e pt).
Proof. unfold latch. simpl. intros -> ->. auto. Qed.

Lemma latch_weaken b pt : latch true pt -> latch b pt.
Proof. unfold latch. intuition. Qed.

Ltac latch_peel :=
  first [ apply latch_log; [reflexivity | reflexivity | ]
        | frame_with latch_frame ].

Lemma latch_Send b pr pt : latch b pt -> latch b (Send pr pt).
Proof. unfold Send. intros. repeat case_match; repeat latch_peel; done. Qed.

Lemma latch_trace_frame b pt pt' :
  once pt' = once pt -> done pt' = done pt ->
  count isBody (trace pt') = count isBody (trace pt) ->
  count isCloseDone (trace pt') = count isCloseDone (trace pt) ->
  latch b pt -> latch b pt'.
Proof. unfold latch. intros -> -> -> ->. auto. Qed.

Lemma latch_finish b env pt : latch b pt -> latch b (snd (finish env pt)).
Proof.
  intros H. unfold finish. destruct (once pt) eqn:Honce; [done|].
  destruct H as (Hb & Hc & Hd & Hob). rewrite Honce in *.
  unfold sendFinalProgress, DoneCallback, close_done, Send, latch.
  repeat case_match; simpl in *; rewrite ?Hb, ?Hc; try done; congruence.
Qed.

Lemma latch_finish_fired b env pt :
  latch b pt -> latch true (snd (finish env pt)).
Proof.
  intros H. pose proof (latch_finish b env pt H) as (Hb & Hc & Hd & _).
  repeat split; try done. intros _.
  unfold finish, sendFinalProgress, DoneCallback, close_done, Send.
  repeat case_match; done.
Qed.

Lemma latch_cleanUnfinished b env pt :
  latch b pt -> latch b (cleanUnfinished env pt).
Proof.
  intros H. unfold cleanUnfinished, cancel.
  destruct (once pt) eqn:Honce.
  { apply (latch_frame pt); done. }
  destruct H as (Hb & Hc & Hd & Hob). rewrite Honce in *.
  unfold sendFinalProgress, DoneCallback, close_done, Send, latch.
  repeat case_match; simpl in *; rewrite ?Hb, ?Hc; try done; congruence.
Qed.

Lemma latch_cleanUnfinished_fired b env pt :
  latch b pt -> latch true (cleanUnfinished env pt).
Proof.
  intros H. pose proof (latch_cleanUnfinished b env pt H) as (Hb & Hc & Hd & _).
  repeat split; try done. intros _.
  unfold cleanUnfinished, sendFinalProgress, DoneCallback, cancel, close_done,
    Send.
  repeat case_match; done.
Qed.

Lemma latch_failedPieceCh_send b num pt :
  latch b pt -> latch b (failedPieceCh_send num pt).
Proof.
  unfold failedPieceCh_send. intros. repeat case_match; repeat latch_peel; done.
Qed.

Lemma latch_isExitPeerPacketCode b pp pt :
  latch b pt -> latch b (snd (isExitPeerPacketCode pp pt)).
Proof.
  unfold isExitPeerPacketCode. intros.
  repeat case_match; simpl; repeat latch_peel; done.
Qed.

Lemma latch_ReportPieceResult b env r pt :
  latch b pt -> latch b (snd (ReportPieceResult env r pt)).
Proof.
  intros H. unfold ReportPieceResult.
  repeat case_match; simpl;
    repeat first [ assumption | apply latch_finish | apply latch_Send
                 | apply latch_failedPieceCh_send | latch_peel ].
Qed.

Lemma latch_SetContentLength b env i pt :
  latch b pt -> latch b (snd (SetContentLength env i pt)).
Proof.
  unfold SetContentLength. intros.
  repeat case_match; simpl; repeat first [apply latch_finish | latch_peel]; done.
Qed.

Lemma latch_call b c pt : latch b pt -> latch b (call c pt).
Proof.
  destruct c; simpl; intros.
  - by apply latch_ReportPieceResult.
  - by apply latch_SetContentLength.
  - unfold AddTraffic. by latch_peel.
Qed.

Lemma latch_calls b cs pt : latch b pt -> latch b (calls cs pt).
Proof.
  revert pt. induction cs; simpl; intros; [done|].
  apply IHcs. by apply latch_call.
Qed.

Lemma latch_backSource b env ds pt :
  latch b pt -> latch b (backSource env ds pt).
Proof.
  unfold backSource. intros.
  repeat case_match;
    repeat first [ assumption | apply latch_cleanUnfinished | apply latch_finish
                 | apply latch_calls | latch_peel ].
Qed.

Lemma latch_onContextDone b pt : latch b pt -> latch b (onContextDone pt).
Proof. unfold onContextDone. intros. repeat case_match; repeat latch_peel; done. Qed.

Lemma latch_dispatchPieceRequest b pieceInfos sels pt :
  latch b pt -> latch b (dispatchPieceRequest pieceInfos sels pt).
Proof.
  revert sels pt. induction pieceInfos; simpl; intros; [done|].
  apply IHpieceInfos.
  repeat case_match; repeat first [apply latch_onContextDone | latch_peel]; done.
Qed.

Lemma count_app f tr1 tr2 : count f (tr1 ++ tr2) = (count f tr1 + count f tr2)%nat.
Proof. induction tr1; simpl; [done|]. case_match; lia. Qed.

Lemma count_spawn f (H : forall id, f (EvSpawnWorker id) = false) ids :
  count f (reverse (EvSpawnWorker <$> ids)) = 0%nat.
Proof.
  induction ids; [done|].
  rewrite fmap_cons, reverse_cons, count_app, IHids. simpl. by rewrite H.
Qed.

Lemma latch_init b piecePacket initErr pt :
  latch b pt -> latch b (snd (init piecePacket initErr pt)).
Proof.
  unfold init. intros.
  repeat case_match; simpl; repeat first [assumption | latch_peel].
  eapply latch_trace_frame; [| | | | eassumption]; simpl; try done.
  all: by rewrite count_app, count_spawn.
Qed.

Lemma latch_exec b op pt : latch b pt -> latch b (exec op pt).
Proof.
  intros H.
  destruct op; simpl in *;
    unfold Start, cancel, DoneCallback, after, from_option,
      receivePeerPacket_body,
      pullSinglePiece, waitFirstPeerPacket,
      pullPiecesFromPeers_select, preparePieceTasks_head, getPieceTasks_empty,
      preparePieceTasksByPeer_fail, waitAvailablePeerPacket,
      updateTotalPiece, waitFailedPiece, pullPiecesFromPeers_deferred,
      downloadPieceWorker_body;
    repeat first [case_match | progress simplify_eq | progress simpl in *];
    repeat first
      [ assumption
      | apply latch_call
      | apply latch_finish
      | apply latch_cleanUnfinished
      | apply latch_backSource
      | apply latch_calls
      | apply latch_init
      | apply latch_failedPieceCh_send
      | match goal with
        | H : isExitPeerPacketCode ?pp ?p = (_, ?p0) |- latch _ ?p0 =>
            replace p0 with (snd (isExitPeerPacketCode pp p))
              by (rewrite H; reflexivity);
            apply latch_isExitPeerPacketCode
        end
      | apply latch_dispatchPieceRequest
      | apply latch_onContextDone
      | apply latch_Send
      | latch_peel ].
Qed.

Lemma latch_run b ops pt : latch b pt -> latch b (run ops pt).
Proof.
  revert pt. induction ops; simpl; intros; [done|].
  apply IHops. by apply latch_exec.
Qed.

Lemma run_app ops1 ops2 pt : run (ops1 ++ ops2) pt = run ops2 (run ops1 pt).
Proof. apply fold_left_app. Qed.

Lemma latch_created pt : created pt -> latch false pt.
Proof.
  intros (_ & _ & Honce & Hdone & Htrace & _)%created_fields.
  unfold latch. rewrite Honce, Hdone, Htrace. done.
Qed.

(** ** What goes out on the scheduler stream

    [Q n pr] is a property of a message [pr] sent while [n] bits were set. *)
Section Sends.
Variable Q : Z -> PieceResult.t -> Prop.





End Sends.

(** ** At most one successful report per piece *)
Lemma uniq_frame pt pt' :
  readyPieces pt' = readyPieces pt -> trace pt' = trace pt ->
  uniq pt -> uniq pt'.
Proof. unfold uniq. intros -> ->. auto. Qed.

Lemma uniq_log e pt :
  (forall n, isSuccessSend n e = false) -> uniq pt -> uniq (log e pt).
Proof. unfold uniq. simpl. intros He H n. rewrite He. apply H. Qed.

Ltac uniq_peel :=
  first [ apply uniq_log; [intros ?; reflexivity | ]
        | frame_with uniq_frame ].

Lemma uniq_Send_failure pr pt :
  PieceResult.Success pr = false -> uniq pt -> uniq (Send pr pt).
Proof.
  unfold Send. intros Hs H. repeat case_match; [|done].
  apply uniq_log; [|done]. intros n. simpl. by rewrite Hs.
Qed.

Lemma uniq_close_done pt : uniq pt -> uniq (close_done pt).
Proof. unfold close_done. intros. repeat case_match; repeat uniq_peel; done. Qed.

Lemma uniq_DoneCallback pt : uniq pt -> uniq (DoneCallback pt).
Proof.
  unfold DoneCallback. intros.
  destruct (progressStopCh _); repeat uniq_peel; done.
Qed.

Lemma uniq_sendFinalProgress env pg pt :
  uniq pt -> uniq (sendFinalProgress env pg pt).
Proof.
  unfold sendFinalProgress. intros.
  destruct (finalProgressSent env); [|done].
  destruct (finalProgressAcked env);
    repeat first [apply uniq_DoneCallback | uniq_peel]; done.
Qed.

Lemma uniq_finish env pt : uniq pt -> uniq (snd (finish env pt)).
Proof.
  unfold finish. intros. destruct (once pt); [done|]. cbv zeta. cbn [snd].
  repeat first [ assumption | apply uniq_close_done
               | apply uniq_sendFinalProgress
               | apply uniq_Send_failure; [reflexivity|] | uniq_peel ].
Qed.

Lemma uniq_cleanUnfinished env pt : uniq pt -> uniq (cleanUnfinished env pt).
Proof.
  unfold cleanUnfinished, cancel. intros. destruct (once pt); cbv zeta;
  repeat first [ assumption | apply uniq_close_done
               | apply uniq_sendFinalProgress
               | apply uniq_Send_failure; [reflexivity|] | uniq_peel ].
Qed.

Lemma uniq_failedPieceCh_send num pt :
  uniq pt -> uniq (failedPieceCh_send num pt).
Proof.
  unfold failedPieceCh_send. intros. repeat case_match; repeat uniq_peel; done.
Qed.

Lemma uniq_isExitPeerPacketCode pp pt :
  uniq pt -> uniq (snd (isExitPeerPacketCode pp pt)).
Proof.
  unfold isExitPeerPacketCode. intros.
  repeat case_match; simpl; repeat uniq_peel; done.
Qed.

Lemma IsSet_SetBit ready i n :
  Bitmap.IsSet (Bitmap.SetBit ready i) n
  = bool_decide (n = i) || Bitmap.IsSet ready n.
Proof.
  unfold Bitmap.IsSet, Bitmap.SetBit.
  rewrite <- bool_decide_or. apply bool_decide_ext. set_solver.
Qed.

(** The marking step of [ReportPieceResult]: set the bit, add the size,
    send the report. *)
Lemma uniq_mark pr len pt :
  Bitmap.IsSet (readyPieces pt) (PieceResult.PieceNum pr) = false ->
  uniq pt ->
  uniq (Send pr
          (set_completedLength len
             (set_readyPieces
                (Bitmap.SetBit (readyPieces pt) (PieceResult.PieceNum pr)) pt))).
Proof.
  intros Hclear H. unfold Send. simpl.
  assert (Hgrow : uniq
    (set_completedLength len
       (set_readyPieces
          (Bitmap.SetBit (readyPieces pt) (PieceResult.PieceNum pr)) pt))).
  { intros n. simpl. specialize (H n). rewrite IsSet_SetBit.
    destruct (Bitmap.IsSet (readyPieces pt) n);
      destruct (bool_decide (n = PieceResult.PieceNum pr)); simpl; lia. }
  destruct (peerPacketStream pt); [|done].
  intros n. simpl. specialize (H n). rewrite IsSet_SetBit.
  destruct (PieceResult.Success pr); simpl; [|specialize (Hgrow n); simpl in Hgrow; by rewrite IsSet_SetBit in Hgrow].
  rewrite (bool_decide_ext (PieceResult.PieceNum pr = n) (n = PieceResult.PieceNum pr)) by done.
  case_bool_decide as Hn; simpl.
  - subst n. rewrite Hclear in H. lia.
  - done.
Qed.

Lemma uniq_ReportPieceResult env r pt :
  uniq pt -> uniq (snd (ReportPieceResult env r pt)).
Proof.
  intros H. unfold ReportPieceResult.
  destruct (PieceResult.Success (pieceResult r)) eqn:Hs; simpl.
  - destruct (Bitmap.IsSet _ _) eqn:Hset; [done|].
    pose proof (uniq_mark
      (PieceResult.with_FinishedCount
         (Bitmap.Settled
            (Bitmap.SetBit (readyPieces pt) (PieceResult.PieceNum (pieceResult r))))
         (pieceResult r))
      (wrap64 (completedLength pt + PieceInfo.RangeSize (piece r)))
      pt Hset H) as Hmark.
    simpl in Hmark.
    repeat case_match; simpl;
      repeat first [ assumption | apply uniq_finish | uniq_peel ].
  - apply uniq_failedPieceCh_send, uniq_Send_failure; done.
Qed.

Lemma uniq_SetContentLength env i pt :
  uniq pt -> uniq (snd (SetContentLength env i pt)).
Proof.
  unfold SetContentLength. intros.
  repeat case_match; simpl; repeat first [apply uniq_finish | uniq_peel]; done.
Qed.

Lemma uniq_call c pt : uniq pt -> uniq (call c pt).
Proof.
  destruct c; simpl; intros.
  - by apply uniq_ReportPieceResult.
  - by apply uniq_SetContentLength.
  - unfold AddTraffic. by uniq_peel.
Qed.

Lemma uniq_calls cs pt : uniq pt -> uniq (calls cs pt).
Proof.
  revert pt. induction cs; simpl; intros; [done|].
  apply IHcs. by apply uniq_call.
Qed.

Lemma uniq_backSource env ds pt : uniq pt -> uniq (backSource env ds pt).
Proof.
  unfold backSource. intros.
  repeat case_match;
    repeat first [ assumption | apply uniq_cleanUnfinished | apply uniq_finish
                 | apply uniq_calls | uniq_peel ].
Qed.

Lemma uniq_onContextDone pt : uniq pt -> uniq (onContextDone pt).
Proof. unfold onContextDone. intros. repeat case_match; repeat uniq_peel; done. Qed.

Lemma uniq_dispatchPieceRequest pieceInfos sels pt :
  uniq pt -> uniq (dispatchPieceRequest pieceInfos sels pt).
Proof.
  revert sels pt. induction pieceInfos; simpl; intros; [done|].
  apply IHpieceInfos.
  repeat case_match; repeat first [apply uniq_onContextDone | uniq_peel]; done.
Qed.

Lemma uniq_spawn ids pt :
  uniq pt ->
  uniq (set_trace (reverse (EvSpawnWorker <$> ids) ++ trace pt) pt).
Proof.
  intros H n. simpl. rewrite count_app, count_spawn by done. apply H.
Qed.

Lemma uniq_init piecePacket initErr pt :
  uniq pt -> uniq (snd (init piecePacket initErr pt)).
Proof.
  unfold init. intros H.
  repeat case_match; simpl;
    repeat first [assumption | apply uniq_spawn | uniq_peel].
Qed.

Lemma uniq_exec op pt : uniq pt -> uniq (exec op pt).
Proof.
  intros H.
  destruct op; simpl in *;
    unfold Start, cancel, DoneCallback, after, from_option,
      receivePeerPacket_body,
      pullSinglePiece, waitFirstPeerPacket,
      pullPiecesFromPeers_select, preparePieceTasks_head, getPieceTasks_empty,
      preparePieceTasksByPeer_fail, waitAvailablePeerPacket,
      updateTotalPiece, waitFailedPiece, pullPiecesFromPeers_deferred,
      downloadPieceWorker_body;
    repeat first [case_match | progress simplify_eq | progress simpl in *];
    repeat first
      [ assumption
      | apply uniq_call
      | apply uniq_finish
      | apply uniq_cleanUnfinished
      | apply uniq_backSource
      | apply uniq_calls
      | apply uniq_init
      | apply uniq_failedPieceCh_send
      | match goal with
        | H : isExitPeerPacketCode ?pp ?p = (_, ?p0) |- uniq ?p0 =>
            replace p0 with (snd (isExitPeerPacketCode pp p))
              by (rewrite H; reflexivity);
            apply uniq_isExitPeerPacketCode
        end
      | apply uniq_dispatchPieceRequest
      | apply uniq_onContextDone
      | apply uniq_Send_failure; [reflexivity|]
      | uniq_peel ].
Qed.

Lemma uniq_run ops pt : uniq pt -> uniq (run ops pt).
Proof.
  revert pt. induction ops; simpl; intros; [done|].
  apply IHops. by apply uniq_exec.
Qed.

Lemma uniq_created pt : created pt -> uniq pt.
Proof.
  intros (_ & _ & _ & _ & Htrace & _)%created_fields n.
  rewrite Htrace. simpl. case_match; lia.
Qed.

(** ** Going to the source

    [wentToSource code pt]: [needBackSource] is set, [failedCode] is [code]
    and [DownloadSource] was called. Nothing that runs inside [backSource]
    undoes any of the three. *)
Lemma wentToSource_frame pt pt' code :
  needBackSource pt' = needBackSource pt -> failedCode pt' = failedCode pt ->
  trace pt' = trace pt ->
  wentToSource code pt -> wentToSource code pt'.
Proof. unfold wentToSource. intros -> -> ->. auto. Qed.

Lemma wentToSource_log code e pt :
  wentToSource code pt -> wentToSource code (log e pt).
Proof.
  unfold wentToSource. simpl. intros (? & ? & ?).
  repeat split; try done. by apply list_elem_of_further.
Qed.

Ltac source_peel :=
  first [ apply wentToSource_log | frame_with wentToSource_frame ].

Lemma wentToSource_Send code pr pt :
  wentToSource code pt -> wentToSource code (Send pr pt).
Proof. unfold Send. intros. repeat case_match; repeat source_peel; done. Qed.

Lemma wentToSource_close_done code pt :
  wentToSource code pt -> wentToSource code (close_done pt).
Proof. unfold close_done. intros. repeat case_match; repeat source_peel; done. Qed.

Lemma wentToSource_DoneCallback code pt :
  wentToSource code pt -> wentToSource code (DoneCallback pt).
Proof.
  unfold DoneCallback. intros.
  destruct (progressStopCh _); repeat source_peel; done.
Qed.

Lemma wentToSource_sendFinalProgress code env pg pt :
  wentToSource code pt -> wentToSource code (sendFinalProgress env pg pt).
Proof.
  unfold sendFinalProgress. intros.
  destruct (finalProgressSent env); [|done].
  destruct (finalProgressAcked env);
    repeat first [apply wentToSource_DoneCallback | source_peel]; done.
Qed.

Lemma wentToSource_finish code env pt :
  wentToSource code pt -> wentToSource code (snd (finish env pt)).
Proof.
  unfold finish. intros. destruct (once pt); [done|]. cbv zeta. cbn [snd].
  repeat first [ assumption | apply wentToSource_close_done
               | apply wentToSource_sendFinalProgress
               | apply wentToSource_Send | source_peel ].
Qed.

Lemma wentToSource_cleanUnfinished code env pt :
  wentToSource code pt -> wentToSource code (cleanUnfinished env pt).
Proof.
  unfold cleanUnfinished, cancel. intros. destruct (once pt); cbv zeta;
  repeat first [ assumption | apply wentToSource_close_done
               | apply wentToSource_sendFinalProgress
               | apply wentToSource_Send | source_peel ].
Qed.

Lemma wentToSource_failedPieceCh_send code num pt :
  wentToSource code pt -> wentToSource code (failedPieceCh_send num pt).
Proof.
  unfold failedPieceCh_send. intros. repeat case_match; repeat source_peel; done.
Qed.

Lemma wentToSource_ReportPieceResult code env r pt :
  wentToSource code pt -> wentToSource code (snd (ReportPieceResult env r pt)).
Proof.
  intros H. unfold ReportPieceResult.
  repeat case_match; simpl;
    repeat first [ assumption | apply wentToSource_finish
                 | apply wentToSource_failedPieceCh_send
                 | apply wentToSource_Send | source_peel ].
Qed.

Lemma wentToSource_SetContentLength code env i pt :
  wentToSource code pt -> wentToSource code (snd (SetContentLength env i pt)).
Proof.
  unfold SetContentLength. intros.
  repeat case_match; simpl;
    repeat first [apply wentToSource_finish | source_peel]; done.
Qed.

Lemma wentToSource_calls code cs pt :
  wentToSource code pt -> wentToSource code (calls cs pt).
Proof.
  revert pt. induction cs as [|c cs IH]; simpl; intros pt H; [done|].
  apply IH. destruct c; simpl.
  - by apply wentToSource_ReportPieceResult.
  - by apply wentToSource_SetContentLength.
  - unfold AddTraffic. by source_peel.
Qed.

Lemma wentToSource_backSource code env ds pt :
  needBackSource pt = true -> failedCode pt = code ->
  wentToSource code (backSource env ds pt).
Proof.
  intros Hneed Hcode. unfold backSource.
  assert (wentToSource code (log EvDownloadSource pt)).
  { repeat split; try done. apply list_elem_of_here. }
  repeat case_match;
    repeat first [ assumption | apply wentToSource_cleanUnfinished
                 | apply wentToSource_finish | apply wentToSource_calls
                 | source_peel ].
Qed.

(** ** The claims *)

Lemma lengthInv_mark range_size r ready len :
  (forall p, 0 <= range_size p < 2 ^ 32) ->
  wellFormed range_size r ->
  Bitmap.IsSet ready (PieceResult.PieceNum (pieceResult r)) = false ->
  lengthInv range_size ready len ->
  lengthInv range_size
    (Bitmap.SetBit ready (PieceResult.PieceNum (pieceResult r)))
    (wrap64 (len + PieceInfo.RangeSize (piece r))).
Proof.
  intros Hrs [Hnum Hsize] Hclear [Hlen Hin].
  apply bool_decide_eq_false in Hclear.
  assert (Hin' : forall p,
    p ∈ Bitmap.SetBit ready (PieceResult.PieceNum (pieceResult r)) ->
    0 <= p < 2 ^ 31).
  { unfold Bitmap.SetBit. intros p [->%elem_of_singleton|Hp]%elem_of_union; auto. }
  split; [|done].
  rewrite sumRangeSize_SetBit by done.
  rewrite Hsize, Hlen. apply wrap64_small.
  rewrite <- sumRangeSize_SetBit by done.
  pose proof (sumRangeSize_bounds range_size (2 ^ 32 - 1)
    (Bitmap.SetBit ready (PieceResult.PieceNum (pieceResult r)))) as Hb.
  pose proof (size_below (2 ^ 31) _ ltac:(lia) Hin') as Hs.
  assert (forall p, 0 <= range_size p <= 2 ^ 32 - 1) as Hrs'
    by (intros p; specialize (Hrs p); lia).
  specialize (Hb Hrs'). nia.
Qed.

(** C1. For a task whose reports agree with its piece layout [range_size]
    (piece numbers are non-negative [int32]s, sizes are [uint32]s),
    [completedLength] is the sum of [range_size] over the ready pieces after
    every step of every run. A successful [ReportPieceResult] for a piece
    whose bit is clear sets the bit and adds that piece's [RangeSize] in one
    step, and a step without a successful report changes neither field. *)
Theorem C1_completed_length_is_sum_over_ready
    (range_size : Z -> Z) (pt : peerTask) (ops : list Op) :
  (forall p, 0 <= range_size p < 2 ^ 32) ->
  created pt ->
  Forall (reportsWellFormed range_size) ops ->
  completedLength (run ops pt)
  = sumRangeSize range_size (readyPieces (run ops pt))
  /\ (forall env r st,
        PieceResult.Success (pieceResult r) = true ->
        Bitmap.IsSet (readyPieces st) (PieceResult.PieceNum (pieceResult r)) = false ->
        readyPieces (snd (ReportPieceResult env r st))
        = Bitmap.SetBit (readyPieces st) (PieceResult.PieceNum (pieceResult r))
        /\ completedLength (snd (ReportPieceResult env r st))
           = wrap64 (completedLength st + PieceInfo.RangeSize (piece r)))
  /\ (forall op st,
        noSuccessfulReport op ->
        readyPieces (exec op st) = readyPieces st
        /\ completedLength (exec op st) = completedLength st).
Proof.
  intros Hrs Hcreated Hops. split; [|split].
  - apply (lengths_run (lengthInv range_size) (wellFormed range_size)).
    + intros r ready len Hwf _. by apply lengthInv_mark.
    + done.
    + apply created_fields in Hcreated as (Hready & Hlen & _).
      unfold lengths, lengthInv. rewrite Hready, Hlen, sumRangeSize_empty.
      split; [done|]. intros p Hp. by apply not_elem_of_empty in Hp.
  - intros env r st Hs Hclear. unfold ReportPieceResult.
    rewrite Hs, Hclear. cbn [negb].
    match goal with
    | |- readyPieces ?x = ?R /\ completedLength ?x = ?C =>
        change (lengths (fun ready len => ready = R /\ len = C) x)
    end.
    destruct (progress env);
      try match goal with
          | |- context [isCompleted ?x] => destruct (isCompleted x)
          end; cbn [negb snd];
      repeat first [ apply lengths_finish | apply lengths_Send
                   | apply lengths_log ];
      by unfold lengths.
  - intros op st Hno.
    apply (lengths_exec
      (fun ready len => ready = readyPieces st /\ len = completedLength st)
      (fun _ => False)); [done | done | by unfold lengths].
Qed.

(** C2. Once [finish] or [cleanUnfinished] has been called in a run, however
    often and among whatever other steps, exactly one body of the two has
    run and [done] was closed exactly once; in no run does a second body run
    or is [done] closed twice. *)
Theorem C2_finish_or_cleanUnfinished_runs_once
    (pt : peerTask) (ops : list Op) (env : Env) :
  created pt ->
  In (Op_finish env) ops \/ In (Op_cleanUnfinished env) ops ->
  count isBody (trace (run ops pt)) = 1%nat
  /\ count isCloseDone (trace (run ops pt)) = 1%nat
  /\ done (run ops pt) = true
  /\ forall ops',
       (count isBody (trace (run ops' pt)) <= 1)%nat
       /\ (count isCloseDone (trace (run ops' pt)) <= 1)%nat.
Proof.
  intros Hcreated Hin.
  assert (Hmost : forall ops',
    (count isBody (trace (run ops' pt)) <= 1)%nat
    /\ (count isCloseDone (trace (run ops' pt)) <= 1)%nat).
  { intros ops'.
    destruct (latch_run false ops' pt (latch_created pt Hcreated))
      as (Hb & Hc & _).
    rewrite Hb, Hc. destruct (once (run ops' pt)); lia. }
  assert (Hfired : latch true (run ops pt)).
  { apply latch_created in Hcreated.
    destruct Hin as [Hin|Hin]; apply in_split in Hin as (ops1 & ops2 & ->);
      rewrite run_app; simpl; apply latch_run.
    - apply (latch_finish_fired false), latch_run, Hcreated.
    - apply (latch_cleanUnfinished_fired false), latch_run, Hcreated. }
  destruct Hfired as (Hb & Hc & Hd & Ho).
  rewrite Ho in * by done. done.
Qed.

(** C8. A successful report for a piece whose ready bit is set changes
    nothing and sends nothing; in every run, at most one [PieceResult] with
    [Success = true] goes out per piece number. *)
Theorem C8_successful_report_is_idempotent
    (pt : peerTask) (ops : list Op) :
  created pt ->
  (forall env r st,
     PieceResult.Success (pieceResult r) = true ->
     Bitmap.IsSet (readyPieces st) (PieceResult.PieceNum (pieceResult r)) = true ->
     ReportPieceResult env r st = (None, st))
  /\ forall n, (count (isSuccessSend n) (trace (run ops pt)) <= 1)%nat.
Proof.
  intros Hcreated. split.
  - intros env r st Hs Hset. unfold ReportPieceResult. by rewrite Hs, Hset.
  - intros n.
    pose proof (uniq_run ops pt (uniq_created pt Hcreated) n) as H.
    destruct (Bitmap.IsSet _ _); lia.
Qed.

(** C3. On the timeout branch of [waitFirstPeerPacket] with auto back source
    disabled, the code records [ClientScheduleTimeout] and then still sets
    [needBackSource] and runs [backSource], which calls [DownloadSource]. *)
Theorem C3_timeout_runs_backSource_when_disabled
    (env : Env) (ds : DownloadSourceRun) (pt : peerTask) :
  DisableAutoBackSource pt = true ->
  exists pt',
    waitFirstPeerPacket firstTimeout env ds pt = Some (false, pt')
    /\ pt' = backSource env ds
               (set_needBackSource true
                  (set_failedCode dfcodes.ClientScheduleTimeout
                     (set_failedReason reasonScheduleTimeout pt)))
    /\ wentToSource dfcodes.ClientScheduleTimeout pt'.
Proof.
  intros Hdis. unfold waitFirstPeerPacket. rewrite Hdis.
  eexists. split; [reflexivity|]. split; [reflexivity|].
  by apply wentToSource_backSource.
Qed.

(** C4. A task is created with [failedCode = UnknownError], which is not the
    sentinel [failedCodeNotSet]; as long as nothing else was recorded, the
    context-cancel branches leave [failedCode] at [UnknownError] and report
    that code to [callback.Fail]. *)
Theorem C4_context_cancel_keeps_UnknownError
    (pt : peerTask) (ctxErr : error) (num limit : Z) :
  dfcodes.UnknownError <> failedCodeNotSet ->
  created pt ->
  failedCode pt = dfcodes.UnknownError
  /\ forall st,
       failedCode st = dfcodes.UnknownError ->
       peerTaskDone st = false ->
       ctxDone st = true ->
       fst (pullPiecesFromPeers_select (pullCtxDone ctxErr) num limit st)
       = Break (log (EvCallbackFail dfcodes.UnknownError (failedReason st)) st)
       /\ onContextDone st = st.
Proof.
  intros Hne Hcreated. split.
  - by apply created_fields in Hcreated as (_ & _ & _ & _ & _ & Hcode & _).
  - intros st Hcode Hdone Hctx.
    unfold pullPiecesFromPeers_select, onContextDone.
    rewrite Hdone, Hcode, Hctx. simpl.
    rewrite bool_decide_eq_false_2 by done. done.
Qed.

(** C6 (amended). [isCompleted] is true exactly when [completedLength]
    equals [contentLength]; it reads neither the ready pieces nor
    [totalPiece]. *)
Theorem C6_isCompleted_compares_lengths (pt : peerTask) :
  (isCompleted pt = true <-> completedLength pt = contentLength pt)
  /\ forall ready total,
       isCompleted (set_readyPieces ready (set_totalPiece total pt))
       = isCompleted pt.
Proof.
  split; [|done]. unfold isCompleted. apply bool_decide_eq_true.
Qed.

Lemma elem_of_exitCodes (c : Z) :
  c ∈ exitCodes
  <-> c ∈ [dfcodes.ResourceLacked; dfcodes.BadRequest; dfcodes.PeerTaskNotFound;
           dfcodes.UnknownError; dfcodes.RequestTimeOut]
      \/ c = dfcodes.SchedError
      \/ c = dfcodes.SchedPeerGone
      \/ c ∈ [dfcodes.CdnError; dfcodes.CdnTaskRegistryFail;
               dfcodes.CdnTaskDownloadFail].
Proof. unfold exitCodes. rewrite !elem_of_cons, !elem_of_nil. tauto. Qed.

Lemma isExitPeerPacketCode_other (pp : PeerPacket.t) (pt : peerTask) :
  PeerPacket.Code pp ∉ exitCodes -> isExitPeerPacketCode pp pt = (false, pt).
Proof.
  rewrite elem_of_exitCodes. intros Hn. unfold isExitPeerPacketCode.
  repeat case_bool_decide; try done; tauto.
Qed.

(** C7. [isExitPeerPacketCode] answers [true] exactly on the ten exit codes;
    it then records the packet's code and a reason. On any other code it
    leaves the task as it is, and the receive loop goes on to the next
    packet. *)
Theorem C7_isExitPeerPacketCode_exit_codes (pp : PeerPacket.t) (pt : peerTask) :
  (fst (isExitPeerPacketCode pp pt) = true <-> PeerPacket.Code pp ∈ exitCodes)
  /\ (PeerPacket.Code pp ∈ exitCodes ->
      failedCode (snd (isExitPeerPacketCode pp pt)) = PeerPacket.Code pp
      /\ (failedReason (snd (isExitPeerPacketCode pp pt))
          = "receive exit peer packet with code " +:+ pretty (PeerPacket.Code pp)
          \/ failedReason (snd (isExitPeerPacketCode pp pt))
             = reasonPeerGoneFromScheduler))
  /\ (PeerPacket.Code pp ∉ exitCodes ->
      snd (isExitPeerPacketCode pp pt) = pt
      /\ forall preferExit inbox,
           ctxDone pt = false -> done pt = false ->
           peerPacketStream pt = realStream (RecvPacket pp :: inbox) ->
           PeerPacket.Code pp <> dfcodes.Success ->
           receivePeerPacket_body preferExit pt
           = Continue (set_peerPacketStream (realStream inbox) pt)).
Proof.
  split; [|split].
  - rewrite elem_of_exitCodes. unfold isExitPeerPacketCode.
    repeat case_bool_decide; simpl; split; try done; tauto.
  - rewrite elem_of_exitCodes. intros Hin. unfold isExitPeerPacketCode.
    repeat case_bool_decide; simpl; try tauto; subst; auto.
  - intros Hn. rewrite isExitPeerPacketCode_other by done. split; [done|].
    intros preferExit inbox Hctx Hdone Hstream Hcode.
    unfold receivePeerPacket_body. rewrite Hctx, Hdone, Hstream. simpl.
    rewrite bool_decide_eq_false_2 by done. simpl.
    by rewrite isExitPeerPacketCode_other.
Qed.

(** C9. When registration fails and auto back source is not disabled,
    [newFilePeerTask] makes a task with [needBackSource] set, whose task id is
    the hash of the url and its meta data, and whose stream is the stub:
    every [Recv] is an error with code [SchedNeedBackSource], every [Send]
    returns no error and leaves no message. *)
Theorem C9_register_failure_substitutes_stub
    (request : PeerTaskRequest.t) (client : schedulerClient) (e : error) :
  register_err client = Some e ->
  exists pt,
    newFilePeerTask request client false = (Some pt, None, None)
    /\ needBackSource pt = true
    /\ taskID pt = idgen.TaskID (PeerTaskRequest.Url request)
                     (PeerTaskRequest.UrlMeta request)
    /\ peerPacketStream pt = dummyPeerPacketStream
    /\ Recv (peerPacketStream pt)
       = Some (RecvError (dferrors_DfError dfcodes.SchedNeedBackSource ""),
               peerPacketStream pt)
    /\ (forall pr, dummyPeerPacketStream_Send pr = None)
    /\ (forall pr st, peerPacketStream st = dummyPeerPacketStream ->
                      Send pr st = st).
Proof.
  intros Herr. unfold newFilePeerTask, newFilePeerTask_create. rewrite Herr.
  simpl. eexists. split; [reflexivity|]. simpl.
  repeat split; try done.
  intros pr st Hst. unfold Send. by rewrite Hst.
Qed.

(** C10. For a [Success] packet the receive loop skips the packet when main
    peer and steal peers are both nil, dereferences the nil main peer when
    only the steal peers are there, and stores the packet when it has a main
    peer (and then does not hit the nil dereference). *)
Theorem C10_success_packet_without_main_peer_panics
    (preferExit : bool) (pt : peerTask) (pp : PeerPacket.t)
    (inbox : list RecvResult) :
  ctxDone pt = false -> done pt = false ->
  peerPacketStream pt = realStream (RecvPacket pp :: inbox) ->
  PeerPacket.Code pp = dfcodes.Success ->
  match PeerPacket.MainPeer pp, PeerPacket.StealPeers pp with
  | None, None =>
      receivePeerPacket_body preferExit pt
      = Continue (set_peerPacketStream (realStream inbox) pt)
  | None, Some _ =>
      receivePeerPacket_body preferExit pt
      = Panic nilDereference (set_peerPacketStream (realStream inbox) pt)
  | Some _, _ =>
      peerPacket (after pt (receivePeerPacket_body preferExit pt)) = Some pp
      /\ forall st,
           receivePeerPacket_body preferExit pt <> Panic nilDereference st
  end.
Proof.
  intros Hctx Hdone Hstream Hcode.
  unfold receivePeerPacket_body. rewrite Hctx, Hdone, Hstream. simpl.
  rewrite bool_decide_eq_true_2 by done. simpl.
  destruct (PeerPacket.MainPeer pp), (PeerPacket.StealPeers pp); try done.
  all: rewrite Hctx, Hdone; simpl.
  all: destruct (closed (peerPacketReady pt)); simpl;
    repeat case_bool_decide; simpl; done.
Qed.

(** * More of the task

    Further properties of the functions of the three files: the piece
    bookkeeping of the pull loop, the outcomes of [newFilePeerTask], what no
    run undoes, and the paths on which a task ends. *)

(** ** The scan of [getNextPieceNum] ends on the first clear bit *)

Lemma nextClear_ge (fuel : nat) (requested : gset Z) (i : Z) :
  i <= nextClear fuel requested i.
Proof.
  revert i. induction fuel as [|fuel IH]; intros i; simpl; [lia|].
  destruct (Bitmap.IsSet requested i); [|lia].
  specialize (IH (i + 1)). lia.
Qed.

Lemma nextClear_le (fuel : nat) (requested : gset Z) (i p : Z) :
  i <= p -> Bitmap.IsSet requested p = false ->
  nextClear fuel requested i <= p.
Proof.
  revert i. induction fuel as [|fuel IH]; intros i Hip Hp; simpl; [lia|].
  destruct (Bitmap.IsSet requested i) eqn:Hset; [|lia].
  apply IH; [|done].
  destruct (decide (i = p)) as [->|]; [congruence|lia].
Qed.

Lemma nextClear_below (fuel : nat) (requested : gset Z) (i x : Z) :
  i <= x < nextClear fuel requested i -> Bitmap.IsSet requested x = true.
Proof.
  revert i. induction fuel as [|fuel IH]; intros i Hx; simpl in *; [lia|].
  destruct (Bitmap.IsSet requested i) eqn:Hset; [|lia].
  destruct (decide (x = i)) as [->|]; [done|].
  apply (IH (i + 1)). lia.
Qed.

(** X1. [getNextPieceNum] answers [-1] for a completed task. Any other answer
    is a piece whose requested bit is clear; it is below [totalPiece] when the
    total is known, and not negative when the scan starts at a piece number
    that is not negative. While the total is unknown and the task is not
    completed, the answer is the first unrequested piece at or after [cur]. *)
Theorem X1_getNextPieceNum_sound (cur : Z) (pt : peerTask) :
  (isCompleted pt = true -> getNextPieceNum cur pt = -1)
  /\ (getNextPieceNum cur pt <> -1 ->
      Bitmap.IsSet (requestedPieces pt) (getNextPieceNum cur pt) = false
      /\ (totalPiece pt > 0 -> getNextPieceNum cur pt < totalPiece pt)
      /\ (0 <= cur -> 0 <= getNextPieceNum cur pt))
  /\ (isCompleted pt = false -> totalPiece pt <= 0 ->
      cur <= getNextPieceNum cur pt
      /\ forall x, cur <= x < getNextPieceNum cur pt ->
                   Bitmap.IsSet (requestedPieces pt) x = true).
Proof.
  unfold getNextPieceNum. split; [|split].
  - by intros ->.
  - destruct (isCompleted pt); [done|]. intros Hne.
    pose proof (nextClear_clear (requestedPieces pt) cur) as Hcur.
    pose proof (nextClear_clear (requestedPieces pt) 0) as H0.
    pose proof (nextClear_ge (S (size (requestedPieces pt))) (requestedPieces pt) cur).
    pose proof (nextClear_ge (S (size (requestedPieces pt))) (requestedPieces pt) 0).
    repeat case_bool_decide; simpl in *; try done;
      repeat case_bool_decide; simpl in *; try done;
      (split; [done|split; lia]).
  - intros -> Htot.
    rewrite (bool_decide_eq_false_2 (totalPiece pt > 0)) by lia. cbn [andb].
    split; [apply nextClear_ge|]. apply nextClear_below.
Qed.

(** X2. When the task is not completed and some piece [p] below [totalPiece]
    is not requested yet, [getNextPieceNum cur] (with [cur] not negative) does
    not answer [-1]: it answers an unrequested piece below [totalPiece], the
    first one at or after [cur] when [p] is such a piece, and otherwise one
    found by the second scan from piece 0. *)
Theorem X2_getNextPieceNum_finds (cur p : Z) (pt : peerTask) :
  0 <= cur ->
  isCompleted pt = false ->
  0 <= p < totalPiece pt ->
  Bitmap.IsSet (requestedPieces pt) p = false ->
  0 <= getNextPieceNum cur pt < totalPiece pt
  /\ Bitmap.IsSet (requestedPieces pt) (getNextPieceNum cur pt) = false
  /\ (cur <= p -> cur <= getNextPieceNum cur pt <= p).
Proof.
  intros Hcur Hc Hp Hclear. unfold getNextPieceNum. rewrite Hc.
  pose proof (nextClear_clear (requestedPieces pt) cur) as Hccur.
  pose proof (nextClear_clear (requestedPieces pt) 0) as Hc0.
  pose proof (nextClear_ge (S (size (requestedPieces pt))) (requestedPieces pt) cur).
  pose proof (nextClear_ge (S (size (requestedPieces pt))) (requestedPieces pt) 0).
  pose proof (nextClear_le (S (size (requestedPieces pt))) (requestedPieces pt) 0 p
                ltac:(lia) Hclear).
  rewrite (bool_decide_eq_true_2 (totalPiece pt > 0)) by lia. cbn [andb].
  case_bool_decide as Hge; cbn [andb].
  - rewrite bool_decide_eq_false_2 by lia.
    split; [lia|]. split; [done|]. intros Hle.
    pose proof (nextClear_le (S (size (requestedPieces pt))) (requestedPieces pt)
                  cur p Hle Hclear). lia.
  - split; [lia|]. split; [done|]. intros Hle.
    pose proof (nextClear_le (S (size (requestedPieces pt))) (requestedPieces pt)
                  cur p Hle Hclear). lia.
Qed.

(** ** [dispatchPieceRequest] and [newFilePeerTask] *)

Lemma onContextDone_requestedPieces pt :
  requestedPieces (onContextDone pt) = requestedPieces pt.
Proof. unfold onContextDone. by repeat case_match. Qed.

Lemma onContextDone_trace pt : trace (onContextDone pt) = trace pt.
Proof. unfold onContextDone. by repeat case_match. Qed.

Lemma SetBit_unless_set (b : gset Z) (i : Z) :
  (if negb (Bitmap.IsSet b i) then Bitmap.SetBit b i else b) = {[i]} ∪ b.
Proof.
  unfold Bitmap.IsSet, Bitmap.SetBit. case_bool_decide; simpl; [|done].
  symmetry. apply subseteq_union_1_L. by apply singleton_subseteq_l.
Qed.

Lemma dispatchPieceRequest_requestedPieces pieceInfos sels pt :
  requestedPieces (dispatchPieceRequest pieceInfos sels pt)
  = list_to_set (PieceInfo.PieceNum <$> pieceInfos) ∪ requestedPieces pt.
Proof.
  revert sels pt. induction pieceInfos as [|piece rest IH]; intros sels pt.
  - simpl. by rewrite (left_id_L ∅ (∪)).
  - cbn [dispatchPieceRequest]. rewrite IH.
    match goal with
    | |- _ ∪ requestedPieces ?x = _ =>
        assert (Hreq : requestedPieces x
                       = {[PieceInfo.PieceNum piece]} ∪ requestedPieces pt)
    end.
    { rewrite <- SetBit_unless_set.
      destruct (head sels) as [[]|]; rewrite ?onContextDone_requestedPieces;
        by case_match. }
    rewrite Hreq, fmap_cons, list_to_set_cons.
    rewrite (comm_L (∪) {[PieceInfo.PieceNum piece]} (list_to_set _)).
    by rewrite <- (assoc_L (∪)).
Qed.

Lemma dispatchPieceRequest_trace pieceInfos sels pt :
  trace (dispatchPieceRequest pieceInfos sels pt) = trace pt.
Proof.
  revert sels pt. induction pieceInfos as [|piece rest IH]; intros sels pt;
    [done|].
  cbn [dispatchPieceRequest]. rewrite IH.
  destruct (head sels) as [[]|]; rewrite ?onContextDone_trace; by case_match.
Qed.

(** X3. [dispatchPieceRequest] marks every piece of the packet as requested
    and no other: afterwards [requestedPieces] holds the old bits and the
    piece numbers of the packet, whatever case each [select] took (a closed
    [done] or a cancelled context does not stop the loop); nothing is sent or
    called back. *)
Theorem X3_dispatchPieceRequest_requests_every_piece
    (pieceInfos : list PieceInfo.t) (sels : list dispatchSelect) (pt : peerTask) :
  requestedPieces (dispatchPieceRequest pieceInfos sels pt)
  = list_to_set (PieceInfo.PieceNum <$> pieceInfos) ∪ requestedPieces pt
  /\ trace (dispatchPieceRequest pieceInfos sels pt) = trace pt.
Proof.
  split; [apply dispatchPieceRequest_requestedPieces
         |apply dispatchPieceRequest_trace].
Qed.

(** X4. [newFilePeerTask] returns exactly one of a task, the data of a tiny
    file, and an error; never a task together with an error, and never
    nothing. *)
Theorem X4_newFilePeerTask_one_result
    (request : PeerTaskRequest.t) (client : schedulerClient)
    (disableAutoBackSource : bool) :
  (exists pt, newFilePeerTask request client disableAutoBackSource
              = (Some pt, None, None))
  \/ (exists tiny, newFilePeerTask request client disableAutoBackSource
                   = (None, Some tiny, None))
  \/ (exists e, newFilePeerTask request client disableAutoBackSource
                = (None, None, Some e)).
Proof.
  unfold newFilePeerTask, newFilePeerTask_create,
    SchedulerClient_ReportPieceResult.
  repeat case_match; eauto.
Qed.

(** X5. [newFilePeerTask] returns the data of a tiny file exactly when
    registration succeeded with size scope [TINY] and the piece content; the
    data carry the registered task id, the peer id of the request and that
    content. *)
Theorem X5_newFilePeerTask_tiny
    (request : PeerTaskRequest.t) (client : schedulerClient)
    (disableAutoBackSource : bool) (tiny : TinyData) :
  newFilePeerTask request client disableAutoBackSource = (None, Some tiny, None)
  <-> register_err client = None
      /\ exists r content,
           register_result client = Some r
           /\ RegisterResult.SizeScope r = SizeScope_TINY
           /\ RegisterResult.DirectPiece r = RegisterResult_PieceContent content
           /\ tiny = Build_TinyData (RegisterResult.TaskId r)
                       (PeerTaskRequest.PeerId request) content.
Proof.
  unfold newFilePeerTask, newFilePeerTask_create,
    SchedulerClient_ReportPieceResult.
  split.
  - intros H. repeat case_match; simplify_eq; eauto 10.
  - intros (-> & r & content & -> & -> & -> & ->). done.
Qed.

(** X6. [newFilePeerTask] fails exactly when registration failed and auto back
    source is disabled (with the registration error), registration returned no
    result, a [TINY] result has no piece content, or, for a task that is not
    tiny, the piece result stream cannot be opened (with that error). In
    particular a failed registration with back source enabled never fails. *)
Theorem X6_newFilePeerTask_error
    (request : PeerTaskRequest.t) (client : schedulerClient)
    (disableAutoBackSource : bool) (e : error) :
  newFilePeerTask request client disableAutoBackSource = (None, None, Some e)
  <-> (register_err client = Some e /\ disableAutoBackSource = true)
      \/ (register_err client = None
          /\ (register_result client = None
              /\ e = errors_New "step 1: peer register result is nil"
              \/ exists r,
                   register_result client = Some r
                   /\ (RegisterResult.SizeScope r = SizeScope_TINY
                       /\ (forall content, RegisterResult.DirectPiece r
                                           <> RegisterResult_PieceContent content)
                       /\ e = errors_New
                            "scheduler return tiny piece but can not parse piece content"
                       \/ RegisterResult.SizeScope r <> SizeScope_TINY
                          /\ report_err client = Some e))).
Proof.
  unfold newFilePeerTask, newFilePeerTask_create,
    SchedulerClient_ReportPieceResult.
  split.
  - intros H. repeat case_match; simplify_eq; eauto 12.
    all: right; split; [done|]; right; eexists; split; [done|].
    all: first [ right; split; [congruence|done]
               | left; repeat split; [done|congruence] ].
  - intros [[-> ->]|[-> [[-> ->]|(r & -> & [(-> & Hn & ->)|(Hn & ->)])]]];
      try done.
    + destruct (RegisterResult.DirectPiece r) eqn:Hd; try done.
      by destruct (Hn content).
    + by destruct (RegisterResult.SizeScope r).
Qed.

(** ** Every step is a sequence of primitive updates *)

Lemma steps_refl pt : steps pt pt.
Proof. apply rtc_refl. Qed.

Lemma steps_trans a b c : steps a b -> steps b c -> steps a c.
Proof. apply rtc_trans. Qed.

Lemma steps_then a b c : steps a b -> prim b c -> steps a c.
Proof. intros. by eapply rtc_r. Qed.

Lemma steps_invariant (P : peerTask -> Prop) :
  (forall a b, prim a b -> P a -> P b) ->
  forall a b, steps a b -> P a -> P b.
Proof. intros Hprim a b Hab. induction Hab; eauto. Qed.

(** The last update of the task at hand is a primitive one: go on with the
    task before it. *)
Ltac prim_peel :=
  lazymatch goal with
  | |- steps _ (log _ _) => eapply steps_then; [|apply prim_log; reflexivity]
  | |- steps _ (set_trace (reverse _ ++ _) _) =>
      eapply steps_then; [|apply prim_spawn]
  | |- steps _ (set_ctxDone false _) =>
      eapply steps_then; [|apply prim_WithCancel]
  | |- steps _ (context_WithCancel _) =>
      eapply steps_then; [|apply prim_WithCancel]
  | |- steps _ (set_ctxDone true _) => eapply steps_then; [|apply prim_cancel]
  | |- steps _ (cancel _) => eapply steps_then; [|apply prim_cancel]
  | |- steps _ (set_needBackSource true _) =>
      eapply steps_then; [|apply prim_needBackSource]
  | |- steps _ (set_contentLength _ _) =>
      eapply steps_then; [|apply prim_contentLength]
  | |- steps _ (set_completedLength _ _) =>
      eapply steps_then; [|apply prim_completedLength]
  | |- steps _ (set_usedTraffic _ _) =>
      eapply steps_then; [|apply prim_usedTraffic]
  | |- steps _ (set_peerPacket (Some _) _) =>
      eapply steps_then; [|apply prim_peerPacket]
  | |- steps _ (set_pieceParallelCount _ _) =>
      eapply steps_then; [|apply prim_pieceParallelCount]
  | |- steps _ (set_peerPacketReady (chan_pop _) _) =>
      eapply steps_then; [|apply prim_ready_pop]
  | |- steps _ (set_peerPacketReady (close _) _) =>
      eapply steps_then; [|apply prim_ready_close]
  | |- steps _ (set_failedPieceCh (chan_pop _) _) =>
      eapply steps_then; [|apply prim_failed_pop]
  | |- steps _ (set_failedPieceCh (close _) _) =>
      eapply steps_then; [|apply prim_failed_close]
  | |- steps _ (set_failedReason _ _) =>
      eapply steps_then; [|apply prim_failedReason]
  | |- steps _ (set_failedCode _ _) =>
      eapply steps_then; [|apply prim_failedCode]
  | |- steps _ (set_readyPieces (Bitmap.SetBit _ _) _) =>
      eapply steps_then; [|apply prim_readyPieces]
  | |- steps _ (set_requestedPieces (Bitmap.SetBit _ _) _) =>
      eapply steps_then; [|apply prim_requestedPieces]
  | |- steps _ (set_done true _) => eapply steps_then; [|apply prim_done]
  | |- steps _ (set_peerTaskDone true _) =>
      eapply steps_then; [|apply prim_peerTaskDone]
  | |- steps _ (set_progressStopCh true _) =>
      eapply steps_then; [|apply prim_progressStopCh]
  end.

Lemma steps_Send r pt : steps pt (Send (message r pt) pt).
Proof.
  unfold Send. destruct (peerPacketStream pt) eqn:Hs.
  - eapply steps_then; [apply steps_refl|]. by eapply prim_send.
  - apply steps_refl.
Qed.

Lemma steps_close_done pt : steps pt (close_done pt).
Proof.
  unfold close_done. case_match; repeat prim_peel; apply steps_refl.
Qed.

Lemma steps_DoneCallback pt : steps pt (DoneCallback pt).
Proof.
  unfold DoneCallback. cbv zeta. case_match; repeat prim_peel; apply steps_refl.
Qed.

Lemma steps_sendFinalProgress env pg pt : steps pt (sendFinalProgress env pg pt).
Proof.
  unfold sendFinalProgress. cbv zeta.
  repeat case_match; try apply steps_refl.
  - eapply steps_trans; [|apply steps_DoneCallback].
    prim_peel. apply steps_refl.
  - prim_peel. apply steps_refl.
Qed.

Ltac steps_peel :=
  first
    [ apply steps_refl
    | eapply steps_trans; [|apply steps_close_done]
    | eapply steps_trans; [|apply steps_sendFinalProgress]
    | eapply steps_trans; [|apply steps_DoneCallback]
    | eapply steps_trans; [|apply (steps_Send Report_finish)]
    | eapply steps_trans; [|apply (steps_Send (Report_success _))]
    | eapply steps_trans; [|apply (steps_Send (Report_getPieceTasks _))]
    | eapply steps_trans;
        [|apply (steps_Send (Report_preparePieceTasksByPeer _ _))]
    | prim_peel ].

Lemma steps_finish env pt : steps pt (snd (finish env pt)).
Proof.
  unfold finish. destruct (once pt) eqn:Honce; [apply steps_refl|].
  cbv beta iota zeta. cbn [snd].
  repeat steps_peel.
  eapply steps_then; [apply steps_refl|]. by apply prim_once.
Qed.


Lemma steps_cleanUnfinished env pt : steps pt (cleanUnfinished env pt).
Proof.
  unfold cleanUnfinished. destruct (once pt) eqn:Honce.
  - prim_peel. apply steps_refl.
  - cbv beta iota zeta. repeat steps_peel.
    eapply steps_then; [apply steps_refl|]. by apply prim_once.
Qed.

Lemma steps_failedPieceCh_send num pt : steps pt (failedPieceCh_send num pt).
Proof.
  unfold failedPieceCh_send. destruct (closed (failedPieceCh pt)) eqn:Hc.
  - prim_peel. apply steps_refl.
  - eapply steps_then; [apply steps_refl|]. by apply prim_failed_push.
Qed.

Lemma steps_isExitPeerPacketCode pp pt :
  steps pt (snd (isExitPeerPacketCode pp pt)).
Proof.
  unfold isExitPeerPacketCode. cbv zeta.
  repeat case_match; cbn [snd]; repeat steps_peel.
Qed.

Lemma steps_ReportPieceResult env r pt :
  steps pt (snd (ReportPieceResult env r pt)).
Proof.
  unfold ReportPieceResult. cbv zeta.
  destruct (negb (PieceResult.Success (pieceResult r))).
  { cbn [snd]. eapply steps_trans; [|apply steps_failedPieceCh_send].
    apply (steps_Send (Report_failed _)). }
  destruct (Bitmap.IsSet _ _); [apply steps_refl|].
  destruct (progress env);
    try match goal with
        | |- context [isCompleted ?x] => destruct (isCompleted x)
        end; cbn [negb snd];
    repeat first [ eapply steps_trans; [|apply steps_finish] | steps_peel ].
Qed.

Lemma steps_SetContentLength env i pt :
  steps pt (snd (SetContentLength env i pt)).
Proof.
  unfold SetContentLength. cbv zeta.
  match goal with
  | |- context [isCompleted ?x] => destruct (isCompleted x)
  end; cbn [negb snd];
    repeat first [ eapply steps_trans; [|apply steps_finish] | steps_peel ].
Qed.

Lemma steps_call c pt : steps pt (call c pt).
Proof.
  destruct c; cbn [call].
  - apply steps_ReportPieceResult.
  - apply steps_SetContentLength.
  - unfold AddTraffic. repeat steps_peel.
Qed.

Lemma steps_calls cs pt : steps pt (calls cs pt).
Proof.
  revert pt. induction cs as [|c cs IH]; intros pt; [apply steps_refl|].
  cbn [calls fold_left]. eapply steps_trans; [apply (steps_call c)|apply IH].
Qed.

Lemma steps_backSource env ds pt : steps pt (backSource env ds pt).
Proof.
  unfold backSource. cbv zeta.
  destruct (sourceErr ds);
    repeat first [ eapply steps_trans; [|apply steps_cleanUnfinished]
                 | eapply steps_trans; [|apply steps_finish]
                 | eapply steps_trans; [|apply steps_calls]
                 | steps_peel ].
Qed.

Lemma steps_onContextDone pt : steps pt (onContextDone pt).
Proof. unfold onContextDone. repeat case_match; repeat steps_peel. Qed.

Lemma steps_dispatchPieceRequest pieceInfos sels pt :
  steps pt (dispatchPieceRequest pieceInfos sels pt).
Proof.
  revert sels pt. induction pieceInfos as [|piece rest IH]; intros sels pt;
    [apply steps_refl|].
  cbn [dispatchPieceRequest]. cbv zeta.
  eapply steps_trans; [|apply IH].
  destruct (head sels) as [[]|]; destruct (negb _);
    repeat first [ eapply steps_trans; [|apply steps_onContextDone]
                 | steps_peel ].
Qed.

Lemma steps_init piecePacket initErr pt :
  steps pt (snd (init piecePacket initErr pt)).
Proof.
  unfold init. cbv zeta.
  repeat case_match; cbn [snd]; repeat steps_peel.
Qed.


Ltac steps_solve :=
  repeat first
    [ eapply steps_trans; [|apply steps_cleanUnfinished]
    | eapply steps_trans; [|apply steps_finish]
    | eapply steps_trans; [|apply steps_backSource]
    | eapply steps_trans; [|apply steps_calls]
    | eapply steps_trans; [|apply steps_call]
    | eapply steps_trans; [|apply steps_ReportPieceResult]
    | eapply steps_trans; [|apply steps_onContextDone]
    | eapply steps_trans; [|apply steps_init]
    | eapply steps_trans; [|apply steps_dispatchPieceRequest]
    | eapply steps_trans; [|apply steps_failedPieceCh_send]
    | steps_peel ].

Lemma steps_receivePeerPacket_body preferExit pt :
  steps pt (after pt (receivePeerPacket_body preferExit pt)).
Proof.
  unfold receivePeerPacket_body, Recv.
  destruct (ctxDone pt || done pt); [apply steps_refl|].
  destruct (peerPacketStream pt) as [[|r inbox]|] eqn:Hs; [apply steps_refl| |].
  - assert (Hrecv : steps pt (set_peerPacketStream (realStream inbox) pt)).
    { eapply steps_then; [apply steps_refl|]. by eapply prim_recv. }
    revert Hrecv. generalize (set_peerPacketStream (realStream inbox) pt).
    intros pt1 Hrecv. cbv zeta.
    destruct r as [pp|e].
    + destruct (negb _).
      * destruct (isExitPeerPacketCode pp pt1) as [b pt2] eqn:Hexit.
        assert (steps pt pt2).
        { eapply steps_trans; [exact Hrecv|].
          replace pt2 with (snd (isExitPeerPacketCode pp pt1))
            by (by rewrite Hexit).
          apply steps_isExitPeerPacketCode. }
        destruct b; cbn [after]; steps_solve; done.
      * repeat case_match; cbn [after]; steps_solve; try done.
        match goal with
        | H : _ && bool_decide _ = true
          |- steps _ (set_peerPacketReady (chan_push true _) ?X) =>
            apply andb_true_iff in H as [_ H%bool_decide_eq_true];
            eapply steps_then; [|by apply (prim_ready_push X)]
        end.
        steps_solve; done.
    + destruct e; repeat case_match; cbn [after]; steps_solve; done.
  - assert (Hrecv : steps pt (set_peerPacketStream dummyPeerPacketStream pt)).
    { eapply steps_then; [apply steps_refl|]. by eapply prim_recv_dummy. }
    revert Hrecv. generalize (set_peerPacketStream dummyPeerPacketStream pt).
    intros pt1 Hrecv. unfold dummyPeerPacketStream_Recv. cbv zeta.
    repeat case_match; cbn [after]; steps_solve; done.
Qed.

Lemma steps_waitFirstPeerPacket sel env ds pt :
  steps pt (from_option snd pt (waitFirstPeerPacket sel env ds pt)).
Proof.
  unfold waitFirstPeerPacket. cbv zeta.
  destruct sel; repeat case_match; cbn [from_option snd]; steps_solve.
Qed.

Lemma steps_waitAvailablePeerPacket sel env ds pt :
  steps pt (from_option snd pt (waitAvailablePeerPacket sel env ds pt)).
Proof.
  unfold waitAvailablePeerPacket. cbv zeta.
  destruct sel; repeat case_match; cbn [from_option snd]; steps_solve.
Qed.

Lemma steps_waitFailedPiece sel pt :
  steps pt (from_option snd pt (waitFailedPiece sel pt)).
Proof.
  unfold waitFailedPiece.
  destruct sel; repeat case_match; cbn [from_option snd]; steps_solve.
Qed.

Lemma steps_pullPiecesFromPeers_select sel num limit pt :
  steps pt (after pt (fst (pullPiecesFromPeers_select sel num limit pt))).
Proof.
  unfold pullPiecesFromPeers_select. cbv zeta.
  destruct sel; repeat case_match; cbn [after fst]; steps_solve.
Qed.

Lemma steps_updateTotalPiece piecePacket pt :
  steps pt (updateTotalPiece piecePacket pt).
Proof.
  unfold updateTotalPiece. case_bool_decide as Hgt; [|apply steps_refl].
  prim_peel. eapply steps_then; [apply steps_refl|]. by apply prim_totalPiece.
Qed.

Lemma steps_pullPiecesFromPeers_deferred env pt :
  steps pt (pullPiecesFromPeers_deferred env pt).
Proof. unfold pullPiecesFromPeers_deferred. case_match; steps_solve. Qed.

Lemma steps_downloadPieceWorker_body request limiterErr env dp pt :
  steps pt (after pt (downloadPieceWorker_body request limiterErr env dp pt)).
Proof.
  unfold downloadPieceWorker_body. cbv zeta.
  repeat case_match; cbn [after]; steps_solve.
Qed.

Lemma steps_pullSinglePiece initErr env dp pt :
  steps pt (snd (pullSinglePiece initErr env dp pt)).
Proof.
  unfold pullSinglePiece. cbv zeta.
  repeat case_match; cbn [snd]; steps_solve.
Qed.

(** Every operation of a run is a sequence of primitive updates. *)
Lemma steps_exec op pt : steps pt (exec op pt).
Proof.
  destruct op; cbn [exec].
  - unfold Start. cbv zeta. case_match; steps_solve.
  - steps_solve.
  - apply steps_DoneCallback.
  - apply steps_call.
  - apply steps_finish.
  - apply steps_cleanUnfinished.
  - apply steps_backSource.
  - apply steps_receivePeerPacket_body.
  - apply steps_pullSinglePiece.
  - apply steps_waitFirstPeerPacket.
  - apply steps_pullPiecesFromPeers_select.
  - unfold preparePieceTasks_head. case_match; steps_solve.
  - unfold getPieceTasks_empty. steps_solve.
  - unfold preparePieceTasksByPeer_fail. steps_solve.
  - apply steps_waitAvailablePeerPacket.
  - apply steps_init.
  - apply steps_updateTotalPiece.
  - apply steps_dispatchPieceRequest.
  - apply steps_waitFailedPiece.
  - apply steps_pullPiecesFromPeers_deferred.
  - apply steps_downloadPieceWorker_body.
Qed.

Lemma steps_run ops pt : steps pt (run ops pt).
Proof.
  revert pt. induction ops as [|op ops IH]; intros pt; [apply steps_refl|].
  cbn [run fold_left]. eapply steps_trans; [apply steps_exec|apply IH].
Qed.

(** ** What no run undoes *)

(** Read a field of an updated task. *)
Ltac task_simpl :=
  cbn [ctxDone needBackSource DisableAutoBackSource peerID taskID totalPiece
       contentLength completedLength usedTraffic singlePiece peerPacketStream
       peerPacket peerPacketReady pieceParallelCount done peerTaskDone once
       failedPieceCh failedReason failedCode readyPieces requestedPieces
       progressStopCh trace set_ctxDone set_needBackSource set_totalPiece
       set_contentLength set_completedLength set_usedTraffic
       set_peerPacketStream set_peerPacket set_peerPacketReady
       set_pieceParallelCount set_done set_peerTaskDone set_once
       set_failedPieceCh set_failedReason set_failedCode set_readyPieces
       set_requestedPieces set_progressStopCh set_trace log cancel].

Lemma steps_persist a b :
  steps a b ->
  (needBackSource a = true -> needBackSource b = true)
  /\ (once a = true -> once b = true)
  /\ (done a = true -> done b = true)
  /\ (peerTaskDone a = true -> peerTaskDone b = true)
  /\ (progressStopCh a = true -> progressStopCh b = true)
  /\ (closed (failedPieceCh a) = true -> closed (failedPieceCh b) = true)
  /\ (closed (peerPacketReady a) = true -> closed (peerPacketReady b) = true).
Proof.
  intros Hab.
  apply (steps_invariant (fun b =>
    (needBackSource a = true -> needBackSource b = true)
    /\ (once a = true -> once b = true)
    /\ (done a = true -> done b = true)
    /\ (peerTaskDone a = true -> peerTaskDone b = true)
    /\ (progressStopCh a = true -> progressStopCh b = true)
    /\ (closed (failedPieceCh a) = true -> closed (failedPieceCh b) = true)
    /\ (closed (peerPacketReady a) = true -> closed (peerPacketReady b) = true))
    ) with (a := a); [|done|tauto].
  clear. intros x y Hxy H. destruct Hxy; simpl; tauto.
Qed.

(** X7. No step of any run undoes the switch to the source or a completion:
    once set, [needBackSource], the [sync.Once], [done], [peerTaskDone] and
    [progressStopCh] stay set, and a closed [failedPieceCh] or
    [peerPacketReady] stays closed. ([Start] installs a fresh context, so a
    cancelled context does not stay one.) *)
Theorem X7_run_never_resets_flags (ops : list Op) (pt : peerTask) :
  (needBackSource pt = true -> needBackSource (run ops pt) = true)
  /\ (once pt = true -> once (run ops pt) = true)
  /\ (done pt = true -> done (run ops pt) = true)
  /\ (peerTaskDone pt = true -> peerTaskDone (run ops pt) = true)
  /\ (progressStopCh pt = true -> progressStopCh (run ops pt) = true)
  /\ (closed (failedPieceCh pt) = true
      -> closed (failedPieceCh (run ops pt)) = true)
  /\ (closed (peerPacketReady pt) = true
      -> closed (peerPacketReady (run ops pt)) = true).
Proof. apply steps_persist, steps_run. Qed.

Lemma steps_grow a b :
  steps a b ->
  readyPieces a ⊆ readyPieces b
  /\ requestedPieces a ⊆ requestedPieces b
  /\ totalPiece a <= totalPiece b
  /\ (is_Some (peerPacket a) -> is_Some (peerPacket b)).
Proof.
  intros Hab.
  apply (steps_invariant (fun b =>
    readyPieces a ⊆ readyPieces b
    /\ requestedPieces a ⊆ requestedPieces b
    /\ totalPiece a <= totalPiece b
    /\ (is_Some (peerPacket a) -> is_Some (peerPacket b)))) with (a := a);
    [|done|].
  - clear. intros x y Hxy (Hr & Hq & Ht & Hp).
    destruct Hxy; task_simpl; repeat split; try done; try lia.
    + etrans; [exact Hr|]. unfold Bitmap.SetBit. apply union_subseteq_r.
    + etrans; [exact Hq|]. unfold Bitmap.SetBit. apply union_subseteq_r.
  - repeat split; done.
Qed.

(** X8. No step of any run clears a ready or a requested bit, lowers
    [totalPiece] or forgets the stored peer packet. *)
Theorem X8_run_only_adds_pieces (ops : list Op) (pt : peerTask) :
  readyPieces pt ⊆ readyPieces (run ops pt)
  /\ requestedPieces pt ⊆ requestedPieces (run ops pt)
  /\ totalPiece pt <= totalPiece (run ops pt)
  /\ (is_Some (peerPacket pt) -> is_Some (peerPacket (run ops pt))).
Proof. apply steps_grow, steps_run. Qed.

Lemma steps_identity a b :
  steps a b ->
  peerID b = peerID a /\ taskID b = taskID a
  /\ DisableAutoBackSource b = DisableAutoBackSource a
  /\ singlePiece b = singlePiece a
  /\ match peerPacketStream a with
     | dummyPeerPacketStream => peerPacketStream b = dummyPeerPacketStream
     | realStream inbox =>
         exists rest, peerPacketStream b = realStream rest
                      /\ rest `suffix_of` inbox
     end.
Proof.
  intros Hab.
  apply (steps_invariant (fun b =>
    peerID b = peerID a /\ taskID b = taskID a
    /\ DisableAutoBackSource b = DisableAutoBackSource a
    /\ singlePiece b = singlePiece a
    /\ match peerPacketStream a with
       | dummyPeerPacketStream => peerPacketStream b = dummyPeerPacketStream
       | realStream inbox =>
           exists rest, peerPacketStream b = realStream rest
                        /\ rest `suffix_of` inbox
       end)) with (a := a); [|done|].
  - clear. intros x y Hxy (Hp & Ht & Hd & Hs & Hst).
    destruct Hxy; simpl; repeat split; try done.
    + destruct (peerPacketStream a); [|congruence].
      destruct Hst as (rest & Hrest & Hsuf). exists inbox. split; [done|].
      rewrite H in Hrest. simplify_eq.
      etrans; [|exact Hsuf]. by apply suffix_cons_r.
    + destruct (peerPacketStream a); [|done].
      destruct Hst as (rest & Hrest & _). congruence.
  - repeat split; try done. destruct (peerPacketStream a); eauto.
Qed.

(** X9. No step of any run changes the peer id, the task id, the back source
    option or the single piece of the task, or replaces its scheduler stream:
    the stub stays the stub, and a real stream only loses the messages that
    were read from its front. *)
Theorem X9_run_keeps_identity_and_stream (ops : list Op) (pt : peerTask) :
  peerID (run ops pt) = peerID pt /\ taskID (run ops pt) = taskID pt
  /\ DisableAutoBackSource (run ops pt) = DisableAutoBackSource pt
  /\ singlePiece (run ops pt) = singlePiece pt
  /\ match peerPacketStream pt with
     | dummyPeerPacketStream =>
         peerPacketStream (run ops pt) = dummyPeerPacketStream
     | realStream inbox =>
         exists rest, peerPacketStream (run ops pt) = realStream rest
                      /\ rest `suffix_of` inbox
     end.
Proof. apply steps_identity, steps_run. Qed.

Lemma steps_dummy_silent a b :
  steps a b ->
  peerPacketStream a = dummyPeerPacketStream ->
  peerPacketStream b = dummyPeerPacketStream
  /\ count isSend (trace b) = count isSend (trace a).
Proof.
  intros Hab Ha.
  apply (steps_invariant (fun b =>
    peerPacketStream b = dummyPeerPacketStream
    /\ count isSend (trace b) = count isSend (trace a))) with (a := a);
    [|done|done].
  clear. intros x y Hxy (Hs & Hc).
  destruct Hxy; simpl; try done; try congruence.
  - by rewrite H.
  - split; [done|]. by rewrite count_app, count_spawn.
Qed.

(** X10. A task on the stub stream (made after a failed registration) sends
    nothing to the scheduler in any run, and stays on the stub stream. *)
Theorem X10_stub_stream_task_never_sends (ops : list Op) (pt : peerTask) :
  peerPacketStream pt = dummyPeerPacketStream ->
  peerPacketStream (run ops pt) = dummyPeerPacketStream
  /\ count isSend (trace (run ops pt)) = count isSend (trace pt).
Proof. intros. by apply steps_dummy_silent; [apply steps_run|]. Qed.

(** ** Reports between the read and the send *)










(** ** The final progress *)

Lemma terminal_frame pt pt' :
  once pt' = once pt -> trace pt' = trace pt -> terminal pt -> terminal pt'.
Proof. unfold terminal. intros -> ->. auto. Qed.

Lemma terminal_log e pt :
  isTerminalProgress e = false -> terminal pt -> terminal (log e pt).
Proof.
  unfold terminal. simpl. intros He [Hc Hp]. rewrite He. split; [done|].
  intros p [<-|Hin]%elem_of_cons Hd Hs.
  - simpl in He. congruence.
  - apply list_elem_of_further. eauto.
Qed.

Lemma inBody_frame pt pt' :
  once pt' = once pt -> trace pt' = trace pt -> inBody pt -> inBody pt'.
Proof. unfold inBody. intros -> ->. auto. Qed.

Lemma inBody_log e pt :
  isTerminalProgress e = false -> inBody pt -> inBody (log e pt).
Proof.
  unfold inBody. simpl. intros He (Ho & Hc & Hp). rewrite He.
  split; [done|]. split; [done|].
  intros p [<-|Hin]%elem_of_cons Hd Hs.
  - simpl in He. congruence.
  - apply list_elem_of_further. eauto.
Qed.

Lemma inBody_enter pt :
  once pt = false -> terminal pt -> inBody (set_once true pt).
Proof.
  unfold terminal, inBody. simpl. intros -> [Hc Hp].
  split; [done|]. split; [lia|done].
Qed.

Ltac terminal_peel :=
  first [ apply terminal_log; [reflexivity|]
        | frame_with terminal_frame ].

Ltac inBody_peel :=
  first [ apply inBody_log; [reflexivity|]
        | frame_with inBody_frame ].

Lemma terminal_Send pr pt : terminal pt -> terminal (Send pr pt).
Proof. unfold Send. intros. repeat case_match; repeat terminal_peel; done. Qed.

Lemma inBody_Send pr pt : inBody pt -> inBody (Send pr pt).
Proof. unfold Send. intros. repeat case_match; repeat inBody_peel; done. Qed.

Lemma terminal_close_done pt : terminal pt -> terminal (close_done pt).
Proof.
  unfold close_done. intros. repeat case_match; repeat terminal_peel; done.
Qed.

Lemma terminal_DoneCallback pt : terminal pt -> terminal (DoneCallback pt).
Proof.
  unfold DoneCallback. cbv zeta. intros.
  repeat case_match; repeat terminal_peel; done.
Qed.

Lemma terminal_leave pt : inBody pt -> terminal pt.
Proof. unfold terminal, inBody. intros (-> & -> & Hp). split; [lia|done]. Qed.

Lemma terminal_sendFinalProgress env pg pt :
  (ProgressState.Success (FilePeerTaskProgress.State pg) = true ->
   EvFinishBody ∈ trace pt) ->
  inBody pt -> terminal (sendFinalProgress env pg pt).
Proof.
  intros Hpg Hin. unfold sendFinalProgress. cbv zeta.
  destruct (finalProgressSent env); [|by apply terminal_leave].
  assert (terminal (log (EvProgress pg) pt)) as Hlog.
  { destruct Hin as (Ho & Hc & Hp). unfold terminal. simpl.
    rewrite Ho, Hc. split; [case_match; lia|].
    intros p [Heq|Hin]%elem_of_cons Hd Hs; apply list_elem_of_further.
    - simplify_eq. auto.
    - eauto. }
  destruct (finalProgressAcked env); [|done].
  by apply terminal_DoneCallback.
Qed.

Lemma terminal_finish env pt : terminal pt -> terminal (snd (finish env pt)).
Proof.
  intros H. unfold finish. destruct (once pt) eqn:Honce; [done|].
  cbv beta iota zeta. cbn [snd].
  apply terminal_close_done, terminal_sendFinalProgress.
  - intros _. apply list_elem_of_further.
    unfold Send. case_match.
    + apply list_elem_of_further, list_elem_of_here.
    + apply list_elem_of_here.
  - repeat first [apply inBody_Send | inBody_peel].
    by apply inBody_enter.
Qed.

Lemma terminal_cleanUnfinished env pt :
  terminal pt -> terminal (cleanUnfinished env pt).
Proof.
  intros H. unfold cleanUnfinished. destruct (once pt) eqn:Honce.
  { by terminal_peel. }
  cbv beta iota zeta.
  terminal_peel. apply terminal_close_done. terminal_peel.
  apply terminal_sendFinalProgress.
  - intros Hs. discriminate Hs.
  - repeat first [apply inBody_Send | inBody_peel].
    by apply inBody_enter.
Qed.


Lemma terminal_failedPieceCh_send num pt :
  terminal pt -> terminal (failedPieceCh_send num pt).
Proof.
  unfold failedPieceCh_send. intros. repeat case_match; repeat terminal_peel; done.
Qed.

Lemma terminal_isExitPeerPacketCode pp pt :
  terminal pt -> terminal (snd (isExitPeerPacketCode pp pt)).
Proof.
  unfold isExitPeerPacketCode. cbv zeta. intros.
  repeat case_match; cbn [snd]; repeat terminal_peel; done.
Qed.

Lemma terminal_ReportPieceResult env r pt :
  terminal pt -> terminal (snd (ReportPieceResult env r pt)).
Proof.
  intros H. unfold ReportPieceResult. cbv zeta.
  destruct (negb (PieceResult.Success (pieceResult r))).
  { cbn [snd]. by apply terminal_failedPieceCh_send, terminal_Send. }
  destruct (Bitmap.IsSet _ _); [done|].
  destruct (progress env);
    try match goal with
        | |- context [isCompleted ?x] => destruct (isCompleted x)
        end; cbn [negb snd];
    repeat first [ assumption | apply terminal_finish | apply terminal_Send
                 | terminal_peel ].
Qed.

Lemma terminal_SetContentLength env i pt :
  terminal pt -> terminal (snd (SetContentLength env i pt)).
Proof.
  intros H. unfold SetContentLength. cbv zeta.
  match goal with
  | |- context [isCompleted ?x] => destruct (isCompleted x)
  end; cbn [negb snd];
    repeat first [assumption | apply terminal_finish | terminal_peel].
Qed.

Lemma terminal_call c pt : terminal pt -> terminal (call c pt).
Proof.
  destruct c; cbn [call]; intros.
  - by apply terminal_ReportPieceResult.
  - by apply terminal_SetContentLength.
  - unfold AddTraffic. by terminal_peel.
Qed.

Lemma terminal_calls cs pt : terminal pt -> terminal (calls cs pt).
Proof.
  revert pt. induction cs as [|c cs IH]; intros pt H; [done|].
  cbn [calls fold_left]. apply IH. by apply terminal_call.
Qed.

Lemma terminal_backSource env ds pt :
  terminal pt -> terminal (backSource env ds pt).
Proof.
  unfold backSource. cbv zeta. intros.
  destruct (sourceErr ds);
    repeat first [ assumption | apply terminal_cleanUnfinished
                 | apply terminal_finish | apply terminal_calls
                 | terminal_peel ].
Qed.

Lemma terminal_onContextDone pt : terminal pt -> terminal (onContextDone pt).
Proof.
  unfold onContextDone. intros. repeat case_match; repeat terminal_peel; done.
Qed.

Lemma terminal_dispatchPieceRequest pieceInfos sels pt :
  terminal pt -> terminal (dispatchPieceRequest pieceInfos sels pt).
Proof.
  revert sels pt. induction pieceInfos as [|piece rest IH]; intros sels pt H;
    [done|].
  cbn [dispatchPieceRequest]. cbv zeta. apply IH.
  destruct (head sels) as [[]|]; destruct (negb _);
    repeat first [assumption | apply terminal_onContextDone | terminal_peel].
Qed.

Lemma terminal_spawn ids pt :
  terminal pt ->
  terminal (set_trace (reverse (EvSpawnWorker <$> ids) ++ trace pt) pt).
Proof.
  unfold terminal. simpl. intros [Hc Hp].
  rewrite count_app, count_spawn by done. split; [done|].
  intros p [Hin|Hin]%elem_of_app Hd Hs.
  - apply elem_of_reverse, list_elem_of_fmap in Hin as (id & Hid & _).
    discriminate Hid.
  - apply elem_of_app. right. eauto.
Qed.

Lemma terminal_init piecePacket initErr pt :
  terminal pt -> terminal (snd (init piecePacket initErr pt)).
Proof.
  unfold init. cbv zeta. intros.
  repeat case_match; cbn [snd];
    repeat first [assumption | apply terminal_spawn | terminal_peel].
Qed.

Lemma terminal_exec op pt : terminal pt -> terminal (exec op pt).
Proof.
  intros H.
  destruct op; cbn [exec];
    unfold Start, cancel, after, from_option,
      receivePeerPacket_body,
      pullSinglePiece, waitFirstPeerPacket,
      pullPiecesFromPeers_select, preparePieceTasks_head, getPieceTasks_empty,
      preparePieceTasksByPeer_fail, waitAvailablePeerPacket,
      updateTotalPiece, waitFailedPiece, pullPiecesFromPeers_deferred,
      downloadPieceWorker_body;
    repeat first [case_match | progress simplify_eq | progress simpl in *];
    repeat first
      [ assumption
      | apply terminal_DoneCallback
      | apply terminal_call
      | apply terminal_finish
      | apply terminal_cleanUnfinished
      | apply terminal_backSource
      | apply terminal_calls
      | apply terminal_init
      | apply terminal_ReportPieceResult
      | apply terminal_failedPieceCh_send
      | match goal with
        | H : isExitPeerPacketCode ?pp ?p = (_, ?p0) |- terminal ?p0 =>
            replace p0 with (snd (isExitPeerPacketCode pp p))
              by (rewrite H; reflexivity);
            apply terminal_isExitPeerPacketCode
        end
      | apply terminal_dispatchPieceRequest
      | apply terminal_onContextDone
      | apply terminal_Send
      | terminal_peel ].
Qed.

Lemma terminal_run ops pt : terminal pt -> terminal (run ops pt).
Proof.
  revert pt. induction ops as [|op ops IH]; intros pt H; [done|].
  cbn [run fold_left]. apply IH. by apply terminal_exec.
Qed.

Lemma terminal_created pt : created pt -> terminal pt.
Proof.
  intros (_ & _ & Honce & _ & Htrace & _)%created_fields.
  unfold terminal. rewrite Honce, Htrace. split; [done|].
  intros p Hin. by apply elem_of_nil in Hin.
Qed.

Lemma count_pos f e tr : e ∈ tr -> f e = true -> (1 <= count f tr)%nat.
Proof.
  induction tr as [|x tr IH]; [by intros ?%elem_of_nil|].
  intros [->|Hin]%elem_of_cons He; simpl.
  - rewrite He. lia.
  - specialize (IH Hin He). case_match; lia.
Qed.

(** X11. In every run from a created task at most one progress with
    [PeerTaskDone = true] is delivered, only after the [sync.Once] fired; if
    it reports success, it was delivered by [finish]. *)
Theorem X11_final_progress_is_delivered_at_most_once
    (pt : peerTask) (ops : list Op) :
  created pt ->
  (count isTerminalProgress (trace (run ops pt)) <= 1)%nat
  /\ forall p, EvProgress p ∈ trace (run ops pt) ->
       FilePeerTaskProgress.PeerTaskDone p = true ->
       once (run ops pt) = true
       /\ (ProgressState.Success (FilePeerTaskProgress.State p) = true ->
           EvFinishBody ∈ trace (run ops pt)).
Proof.
  intros Hc.
  destruct (terminal_run ops pt (terminal_created pt Hc)) as [Hcount Hp].
  split; [destruct (once (run ops pt)); lia|].
  intros p Hin Hd. split; [|by apply Hp].
  pose proof (count_pos isTerminalProgress _ _ Hin Hd).
  destruct (once (run ops pt)); [done|lia].
Qed.

(** ** Error paths and their composition *)



Lemma once_finish env pt : once (snd (finish env pt)) = true.
Proof.
  unfold finish. destruct (once pt) eqn:Ho; [done|].
  unfold sendFinalProgress, DoneCallback, close_done, Send.
  repeat case_match; reflexivity.
Qed.

(** X13. [SetContentLength] stores the length before it checks it: a call that
    comes before the content is complete is refused with an error, yet the
    length stays, and the report of the piece that completes it then finishes
    the task. *)
Theorem X13_early_SetContentLength_is_kept (env env' : Env) (i : Z)
    (r : pieceTaskResult) (pt : peerTask) :
  completedLength pt <> i ->
  PieceResult.Success (pieceResult r) = true ->
  Bitmap.IsSet (readyPieces pt) (PieceResult.PieceNum (pieceResult r)) = false ->
  wrap64 (completedLength pt + PieceInfo.RangeSize (piece r)) = i ->
  progress env' <> progressCtxDone ->
  SetContentLength env i pt
  = (Some (errors_New "SetContentLength should call after task completed"),
     set_contentLength i pt)
  /\ contentLength (snd (SetContentLength env i pt)) = i
  /\ once (snd (ReportPieceResult env' r (snd (SetContentLength env i pt))))
     = true.
Proof.
  intros Hne Hs Hclear Hsum Hprog.
  assert (Hset : SetContentLength env i pt
    = (Some (errors_New "SetContentLength should call after task completed"),
       set_contentLength i pt)).
  { unfold SetContentLength, isCompleted. cbv zeta. simpl.
    by rewrite bool_decide_eq_false_2. }
  rewrite Hset. cbn [snd]. split; [done|]. split; [done|].
  unfold ReportPieceResult. cbv zeta. rewrite Hs. cbn [negb].
  change (readyPieces (set_contentLength i pt)) with (readyPieces pt).
  rewrite Hclear.
  assert (Hc : forall x,
    completedLength x = i -> contentLength x = i -> isCompleted x = true).
  { intros x H1 H2. unfold isCompleted. rewrite H1, H2.
    by apply bool_decide_eq_true. }
  destruct (progress env'); [| |done].
  all: rewrite Hc; [cbn [negb]; apply once_finish| |].
  all: unfold Send; case_match; exact Hsum || reflexivity.
Qed.


Lemma steps_trace a b : steps a b -> trace a `suffix_of` trace b.
Proof.
  intros Hab.
  apply (steps_invariant (fun b => trace a `suffix_of` trace b)) with (a := a);
    [|done|done].
  clear. intros x y Hxy Hs.
  destruct Hxy; task_simpl; try done.
  - by apply suffix_cons_r.
  - by apply suffix_app_r.
  - by apply suffix_cons_r.
Qed.

Lemma elem_of_suffix {A} (x : A) l1 l2 : l1 `suffix_of` l2 -> x ∈ l1 -> x ∈ l2.
Proof. intros [k ->] Hx. apply elem_of_app. by right. Qed.

(** X14. [backSource] ends the task in every case: after it, from any state a
    run can reach, [DownloadSource] was called, the one-shot latch has fired
    with exactly one body of [finish] or [cleanUnfinished] in the whole run,
    [done] is closed and the context is cancelled. *)
Theorem X14_backSource_ends_the_task (pt : peerTask) (ops : list Op)
    (env : Env) (ds : DownloadSourceRun) :
  created pt ->
  once (backSource env ds (run ops pt)) = true
  /\ done (backSource env ds (run ops pt)) = true
  /\ ctxDone (backSource env ds (run ops pt)) = true
  /\ count isBody (trace (backSource env ds (run ops pt))) = 1%nat
  /\ EvDownloadSource ∈ trace (backSource env ds (run ops pt)).
Proof.
  intros Hc.
  pose proof (latch_run false ops pt (latch_created pt Hc)) as Hl.
  revert Hl. generalize (run ops pt). clear. intros pt Hl.
  assert (Hfired : latch true (backSource env ds pt)).
  { unfold backSource. cbv zeta.
    destruct (sourceErr ds);
      apply (latch_cleanUnfinished_fired false);
      repeat first [ assumption | apply latch_finish | apply latch_calls
                   | latch_peel ]. }
  destruct Hfired as (Hb & Hcl & Hd & Ho). specialize (Ho eq_refl).
  rewrite Ho in *. repeat split; try done.
  - unfold backSource. cbv zeta. by destruct (sourceErr ds).
  - apply (elem_of_suffix _ (trace (log EvDownloadSource pt)));
      [|apply list_elem_of_here].
    apply steps_trace. unfold backSource. cbv zeta.
    destruct (sourceErr ds);
      repeat first [ eapply steps_trans; [|apply steps_cleanUnfinished]
                   | eapply steps_trans; [|apply steps_finish]
                   | eapply steps_trans; [|apply steps_calls]
                   | apply steps_refl
                   | prim_peel ].
Qed.


(** X15. With auto back source disabled, [waitAvailablePeerPacket] honours the
    option only when [peerPacketReady] was closed: it then records
    [ClientScheduleTimeout] and returns. On its timeout branch it records the
    same code and still sets [needBackSource] and runs [backSource]. *)
Theorem X15_waitAvailablePeerPacket_disabled_back_source
    (env : Env) (ds : DownloadSourceRun) (pt : peerTask) :
  DisableAutoBackSource pt = true ->
  (exists pt',
     waitAvailablePeerPacket availableTimeout env ds pt
     = Some ((-1, false), pt')
     /\ wentToSource dfcodes.ClientScheduleTimeout pt')
  /\ (buf (peerPacketReady pt) = [] -> closed (peerPacketReady pt) = true ->
      waitAvailablePeerPacket availablePeerPacketReady env ds pt
      = Some ((-1, false),
              set_failedCode dfcodes.ClientScheduleTimeout
                (set_failedReason reasonReScheduleTimeout pt))).
Proof.
  intros Hdis. unfold waitAvailablePeerPacket. rewrite Hdis. split.
  - eexists. split; [reflexivity|]. by apply wentToSource_backSource.
  - by intros -> ->.
Qed.

(** X16. When the scheduler answers with [SchedNeedBackSource] before any peer
    packet, [receivePeerPacket] sets [needBackSource], closes
    [peerPacketReady] and returns without a call-back; the closed channel
    makes the ready case of [waitFirstPeerPacket] fire, which loads a peer
    packet that was never stored and panics instead of going to the source. *)
Theorem X16_need_back_source_before_first_packet
    (preferExit : bool) (env : Env) (ds : DownloadSourceRun) (pt : peerTask)
    (msg : string) (inbox : list RecvResult) :
  ctxDone pt = false -> done pt = false ->
  peerPacket pt = None ->
  closed (peerPacketReady pt) = false ->
  peerPacketStream pt
  = realStream (RecvError (dferrors_DfError dfcodes.SchedNeedBackSource msg)
                  :: inbox) ->
  exists pt1,
    receivePeerPacket_body preferExit pt = Return pt1
    /\ needBackSource pt1 = true
    /\ closed (peerPacketReady pt1) = true
    /\ trace pt1 = trace pt
    /\ waitFirstPeerPacket firstPeerPacketReady env ds pt1
       = Some (false,
               log (EvPanic "interface conversion: interface is nil")
                 (set_peerPacketReady (chan_pop (peerPacketReady pt1)) pt1)).
Proof.
  intros Hctx Hdone Hpp Hclosed Hs.
  unfold receivePeerPacket_body, Recv. rewrite Hctx, Hdone, Hs.
  cbv beta iota zeta. cbn [orb].
  rewrite bool_decide_eq_true_2 by done. cbv beta iota zeta.
  match goal with
  | |- context [closed (peerPacketReady ?x)] =>
      change (closed (peerPacketReady x)) with (closed (peerPacketReady pt))
  end.
  rewrite Hclosed. eexists. split; [reflexivity|].
  split; [reflexivity|]. split; [reflexivity|]. split; [reflexivity|].
  unfold waitFirstPeerPacket, canReceive. cbv zeta.
  match goal with
  | |- context [closed (peerPacketReady ?x)] =>
      change (closed (peerPacketReady x)) with true
  end.
  rewrite orb_true_r. cbn [negb].
  match goal with
  | |- match peerPacket ?x with _ => _ end = _ =>
      change (peerPacket x) with (peerPacket pt)
  end.
  by rewrite Hpp.
Qed.

(** X17. When the rate limiter fails for a piece that is not ready, the worker
    reports the piece as failed (the report carries the ready count, not the 0
    it was built with, and queues the piece on [failedPieceCh]), records
    [ClientRequestLimitFail] with the error's message, cancels the context and
    returns; no piece becomes ready. *)
Theorem X17_limiter_failure_cancels_the_task
    (request : DownloadPieceRequest) (e : error) (env : Env)
    (dp : DownloadPieceRun) (pt : peerTask) :
  Bitmap.IsSet (readyPieces pt) (PieceInfo.PieceNum (req_piece request)) = false ->
  closed (failedPieceCh pt) = false ->
  exists pt',
    downloadPieceWorker_body request (Some e) env dp pt = Return pt'
    /\ ctxDone pt' = true
    /\ failedCode pt' = dfcodes.ClientRequestLimitFail
    /\ failedReason pt' = Error e
    /\ readyPieces pt' = readyPieces pt
    /\ failedPieceCh pt'
       = chan_push (PieceInfo.PieceNum (req_piece request)) (failedPieceCh pt)
    /\ trace pt'
       = match peerPacketStream pt with
         | realStream _ =>
             [EvSend (Bitmap.Settled (readyPieces pt))
                (PieceResult.Build (taskID pt) (peerID pt) (req_DstPid request)
                   (PieceInfo.PieceNum (req_piece request)) false
                   dfcodes.ClientRequestLimitFail
                   (Bitmap.Settled (readyPieces pt)))]
         | dummyPeerPacketStream => []
         end ++ trace pt.
Proof.
  intros Hclear Hopen. unfold downloadPieceWorker_body. rewrite Hclear.
  cbv zeta. eexists. split; [reflexivity|].
  unfold ReportPieceResult, failedPieceCh_send, Send. cbv zeta.
  cbn [pieceResult PieceResult.Success negb snd].
  destruct (peerPacketStream pt); cbn [failedPieceCh log set_trace];
    rewrite Hopen; done.
Qed.

Lemma payload_Send pr pt : payload (Send pr pt) = payload pt.
Proof. unfold Send. by repeat case_match. Qed.

Lemma payload_close_done pt : payload (close_done pt) = payload pt.
Proof. unfold close_done. by repeat case_match. Qed.

Lemma payload_DoneCallback pt : payload (DoneCallback pt) = payload pt.
Proof. unfold DoneCallback. cbv zeta. by repeat case_match. Qed.

Lemma payload_sendFinalProgress env pg pt :
  payload (sendFinalProgress env pg pt) = payload pt.
Proof.
  unfold sendFinalProgress. cbv zeta.
  repeat case_match; rewrite ?payload_DoneCallback; done.
Qed.

Lemma payload_finish env pt : payload (snd (finish env pt)) = payload pt.
Proof.
  unfold finish. destruct (once pt); [done|]. cbv beta iota zeta. cbn [snd].
  rewrite payload_close_done, payload_sendFinalProgress.
  change (payload (log ?e ?x)) with (payload x).
  by rewrite payload_Send.
Qed.

Lemma payload_cleanUnfinished env pt :
  payload (cleanUnfinished env pt) = payload pt.
Proof.
  unfold cleanUnfinished. destruct (once pt); [done|]. cbv beta iota zeta.
  change (payload (cancel ?x)) with (payload x).
  rewrite payload_close_done.
  change (payload (log ?e ?x)) with (payload x).
  by rewrite payload_sendFinalProgress, payload_Send.
Qed.

Lemma payload_fields a b :
  payload a = payload b ->
  contentLength a = contentLength b /\ completedLength a = completedLength b
  /\ failedCode a = failedCode b /\ failedReason a = failedReason b
  /\ taskID a = taskID b /\ peerID a = peerID b.
Proof. unfold payload. intros H. by simplify_eq. Qed.

Lemma done_close_done pt : done (close_done pt) = true.
Proof. unfold close_done. by case_match. Qed.

Lemma trace_sendFinalProgress env pg pt :
  finalProgressSent env = true ->
  EvProgress pg ∈ trace (sendFinalProgress env pg pt).
Proof.
  intros Hs. unfold sendFinalProgress. rewrite Hs. cbv zeta.
  destruct (finalProgressAcked env); [|apply list_elem_of_here].
  unfold DoneCallback. cbv zeta. case_match.
  - apply list_elem_of_further, list_elem_of_here.
  - apply list_elem_of_here.
Qed.

(** What the body of [cleanUnfinished] leaves behind. *)
Lemma cleanUnfinished_fails env pt :
  once pt = false ->
  payload (cleanUnfinished env pt) = payload pt
  /\ once (cleanUnfinished env pt) = true
  /\ done (cleanUnfinished env pt) = true
  /\ ctxDone (cleanUnfinished env pt) = true
  /\ EvCallbackFail (failedCode pt) (failedReason pt)
     ∈ trace (cleanUnfinished env pt)
  /\ (finalProgressSent env = true ->
      EvProgress
        (FilePeerTaskProgress.Build
           (ProgressState.Build false (failedCode pt) (failedReason pt))
           (taskID pt) (peerID pt) (contentLength pt) (completedLength pt)
           true) ∈ trace (cleanUnfinished env pt)).
Proof.
  intros Honce. split; [apply payload_cleanUnfinished|].
  unfold cleanUnfinished. rewrite Honce. cbv beta iota zeta.
  set (x := Send _ (log EvCleanUnfinishedBody (set_once true pt))).
  assert (Hx : payload x = payload pt) by (unfold x; by rewrite payload_Send).
  assert (Hox : once x = true) by (unfold x, Send; by case_match).
  apply payload_fields in Hx as (Hx1 & Hx2 & Hx3 & Hx4 & Hx5 & Hx6).
  rewrite Hx1, Hx2, Hx3, Hx4, Hx5, Hx6.
  set (pg := FilePeerTaskProgress.Build _ _ _ _ _ true).
  pose proof (trace_sendFinalProgress env pg x) as Htr.
  pose proof (steps_persist _ _ (steps_sendFinalProgress env pg x))
    as (_ & Ho & _).
  pose proof (payload_sendFinalProgress env pg x) as Hy.
  revert Htr Ho Hy. generalize (sendFinalProgress env pg x). intros y Htr Ho Hy.
  apply payload_fields in Hy as (_ & _ & Hy3 & Hy4 & _ & _).
  rewrite Hy3, Hy4, Hx3, Hx4.
  change (once (cancel ?a)) with (once a).
  change (done (cancel ?a)) with (done a).
  change (trace (cancel ?a)) with (trace a).
  split.
  { apply (steps_persist _ _ (steps_close_done _)). auto. }
  split; [apply done_close_done|]. split; [done|].
  assert (Hsuf : forall e,
    e ∈ trace (log (EvCallbackFail (failedCode pt) (failedReason pt)) y) ->
    e ∈ trace (close_done
                 (log (EvCallbackFail (failedCode pt) (failedReason pt)) y))).
  { intros e. apply elem_of_suffix, steps_trace, steps_close_done. }
  split.
  - apply Hsuf, list_elem_of_here.
  - intros Hs. apply Hsuf, list_elem_of_further. auto.
Qed.

(** X18. When [callback.Init] fails in [pullSinglePiece], the content length
    is already the size of the single piece, the task records [ClientError]
    with the error's message and is cleaned up: the latch fires, [done] is
    closed, the context is cancelled, [callback.Fail] and the final progress
    (if it is received) carry that code and message, and the function does not
    go on to the pull loop. *)
Theorem X18_pullSinglePiece_init_failure
    (e : error) (env : Env) (dp : DownloadPieceRun) (sp : SinglePiece.t)
    (pt : peerTask) :
  singlePiece pt = Some sp -> once pt = false ->
  exists pt',
    pullSinglePiece (Some e) env dp pt = (false, pt')
    /\ contentLength pt' = PieceInfo.RangeSize (SinglePiece.PieceInfo sp)
    /\ failedCode pt' = dfcodes.ClientError
    /\ failedReason pt' = Error e
    /\ once pt' = true /\ done pt' = true /\ ctxDone pt' = true
    /\ EvCallbackFail dfcodes.ClientError (Error e) ∈ trace pt'
    /\ (finalProgressSent env = true ->
        EvProgress
          (FilePeerTaskProgress.Build
             (ProgressState.Build false dfcodes.ClientError (Error e))
             (taskID pt) (peerID pt)
             (PieceInfo.RangeSize (SinglePiece.PieceInfo sp))
             (completedLength pt) true) ∈ trace pt').
Proof.
  intros Hsp Honce. unfold pullSinglePiece. rewrite Hsp. cbv zeta.
  eexists. split; [reflexivity|].
  match goal with
  | |- context [cleanUnfinished env ?x] =>
      pose proof (cleanUnfinished_fails env x Honce) as H; revert H;
      generalize (cleanUnfinished env x)
  end.
  unfold payload. task_simpl. intros pt' (Hp & H). by simplify_eq.
Qed.

(** X19. When [preparePieceTasks] failed (it then returns no piece packet) and
    [waitAvailablePeerPacket] reports a new peer packet, the pass of
    [pullPiecesFromPeers] does not go back to [preparePieceTasks]: it goes on
    with the nil piece packet and dereferences it, in [init] on the first pass
    and at [piecePacket.TotalPiece] later; nothing is dispatched. *)
Theorem X19_failed_prepare_then_new_packet_panics
    (pieceBufferSize : Z) (e : error) (env : Env) (ds : DownloadSourceRun)
    (initErr : option error) (sels : list dispatchSelect) (num limit : Z)
    (initialized : bool) (pt : peerTask) (pp : PeerPacket.t) :
  buf (peerPacketReady pt) <> [] ->
  peerPacket pt = Some pp ->
  exists num',
    pullPiecesFromPeers_process pieceBufferSize None (Some e)
      availablePeerPacketReady env ds initErr sels num limit initialized pt
    = (if initialized
       then Panic nilDereference
              (set_peerPacketReady (chan_pop (peerPacketReady pt)) pt)
       else Break (log (EvPanic nilDereference)
                     (set_peerPacketReady (chan_pop (peerPacketReady pt)) pt)),
       (num', limit, true)).
Proof.
  intros Hbuf Hpp.
  unfold pullPiecesFromPeers_process, waitAvailablePeerPacket. cbv zeta.
  destruct (buf (peerPacketReady pt)) as [|sig rest] eqn:Hb; [done|].
  change (peerPacket (set_peerPacketReady ?c pt)) with (peerPacket pt).
  rewrite Hpp. eexists. by destruct initialized.
Qed.

(** X20. [waitFailedPiece] takes the failed piece from [failedPieceCh] and
    answers [-1] for it, while the [select] at the head of the pull loop
    answers the piece number itself (with limit 1) for the same queue. *)
Theorem X20_waitFailedPiece_drops_the_piece_number
    (failed : Z) (rest : list Z) (num limit : Z) (pt : peerTask) :
  isCompleted pt = false ->
  buf (failedPieceCh pt) = failed :: rest ->
  waitFailedPiece failedPiece pt
  = Some ((-1, true),
          set_failedPieceCh (Build_chan rest (closed (failedPieceCh pt))) pt)
  /\ pullPiecesFromPeers_select pullFailedPiece num limit pt
     = (Continue
          (set_failedPieceCh (Build_chan rest (closed (failedPieceCh pt))) pt),
        (failed, 1)).
Proof.
  intros Hc Hbuf.
  unfold waitFailedPiece, pullPiecesFromPeers_select, canReceive, chan_pop.
  rewrite Hc, Hbuf. done.
Qed.


Lemma count_isCallbackFail_cleanUnfinished env pt :
  once pt = false ->
  count isCallbackFail (trace (cleanUnfinished env pt))
  = S (count isCallbackFail (trace pt)).
Proof.
  intros Honce. unfold cleanUnfinished. rewrite Honce.
  unfold close_done, sendFinalProgress, DoneCallback, Send. cbv zeta.
  repeat case_match; reflexivity.
Qed.

(** X21. A scheduler error with a code of its own (neither
    [SchedNeedBackSource] nor 0) on the stream reaches the user:
    [receivePeerPacket] records code and message and cancels the context; the
    pull loop, at its [select], breaks; the deferred [cleanUnfinished] closes
    [done] and delivers a final progress with that code and message.
    [callback.Fail] is called twice, by the [select] and by [cleanUnfinished].
    *)
Theorem X21_scheduler_error_reaches_the_user
    (preferExit : bool) (env : Env) (ctxErr : error) (num limit : Z)
    (c : Z) (m : string) (inbox : list RecvResult) (pt : peerTask) :
  ctxDone pt = false -> done pt = false -> once pt = false ->
  peerTaskDone pt = false ->
  closed (failedPieceCh pt) = false ->
  peerPacketStream pt = realStream (RecvError (dferrors_DfError c m) :: inbox) ->
  c <> dfcodes.SchedNeedBackSource -> c <> failedCodeNotSet ->
  exists pt1 pt2,
    receivePeerPacket_body preferExit pt = Break pt1
    /\ ctxDone pt1 = true /\ verdict pt1 = (c, m)
    /\ pullPiecesFromPeers_select (pullCtxDone ctxErr) num limit pt1
       = (Break pt2, (num, limit))
    /\ done (pullPiecesFromPeers_deferred env pt2) = true
    /\ count isCallbackFail (trace (pullPiecesFromPeers_deferred env pt2))
       = S (S (count isCallbackFail (trace pt)))
    /\ (finalProgressSent env = true ->
        EvProgress
          (FilePeerTaskProgress.Build (ProgressState.Build false c m)
             (taskID pt) (peerID pt) (contentLength pt) (completedLength pt)
             true) ∈ trace (pullPiecesFromPeers_deferred env pt2)).
Proof.
  intros Hctx Hdone Honce Hptd Hopen Hs Hnb Hn0.
  unfold receivePeerPacket_body, Recv. rewrite Hctx, Hdone, Hs.
  cbv beta iota zeta. cbn [orb].
  rewrite bool_decide_eq_false_2 by done.
  eexists _, _. split; [reflexivity|].
  split; [reflexivity|]. split; [reflexivity|].
  unfold pullPiecesFromPeers_select. cbv zeta.
  match goal with
  | |- context [if negb (ctxDone ?x) then _ else _] =>
      change (ctxDone x) with true; change (peerTaskDone x) with (peerTaskDone pt);
      change (failedCode x) with c; change (failedReason x) with m
  end.
  rewrite Hptd, (bool_decide_eq_false_2 (c = failedCodeNotSet)) by done.
  cbn [negb]. split; [reflexivity|].
  unfold pullPiecesFromPeers_deferred.
  match goal with
  | |- context [if closed (failedPieceCh ?x) then _ else _] =>
      change (closed (failedPieceCh x)) with (closed (failedPieceCh pt))
  end.
  rewrite Hopen.
  match goal with
  | |- context [cleanUnfinished env ?x] =>
      pose proof (cleanUnfinished_fails env x Honce)
        as (Hp & _ & Hd & _ & _ & Hpg);
      pose proof (count_isCallbackFail_cleanUnfinished env x Honce) as Hcount;
      revert Hp Hd Hpg Hcount; generalize (cleanUnfinished env x)
  end.
  task_simpl. intros y Hp Hd Hpg Hcount. cbn [count isCallbackFail] in Hcount.
  split; [done|]. split; [done|]. exact Hpg.
Qed.

(** X22. A piece that [dispatchPieceRequest] handed out is never the answer of
    [getNextPieceNum] again, in whatever state the later steps of a run leave
    the task. *)
Theorem X22_dispatched_piece_is_not_asked_for_again
    (pieceInfos : list PieceInfo.t) (sels : list dispatchSelect)
    (ops : list Op) (cur : Z) (piece : PieceInfo.t) (pt : peerTask) :
  piece ∈ pieceInfos ->
  PieceInfo.PieceNum piece <> -1 ->
  getNextPieceNum cur (run ops (dispatchPieceRequest pieceInfos sels pt))
  <> PieceInfo.PieceNum piece.
Proof.
  intros Hin Hne Heq.
  assert (Hreq : PieceInfo.PieceNum piece
                 ∈ requestedPieces
                     (run ops (dispatchPieceRequest pieceInfos sels pt))).
  { apply (steps_grow _ _ (steps_run ops _)).
    rewrite dispatchPieceRequest_requestedPieces.
    apply elem_of_union_l, elem_of_list_to_set, list_elem_of_fmap. eauto. }
  revert Heq Hreq.
  generalize (run ops (dispatchPieceRequest pieceInfos sels pt)). intros st.
  unfold getNextPieceNum.
  pose proof (nextClear_clear (requestedPieces st) cur) as Hcur.
  pose proof (nextClear_clear (requestedPieces st) 0) as H0.
  apply bool_decide_eq_false in Hcur, H0.
  destruct (isCompleted st); [intros; congruence|].
  repeat case_match; intros Heq Hreq; congruence.
Qed.

Lemma verdict_Send pr pt : verdict (Send pr pt) = verdict pt.
Proof. unfold Send. by repeat case_match. Qed.

Lemma verdict_finish env pt : verdict (snd (finish env pt)) = verdict pt.
Proof.
  pose proof (payload_finish env pt) as H.
  apply payload_fields in H as (_ & _ & H1 & H2 & _).
  unfold verdict. by rewrite H1, H2.
Qed.

Lemma verdict_ReportPieceResult env r pt :
  verdict (snd (ReportPieceResult env r pt)) = verdict pt.
Proof.
  unfold ReportPieceResult, failedPieceCh_send. cbv zeta.
  destruct (negb _).
  { cbn [snd]. case_match.
    - change (verdict (log ?e ?x)) with (verdict x). apply verdict_Send.
    - change (verdict (set_failedPieceCh ?v ?x)) with (verdict x).
      apply verdict_Send. }
  destruct (Bitmap.IsSet _ _); [done|].
  destruct (progress env);
    try match goal with
        | |- context [isCompleted ?x] => destruct (isCompleted x)
        end; cbn [negb snd]; rewrite ?verdict_finish;
    change (verdict (log ?e ?x)) with (verdict x); by rewrite verdict_Send.
Qed.

Lemma verdict_calls cs pt : verdict (calls cs pt) = verdict pt.
Proof.
  revert pt. induction cs as [|c cs IH]; intros pt; [done|].
  cbn [calls fold_left]. fold (calls cs (call c pt)). rewrite IH.
  destruct c; cbn [call].
  - apply verdict_ReportPieceResult.
  - unfold SetContentLength. cbv zeta.
    match goal with
    | |- context [isCompleted ?x] => destruct (isCompleted x)
    end; cbn [negb snd]; rewrite ?verdict_finish; done.
  - done.
Qed.

(** X23. When [DownloadSource] fails before the content is complete (the latch
    has not fired), [backSource] records the error's message but no code:
    [callback.Fail] and the final progress get the [failedCode] the task
    already had (for a fresh task, [UnknownError]) and the message of the
    error. *)
Theorem X23_failed_back_source_keeps_the_code
    (env : Env) (ds : DownloadSourceRun) (e : error) (pt : peerTask) :
  sourceErr ds = Some e ->
  once (calls (sourceCalls ds) (log EvDownloadSource pt)) = false ->
  verdict (backSource env ds pt) = (failedCode pt, Error e)
  /\ EvCallbackFail (failedCode pt) (Error e) ∈ trace (backSource env ds pt)
  /\ (finalProgressSent env = true ->
      exists contentLength completedLength,
        EvProgress
          (FilePeerTaskProgress.Build
             (ProgressState.Build false (failedCode pt) (Error e))
             (taskID pt) (peerID pt) contentLength completedLength true)
        ∈ trace (backSource env ds pt)).
Proof.
  intros Herr Honce. unfold backSource. rewrite Herr. cbv zeta.
  pose proof (verdict_calls (sourceCalls ds) (log EvDownloadSource pt)) as Hv.
  pose proof (steps_identity _ _ (steps_calls (sourceCalls ds)
                                    (log EvDownloadSource pt)))
    as (Hpid & Htid & _).
  revert Honce Hv Hpid Htid.
  generalize (calls (sourceCalls ds) (log EvDownloadSource pt)).
  intros st Honce Hv Hpid Htid.
  unfold verdict in Hv. simpl in Hv, Hpid, Htid. simplify_eq.
  pose proof (cleanUnfinished_fails env (set_failedReason (Error e) st) Honce)
    as Hclean.
  revert Hclean. generalize (cleanUnfinished env (set_failedReason (Error e) st)).
  intros y. unfold payload, verdict. task_simpl.
  intros (Hp & _ & _ & _ & Hfail & Hpg). simplify_eq.
  split; [congruence|]. split; [congruence|].
  intros Hs. specialize (Hpg Hs). eexists _, _.
  by rewrite <- H, <- Hpid, <- Htid.
Qed.

(** ** The paths that end well *)

(** What the body of [finish] leaves behind. *)
Lemma finish_succeeds env pt :
  once pt = false ->
  fst (finish env pt) = callbackDone env
  /\ payload (snd (finish env pt)) = payload pt
  /\ once (snd (finish env pt)) = true
  /\ done (snd (finish env pt)) = true
  /\ ctxDone (snd (finish env pt)) = ctxDone pt
  /\ EvCallbackDone ∈ trace (snd (finish env pt))
  /\ (finalProgressSent env = true ->
      EvProgress
        (FilePeerTaskProgress.Build
           match callbackDone env with
           | Some e => ProgressState.Build false dfcodes.ClientError (Error e)
           | None => ProgressState.Build true dfcodes.Success "Success"
           end
           (taskID pt) (peerID pt) (contentLength pt) (completedLength pt)
           true) ∈ trace (snd (finish env pt))).
Proof.
  intros Honce. split; [|split; [apply payload_finish|]].
  { unfold finish. by rewrite Honce. }
  split; [apply once_finish|].
  unfold finish. rewrite Honce. cbv beta iota zeta. cbn [snd].
  set (x := log EvCallbackDone
              (Send _ (log EvFinishBody (set_once true pt)))).
  assert (Hx : payload x = payload pt) by (unfold x, Send; by case_match).
  assert (Hcx : ctxDone x = ctxDone pt) by (unfold x, Send; by case_match).
  assert (Hdx : EvCallbackDone ∈ trace x) by apply list_elem_of_here.
  apply payload_fields in Hx as (Hx1 & Hx2 & _ & _ & Hx5 & Hx6).
  rewrite Hx1, Hx2, Hx5, Hx6.
  set (pg := FilePeerTaskProgress.Build _ _ _ _ _ true).
  pose proof (trace_sendFinalProgress env pg x) as Htr.
  pose proof (steps_trace _ _ (steps_sendFinalProgress env pg x)) as Hsuf.
  assert (Hcy : ctxDone (sendFinalProgress env pg x) = ctxDone x).
  { unfold sendFinalProgress, DoneCallback. cbv zeta. by repeat case_match. }
  revert Htr Hsuf Hcy. generalize (sendFinalProgress env pg x).
  intros y Htr Hsuf Hcy.
  split; [apply done_close_done|].
  split; [unfold close_done; case_match; simpl; congruence|].
  assert (Hclose : forall e, e ∈ trace y -> e ∈ trace (close_done y)).
  { intros e. apply elem_of_suffix, steps_trace, steps_close_done. }
  split.
  - apply Hclose. by apply (elem_of_suffix _ (trace x)).
  - intros Hs. apply Hclose. auto.
Qed.

(** X24. After a successful [DownloadSource], [finish] decides how the task
    ends and the deferred [cleanUnfinished] only cancels the context: its
    body does not run, so [callback.Fail] is not called by it, even when
    [callback.Done] failed inside [finish]. *)
Theorem X24_backSource_success_only_cancels
    (env : Env) (ds : DownloadSourceRun) (pt : peerTask) :
  sourceErr ds = None ->
  backSource env ds pt
  = cancel (snd (finish env (calls (sourceCalls ds) (log EvDownloadSource pt))))
  /\ trace (backSource env ds pt)
     = trace (snd (finish env (calls (sourceCalls ds) (log EvDownloadSource pt)))).
Proof.
  intros Herr. unfold backSource. rewrite Herr. cbv zeta.
  unfold cleanUnfinished. rewrite once_finish. done.
Qed.

(** The report that completes the content finishes the task. *)
Lemma ReportPieceResult_completes env r pt :
  PieceResult.Success (pieceResult r) = true ->
  Bitmap.IsSet (readyPieces pt) (PieceResult.PieceNum (pieceResult r)) = false ->
  progress env <> progressCtxDone ->
  once pt = false ->
  wrap64 (completedLength pt + PieceInfo.RangeSize (piece r)) = contentLength pt ->
  fst (ReportPieceResult env r pt) = callbackDone env
  /\ readyPieces (snd (ReportPieceResult env r pt))
     = Bitmap.SetBit (readyPieces pt) (PieceResult.PieceNum (pieceResult r))
  /\ completedLength (snd (ReportPieceResult env r pt)) = contentLength pt
  /\ contentLength (snd (ReportPieceResult env r pt)) = contentLength pt
  /\ once (snd (ReportPieceResult env r pt)) = true
  /\ done (snd (ReportPieceResult env r pt)) = true
  /\ EvCallbackDone ∈ trace (snd (ReportPieceResult env r pt))
  /\ (finalProgressSent env = true ->
      EvProgress
        (FilePeerTaskProgress.Build
           match callbackDone env with
           | Some e => ProgressState.Build false dfcodes.ClientError (Error e)
           | None => ProgressState.Build true dfcodes.Success "Success"
           end
           (taskID pt) (peerID pt) (contentLength pt) (contentLength pt) true)
      ∈ trace (snd (ReportPieceResult env r pt))).
Proof.
  intros Hs Hclear Hprog Honce Hsum.
  unfold ReportPieceResult. cbv zeta. rewrite Hs, Hclear. cbn [negb].
  change (completedLength (set_readyPieces ?v pt)) with (completedLength pt).
  rewrite Hsum.
  set (marked := set_completedLength (contentLength pt) (set_readyPieces _ pt)).
  set (x := Send _ marked).
  assert (Hx : payload x = payload marked /\ readyPieces x = readyPieces marked
               /\ once x = false) by (unfold x, Send; by case_match).
  assert (Hfin : forall y,
    payload y = payload marked -> readyPieces y = readyPieces marked ->
    once y = false ->
    isCompleted y = true
    /\ fst (finish env y) = callbackDone env
    /\ readyPieces (snd (finish env y))
       = Bitmap.SetBit (readyPieces pt) (PieceResult.PieceNum (pieceResult r))
    /\ completedLength (snd (finish env y)) = contentLength pt
    /\ contentLength (snd (finish env y)) = contentLength pt
    /\ once (snd (finish env y)) = true
    /\ done (snd (finish env y)) = true
    /\ EvCallbackDone ∈ trace (snd (finish env y))
    /\ (finalProgressSent env = true ->
        EvProgress
          (FilePeerTaskProgress.Build
             match callbackDone env with
             | Some e => ProgressState.Build false dfcodes.ClientError (Error e)
             | None => ProgressState.Build true dfcodes.Success "Success"
             end
             (taskID pt) (peerID pt) (contentLength pt) (contentLength pt) true)
        ∈ trace (snd (finish env y)))).
  { intros y Hp Hr Ho.
    apply payload_fields in Hp as (H1 & H2 & _ & _ & H5 & H6).
    change (contentLength marked) with (contentLength pt) in H1.
    change (completedLength marked) with (contentLength pt) in H2.
    change (taskID marked) with (taskID pt) in H5.
    change (peerID marked) with (peerID pt) in H6.
    destruct (finish_succeeds env y Ho)
      as (Hf & Hfp & Hfo & Hfd & _ & Hfc & Hfg).
    apply payload_fields in Hfp as (Hf1 & Hf2 & _ & _ & _ & _).
    rewrite H1, H2, H5, H6 in Hfg. rewrite Hf1, Hf2, H1, H2.
    assert (Hfr : readyPieces (snd (finish env y)) = readyPieces y)
      by (by apply (lengths_finish (fun ready _ => ready = readyPieces y))).
    rewrite Hfr, Hr. unfold isCompleted. rewrite H1, H2.
    repeat split; try done. by apply bool_decide_eq_true. }
  destruct Hx as (Hp & Hr & Ho).
  destruct (progress env); [| |done].
  - destruct (Hfin x Hp Hr Ho) as (-> & H). exact H.
  - destruct (Hfin (log (EvProgress
        (FilePeerTaskProgress.Build
           (ProgressState.Build
              (PieceResult.Success
                 (PieceResult.with_FinishedCount
                    (Bitmap.Settled (readyPieces marked)) (pieceResult r)))
              (PieceResult.Code
                 (PieceResult.with_FinishedCount
                    (Bitmap.Settled (readyPieces marked)) (pieceResult r)))
              "downloading")
           (taskID x) (peerID x) (contentLength x) (completedLength x) false))
        x) Hp Hr Ho) as (-> & H). exact H.
Qed.

(** X25. A task with a single piece ends well when [callback.Init] succeeds
    and [DownloadPiece] reports that piece: the piece is the only ready one,
    the content is complete, the latch has fired through [finish], [done] is
    closed, [callback.Done] was called, the final progress (if it is
    received) reports what [callback.Done] returned, and the function does
    not go on to the pull loop. *)
Theorem X25_pullSinglePiece_success
    (env : Env) (r : pieceTaskResult) (sp : SinglePiece.t) (pt : peerTask) :
  created pt ->
  singlePiece pt = Some sp ->
  PieceResult.Success (pieceResult r) = true ->
  PieceInfo.RangeSize (piece r) = PieceInfo.RangeSize (SinglePiece.PieceInfo sp) ->
  0 <= PieceInfo.RangeSize (SinglePiece.PieceInfo sp) < 2 ^ 32 ->
  progress env <> progressCtxDone ->
  exists pt',
    pullSinglePiece None env
      (Build_DownloadPieceRun [Call_ReportPieceResult env r] true) pt
    = (false, pt')
    /\ readyPieces pt' = {[PieceResult.PieceNum (pieceResult r)]}
    /\ completedLength pt' = PieceInfo.RangeSize (SinglePiece.PieceInfo sp)
    /\ isCompleted pt' = true
    /\ once pt' = true /\ done pt' = true
    /\ EvCallbackDone ∈ trace pt'
    /\ (finalProgressSent env = true ->
        EvProgress
          (FilePeerTaskProgress.Build
             match callbackDone env with
             | Some e => ProgressState.Build false dfcodes.ClientError (Error e)
             | None => ProgressState.Build true dfcodes.Success "Success"
             end
             (taskID pt) (peerID pt)
             (PieceInfo.RangeSize (SinglePiece.PieceInfo sp))
             (PieceInfo.RangeSize (SinglePiece.PieceInfo sp)) true)
        ∈ trace pt').
Proof.
  intros Hc Hsp Hs Hsize Hrange Hprog.
  apply created_fields in Hc as (Hready & Hlen & Honce & _).
  unfold pullSinglePiece. rewrite Hsp. cbv zeta.
  eexists. split; [reflexivity|].
  cbn [pieceCalls calls fold_left call].
  set (size := PieceInfo.RangeSize (SinglePiece.PieceInfo sp)) in *.
  set (pt0 := log EvCallbackInit (set_contentLength size pt)).
  destruct (ReportPieceResult_completes env r pt0 Hs) as
    (_ & Hr & Hcl & Hct & Ho & Hd & Hcb & Hpg); try done.
  - change (readyPieces pt0) with (readyPieces pt). rewrite Hready.
    apply bool_decide_eq_false, not_elem_of_empty.
  - change (completedLength pt0) with (completedLength pt).
    change (contentLength pt0) with size.
    rewrite Hlen, Hsize, Z.add_0_l. apply wrap64_small. lia.
  - change (contentLength pt0) with size in *.
    change (readyPieces pt0) with (readyPieces pt) in Hr.
    rewrite Hready in Hr. unfold Bitmap.SetBit in Hr.
    rewrite (right_id_L ∅ (∪)) in Hr.
    unfold isCompleted. rewrite Hcl, Hct.
    repeat split; try done. by apply bool_decide_eq_true.
Qed.

Lemma dispatchPieceRequest_totalPiece pieceInfos sels pt :
  totalPiece (dispatchPieceRequest pieceInfos sels pt) = totalPiece pt.
Proof.
  revert sels pt. induction pieceInfos as [|piece rest IH]; intros sels pt;
    [done|].
  cbn [dispatchPieceRequest]. rewrite IH.
  destruct (head sels) as [[]|]; unfold onContextDone; by repeat case_match.
Qed.

Lemma getNextPieceNum_clear cur pt :
  getNextPieceNum cur pt <> -1 ->
  Bitmap.IsSet (requestedPieces pt) (getNextPieceNum cur pt) = false.
Proof.
  unfold getNextPieceNum. destruct (isCompleted pt); [done|].
  repeat case_match; intros Hne; try done; apply nextClear_clear.
Qed.

(** X26. A pass of [pullPiecesFromPeers] that got a piece packet (after the
    first pass) raises [totalPiece] to the total of the packet if that is
    larger, marks every piece of the packet as requested, and goes on with
    the next unrequested piece and the full limit, or with [-1] and limit 1
    when [getNextPieceNum] finds none. *)
Theorem X26_pullPiecesFromPeers_process_dispatches
    (pieceBufferSize : Z) (piecePacket : PiecePacket.t)
    (avail : availableSelect) (env : Env) (ds : DownloadSourceRun)
    (initErr : option error) (sels : list dispatchSelect) (num limit : Z)
    (pt : peerTask) :
  exists pt' num',
    pullPiecesFromPeers_process pieceBufferSize (Some piecePacket) None
      avail env ds initErr sels num limit true pt
    = (Continue pt',
       (num', if bool_decide (num' = -1) then 1 else pieceBufferSize, true))
    /\ totalPiece pt'
       = Z.max (totalPiece pt) (PiecePacket.TotalPiece piecePacket)
    /\ requestedPieces pt'
       = list_to_set (PieceInfo.PieceNum <$> PiecePacket.PieceInfos piecePacket)
         ∪ requestedPieces pt
    /\ num' = getNextPieceNum num pt'
    /\ (num' <> -1 -> Bitmap.IsSet (requestedPieces pt') num' = false).
Proof.
  unfold pullPiecesFromPeers_process. cbv beta iota zeta.
  eexists _, _. split.
  { case_bool_decide as Hn.
    - rewrite bool_decide_eq_false_2 by done. reflexivity.
    - rewrite bool_decide_eq_true_2 by done. reflexivity. }
  split; [|split; [|split; [reflexivity|apply getNextPieceNum_clear]]].
  - rewrite dispatchPieceRequest_totalPiece. unfold updateTotalPiece.
    case_bool_decide; task_simpl; lia.
  - rewrite dispatchPieceRequest_requestedPieces.
    unfold updateTotalPiece. by case_match.
Qed.

End Properties.

(** * The properties on the sample inputs *)

#[local] Existing Instance dfcodes_table.
#[local] Existing Instance sample_hasher.

Lemma normal_task_created inbox disableAutoBackSource :
  created (normal_task inbox disableAutoBackSource).
Proof.
  exists sample_request, (sample_client inbox), disableAutoBackSource.
  reflexivity.
Qed.

Lemma sample_ops_wellFormed :
  Forall (reportsWellFormed (fun _ => 1024)) sample_ops.
Proof.
  unfold sample_ops, reportsWellFormed.
  repeat first [ apply Forall_nil | apply Forall_cons; split | exact I
               | intros _; unfold wellFormed; simpl; lia | progress simpl ].
Qed.

Lemma C1_witness :
  created (normal_task [] false)
  /\ completedLength (run sample_ops (normal_task [] false))
     = sumRangeSize (fun _ => 1024)
         (readyPieces (run sample_ops (normal_task [] false))).
Proof.
  split; [apply normal_task_created|].
  refine (proj1 (C1_completed_length_is_sum_over_ready
                   (fun _ => 1024) (normal_task [] false) sample_ops _ _ _)).
  - intros p. lia.
  - apply normal_task_created.
  - apply sample_ops_wellFormed.
Defined.

Lemma C2_witness :
  created (normal_task [] false)
  /\ In (Op_finish sample_env) sample_ops
  /\ count isBody (trace (run sample_ops (normal_task [] false))) = 1%nat
  /\ count isCloseDone (trace (run sample_ops (normal_task [] false))) = 1%nat
  /\ done (run sample_ops (normal_task [] false)) = true.
Proof.
  assert (Hin : In (Op_finish sample_env) sample_ops) by (simpl; tauto).
  split; [apply normal_task_created|]. split; [exact Hin|].
  destruct (C2_finish_or_cleanUnfinished_runs_once
              (normal_task [] false) sample_ops sample_env
              (normal_task_created [] false) (or_introl Hin))
    as (Hb & Hc & Hd & _).
  auto.
Defined.

Lemma C3_witness :
  DisableAutoBackSource (normal_task [] true) = true
  /\ exists pt',
       waitFirstPeerPacket firstTimeout sample_env sample_source
         (normal_task [] true) = Some (false, pt')
       /\ pt' = backSource sample_env sample_source
                  (set_needBackSource true
                     (set_failedCode dfcodes.ClientScheduleTimeout
                        (set_failedReason reasonScheduleTimeout
                           (normal_task [] true))))
       /\ wentToSource dfcodes.ClientScheduleTimeout pt'.
Proof.
  split; [reflexivity|].
  exact (C3_timeout_runs_backSource_when_disabled
           sample_env sample_source (normal_task [] true) eq_refl).
Defined.

(** With auto back source disabled and no packet in time, the source is
    fetched and the task ends with a successful final progress. *)
Example timeout_run_downloads_from_source :
  let pt :=
    run [Op_Start;
         Op_waitFirstPeerPacket firstTimeout sample_env sample_source;
         Op_pullPiecesFromPeers_deferred sample_env]
      (normal_task [] true) in
  needBackSource pt = true
  /\ failedCode pt = 4002
  /\ count isDownloadSource (trace pt) = 1%nat
  /\ count (isFinalProgress true 200) (trace pt) = 1%nat
  /\ count (isFinalProgress false 4002) (trace pt) = 0%nat.
Proof. vm_compute. repeat split. Qed.

Lemma C4_witness :
  dfcodes.UnknownError <> failedCodeNotSet
  /\ failedCode (normal_task [] false) = dfcodes.UnknownError
  /\ forall st,
       failedCode st = dfcodes.UnknownError ->
       peerTaskDone st = false ->
       ctxDone st = true ->
       fst (pullPiecesFromPeers_select (pullCtxDone context_Canceled) 0 4 st)
       = Break (log (EvCallbackFail dfcodes.UnknownError (failedReason st)) st)
       /\ onContextDone st = st.
Proof.
  split; [discriminate|].
  apply (C4_context_cancel_keeps_UnknownError
           (normal_task [] false) context_Canceled 0 4).
  - discriminate.
  - apply normal_task_created.
Defined.

(** The task is cancelled after the first packet: it ends with
    [UnknownError] (1500), not with [ClientContextCanceled] (4003). *)
Example cancel_run_ends_with_UnknownError :
  let pt :=
    run [Op_Start; Op_receivePeerPacket false;
         Op_waitFirstPeerPacket firstPeerPacketReady sample_env sample_source;
         Op_cancel;
         Op_pullPiecesFromPeers_select (pullCtxDone context_Canceled) 0 4;
         Op_pullPiecesFromPeers_deferred sample_env]
      (normal_task [RecvPacket sample_packet] false) in
  failedCode pt = 1500
  /\ count (isFinalProgress false 1500) (trace pt) = 1%nat
  /\ count (isFinalProgress false 4003) (trace pt) = 0%nat.
Proof. vm_compute. repeat split. Qed.


(** Two workers report the pieces 0 and 1: the first marks its piece and
    reads the count, the second marks its piece, and then the report of the
    first goes out, with [FinishedCount = 1] while two bits are set. *)
Lemma report_count_lags_behind :
  let pt := normal_task [] false in
  let pt1 :=
    set_completedLength 1024
      (set_readyPieces (Bitmap.SetBit (readyPieces pt) 0) pt) in
  let pr := message (Report_success (pieceResult (sample_result 0 1024))) pt1 in
  let pt2 :=
    set_completedLength 2048
      (set_readyPieces (Bitmap.SetBit (readyPieces pt1) 1) pt1) in
  rtc interleaved (pt, []) (Send pr pt2, [])
  /\ pr = PieceResult.Build "task-1" "peer-1" "peer-2" 0 true 200 1
  /\ head (trace (Send pr pt2)) = Some (EvSend 2 pr).
Proof.
  cbv zeta. split; [|split; by vm_compute].
  eapply rtc_l; [apply interleaved_prim, (prim_readyPieces 0)|].
  eapply rtc_l; [apply interleaved_prim, (prim_completedLength 1024)|].
  eapply rtc_l;
    [apply (interleaved_build
              (Report_success (pieceResult (sample_result 0 1024))))|].
  eapply rtc_l; [apply interleaved_prim, (prim_readyPieces 1)|].
  eapply rtc_l; [apply interleaved_prim, (prim_completedLength 2048)|].
  eapply rtc_l; [|apply rtc_refl].
  match goal with
  | |- interleaved (?x, [?m]) _ => apply (interleaved_Send m x [] [])
  end.
Qed.

(** C6, as stated, fails: after a back-source download one piece is ready,
    [totalPiece] is still -1 and [isCompleted] is true; and a task told of one
    piece and no content is completed with no ready piece. *)
Lemma C6_counterexample :
  (let pt := run [Op_Start; Op_backSource sample_env sample_source]
               back_source_task in
   isCompleted pt = true
   /\ Bitmap.Settled (readyPieces pt) = 1 /\ totalPiece pt = -1)
  /\ (let pt :=
        run (first_packet_ops
             ++ [Op_init (Some empty_packet) None; Op_updateTotalPiece empty_packet])
          (normal_task [RecvPacket sample_packet] false) in
      isCompleted pt = true
      /\ Bitmap.Settled (readyPieces pt) = 0 /\ totalPiece pt = 1).
Proof. vm_compute. repeat split. Qed.

Lemma C8_witness :
  created (normal_task [] false)
  /\ (forall env r st,
        PieceResult.Success (pieceResult r) = true ->
        Bitmap.IsSet (readyPieces st) (PieceResult.PieceNum (pieceResult r)) = true ->
        ReportPieceResult env r st = (None, st))
  /\ forall n,
       (count (isSuccessSend n) (trace (run sample_ops (normal_task [] false)))
        <= 1)%nat.
Proof.
  split; [apply normal_task_created|].
  apply (C8_successful_report_is_idempotent (normal_task [] false) sample_ops).
  apply normal_task_created.
Defined.

(** Piece 0 is reported twice in [sample_ops] and goes out once. *)
Example sample_ops_sends_piece_0_once :
  count (isSuccessSend 0) (trace (run sample_ops (normal_task [] false))) = 1%nat
  /\ count isSend (trace (run sample_ops (normal_task [] false))) = 3%nat.
Proof. vm_compute. done. Qed.

Lemma C9_witness :
  register_err failing_client = Some (errors_New "connection refused")
  /\ exists pt,
       newFilePeerTask sample_request failing_client false = (Some pt, None, None)
       /\ needBackSource pt = true
       /\ taskID pt = idgen.TaskID (PeerTaskRequest.Url sample_request)
                        (PeerTaskRequest.UrlMeta sample_request)
       /\ peerPacketStream pt = dummyPeerPacketStream
       /\ Recv (peerPacketStream pt)
          = Some (RecvError (dferrors_DfError dfcodes.SchedNeedBackSource ""),
                  peerPacketStream pt)
       /\ (forall pr, dummyPeerPacketStream_Send pr = None)
       /\ (forall pr st, peerPacketStream st = dummyPeerPacketStream ->
                         Send pr st = st).
Proof.
  split; [reflexivity|].
  apply (C9_register_failure_substitutes_stub sample_request failing_client
           (errors_New "connection refused")).
  reflexivity.
Defined.

Lemma C10_witness :
  receivePeerPacket_body false
    (normal_task [RecvPacket sample_packet_no_main] false)
  = Panic nilDereference
      (set_peerPacketStream (realStream [])
         (normal_task [RecvPacket sample_packet_no_main] false)).
Proof.
  exact (C10_success_packet_without_main_peer_panics false
           (normal_task [RecvPacket sample_packet_no_main] false)
           sample_packet_no_main [] eq_refl eq_refl eq_refl eq_refl).
Defined.

(** ** More of the task, on the sample inputs *)

Lemma X2_getNextPieceNum_finds_witness :
  0 <= getNextPieceNum 2 requested_task < totalPiece requested_task
  /\ Bitmap.IsSet (requestedPieces requested_task)
       (getNextPieceNum 2 requested_task) = false
  /\ (2 <= 2 -> 2 <= getNextPieceNum 2 requested_task <= 2).
Proof.
  apply (X2_getNextPieceNum_finds 2 2 requested_task).
  - lia.
  - reflexivity.
  - unfold requested_task. simpl. lia.
  - vm_compute. reflexivity.
Defined.

Lemma back_source_task_created : created back_source_task.
Proof. exists sample_request, failing_client, false. reflexivity. Qed.

Lemma small_task_created : created small_task.
Proof. exists sample_request, small_client, false. reflexivity. Qed.


Lemma X13_early_SetContentLength_is_kept_witness :
  fst (SetContentLength sample_env 1024 (normal_task [] false))
  = Some (errors_New "SetContentLength should call after task completed")
  /\ once (snd (ReportPieceResult sample_env (sample_result 0 1024)
                  (snd (SetContentLength sample_env 1024 (normal_task [] false)))))
     = true.
Proof.
  destruct (X13_early_SetContentLength_is_kept sample_env sample_env 1024
              (sample_result 0 1024) (normal_task [] false))
    as (Hset & _ & Ho).
  - discriminate.
  - reflexivity.
  - reflexivity.
  - reflexivity.
  - discriminate.
  - rewrite Hset. split; [reflexivity|exact Ho].
Defined.

Lemma X14_backSource_ends_the_task_witness :
  created back_source_task
  /\ done (backSource sample_env sample_source (run [Op_Start] back_source_task))
     = true
  /\ ctxDone (backSource sample_env sample_source
                (run [Op_Start] back_source_task)) = true.
Proof.
  split; [apply back_source_task_created|].
  destruct (X14_backSource_ends_the_task back_source_task [Op_Start] sample_env
              sample_source back_source_task_created)
    as (_ & Hd & Hc & _).
  split; [exact Hd|exact Hc].
Defined.

Lemma X15_waitAvailablePeerPacket_disabled_back_source_witness :
  DisableAutoBackSource (normal_task [] true) = true
  /\ exists pt',
       waitAvailablePeerPacket availableTimeout sample_env sample_source
         (normal_task [] true) = Some ((-1, false), pt')
       /\ wentToSource dfcodes.ClientScheduleTimeout pt'.
Proof.
  split; [reflexivity|].
  exact (proj1 (X15_waitAvailablePeerPacket_disabled_back_source sample_env
                  sample_source (normal_task [] true) eq_refl)).
Defined.

Lemma X16_need_back_source_before_first_packet_witness :
  exists pt1,
    receivePeerPacket_body false
      (normal_task [RecvError (dferrors_DfError 5001 "")] false) = Return pt1
    /\ needBackSource pt1 = true
    /\ closed (peerPacketReady pt1) = true
    /\ trace pt1 = []
    /\ waitFirstPeerPacket firstPeerPacketReady sample_env sample_source pt1
       = Some (false,
               log (EvPanic "interface conversion: interface is nil")
                 (set_peerPacketReady (chan_pop (peerPacketReady pt1)) pt1)).
Proof.
  exact (X16_need_back_source_before_first_packet false sample_env sample_source
           (normal_task [RecvError (dferrors_DfError 5001 "")] false) "" []
           eq_refl eq_refl eq_refl eq_refl eq_refl).
Defined.

Lemma X17_limiter_failure_cancels_the_task_witness :
  exists pt',
    downloadPieceWorker_body sample_download
      (Some (errors_New "rate: Wait(n=1024) would exceed context deadline"))
      sample_env (Build_DownloadPieceRun [] true) (normal_task [] false)
    = Return pt'
    /\ ctxDone pt' = true
    /\ failedCode pt' = 4006
    /\ buf (failedPieceCh pt') = [0].
Proof.
  destruct (X17_limiter_failure_cancels_the_task sample_download
              (errors_New "rate: Wait(n=1024) would exceed context deadline")
              sample_env (Build_DownloadPieceRun [] true) (normal_task [] false)
              eq_refl eq_refl)
    as (pt' & Hbody & Hctx & Hcode & _ & _ & Hch & _).
  exists pt'. rewrite Hch. repeat split; assumption || reflexivity.
Defined.

Lemma X18_pullSinglePiece_init_failure_witness :
  exists pt',
    pullSinglePiece (Some (errors_New "create output file: permission denied"))
      sample_env (Build_DownloadPieceRun [] true) small_task = (false, pt')
    /\ contentLength pt' = 1024
    /\ failedCode pt' = 4000
    /\ done pt' = true.
Proof.
  destruct (X18_pullSinglePiece_init_failure
              (errors_New "create output file: permission denied")
              sample_env (Build_DownloadPieceRun [] true) sample_single_piece
              small_task eq_refl eq_refl)
    as (pt' & Hpull & Hlen & Hcode & _ & _ & Hdone & _).
  exists pt'. repeat split; assumption.
Defined.

Lemma X19_failed_prepare_then_new_packet_panics_witness :
  exists num',
    pullPiecesFromPeers_process 4 None
      (Some (errors_New "connection refused"))
      availablePeerPacketReady sample_env sample_source None [] 0 4 true
      scheduled_task
    = (Panic nilDereference
         (set_peerPacketReady (chan_pop (peerPacketReady scheduled_task))
            scheduled_task),
       (num', 4, true)).
Proof.
  apply (X19_failed_prepare_then_new_packet_panics 4
           (errors_New "connection refused") sample_env sample_source None []
           0 4 true scheduled_task sample_packet).
  - vm_compute. discriminate.
  - reflexivity.
Defined.

Lemma X10_stub_stream_task_never_sends_witness :
  count isSend
    (trace (run [Op_Start; Op_backSource sample_env sample_source]
              back_source_task)) = 0%nat.
Proof.
  exact (proj2 (X10_stub_stream_task_never_sends
                  [Op_Start; Op_backSource sample_env sample_source]
                  back_source_task eq_refl)).
Defined.

Lemma X11_final_progress_is_delivered_at_most_once_witness :
  created (normal_task [] false)
  /\ (count isTerminalProgress (trace (run sample_ops (normal_task [] false)))
      <= 1)%nat.
Proof.
  split; [apply normal_task_created|].
  exact (proj1 (X11_final_progress_is_delivered_at_most_once
                  (normal_task [] false) sample_ops
                  (normal_task_created [] false))).
Defined.

Lemma X20_waitFailedPiece_drops_the_piece_number_witness :
  fst <$> waitFailedPiece failedPiece
            (run [Op_call (sample_failure 1)] (normal_task [] false))
  = Some (-1, true)
  /\ snd (pullPiecesFromPeers_select pullFailedPiece 0 4
            (run [Op_call (sample_failure 1)] (normal_task [] false)))
     = (1, 1).
Proof.
  destruct (X20_waitFailedPiece_drops_the_piece_number 1 [] 0 4
              (run [Op_call (sample_failure 1)] (normal_task [] false))
              eq_refl eq_refl) as [-> ->].
  split; reflexivity.
Defined.

Lemma X21_scheduler_error_reaches_the_user_witness :
  exists pt1 pt2,
    receivePeerPacket_body false
      (normal_task [RecvError (dferrors_DfError 5000 "scheduler overloaded")]
         false) = Break pt1
    /\ verdict pt1 = (5000, "scheduler overloaded")
    /\ pullPiecesFromPeers_select (pullCtxDone context_Canceled) 0 4 pt1
       = (Break pt2, (0, 4))
    /\ count isCallbackFail (trace (pullPiecesFromPeers_deferred sample_env pt2))
       = 2%nat.
Proof.
  destruct (X21_scheduler_error_reaches_the_user false sample_env context_Canceled
              0 4 5000 "scheduler overloaded" []
              (normal_task [RecvError (dferrors_DfError 5000 "scheduler overloaded")]
                 false)
              eq_refl eq_refl eq_refl eq_refl eq_refl eq_refl)
    as (pt1 & pt2 & Hrecv & _ & Hv & Hsel & _ & Hcount & _).
  - discriminate.
  - discriminate.
  - exists pt1, pt2. repeat split; assumption.
Defined.

Lemma X22_dispatched_piece_is_not_asked_for_again_witness :
  getNextPieceNum 0
    (run [] (dispatchPieceRequest [PieceInfo.Build 0 0 1024] []
               (normal_task [] false)))
  <> 0.
Proof.
  apply (X22_dispatched_piece_is_not_asked_for_again [PieceInfo.Build 0 0 1024] []
           [] 0 (PieceInfo.Build 0 0 1024) (normal_task [] false)).
  - apply list_elem_of_here.
  - discriminate.
Defined.

Lemma X23_failed_back_source_keeps_the_code_witness :
  verdict (backSource sample_env failing_source (run [Op_Start] back_source_task))
  = (1500, "404 Not Found").
Proof.
  exact (proj1 (X23_failed_back_source_keeps_the_code sample_env failing_source
                  (errors_New "404 Not Found")
                  (run [Op_Start] back_source_task) eq_refl eq_refl)).
Defined.

Lemma X24_backSource_success_only_cancels_witness :
  sourceErr sample_source = None
  /\ trace (backSource sample_env sample_source (run [Op_Start] back_source_task))
     = trace (snd (finish sample_env
                     (calls (sourceCalls sample_source)
                        (log EvDownloadSource (run [Op_Start] back_source_task))))).
Proof.
  split; [reflexivity|].
  exact (proj2 (X24_backSource_success_only_cancels sample_env sample_source
                  (run [Op_Start] back_source_task) eq_refl)).
Defined.

Lemma X25_pullSinglePiece_success_witness :
  created small_task
  /\ exists pt',
       pullSinglePiece None sample_env
         (Build_DownloadPieceRun
            [Call_ReportPieceResult sample_env (sample_result 0 1024)] true)
         small_task = (false, pt')
       /\ readyPieces pt' = {[0]}
       /\ completedLength pt' = 1024
       /\ isCompleted pt' = true
       /\ done pt' = true.
Proof.
  split; [apply small_task_created|].
  destruct (X25_pullSinglePiece_success sample_env (sample_result 0 1024)
              sample_single_piece small_task small_task_created
              eq_refl eq_refl eq_refl)
    as (pt' & Hpull & Hready & Hlen & Hc & _ & Hd & _).
  - simpl. lia.
  - discriminate.
  - exists pt'. repeat split; assumption.
Defined.
